(** * SmartHeart front end: the page controller and its API client

    A shallow embedding of [frontend/app/page.tsx] (the [Home] component:
    file selection, analysis, CSV preview, PDF report) and of the API client
    that follows it in the same file ([uploadFiles], [checkHealth]).

    Conventions of the embedding.
    - A JavaScript [number] is an IEEE 754 binary64 value: Rocq's primitive
      [float].  Numbers that the code only ever uses as integers (HTTP status,
      file size, page index, font size, colour channel) are [N].
    - Message and label strings are [string].  The text of an uploaded file is
      a list of UTF-16 code units ([list N]), because [String.prototype.trim]
      is specified on code units.
    - [null] is [None].
    - A thrown JavaScript value is a [JsThrown]; a call that may throw returns
      [JsThrown + A].
    - Everything the code does to the outside (console, HTTP, object URLs,
      saving the PDF) is appended to a trace of [Event]s, in program order.
      What the outside answers (the backend, the snapshot library, the clock)
      is a parameter of the function that asks. *)

From Stdlib Require Import Floats ZArith NArith Lia Bool.
From Stdlib Require Import String Ascii List DecimalString.
Import ListNotations.

Local Open Scope string_scope.
Local Open Scope list_scope.

(** String concatenation, as in a template literal. *)
Infix "+++" := String.append (right associativity, at level 60).

(* ================================================================== *)
(** * JavaScript values used by the page *)
(* ================================================================== *)

Module JS.

(** A UTF-16 string as its code units. *)
Definition text := list N.

(** The code units of an ASCII literal. *)
Fixpoint units (s : string) : text :=
  match s with
  | EmptyString => []
  | String c s' => N_of_ascii c :: units s'
  end.

(** [`${n}`] for a number that holds a non-negative integer. *)
Definition show_N (n : N) : string := NilZero.string_of_uint (N.to_uint n).

(** Truthiness of a string-or-null: [null] and [""] are falsy. *)
Definition truthy_str (s : option string) : bool :=
  match s with
  | Some EmptyString => false
  | Some _ => true
  | None => false
  end.

(** [a || b] on a string-or-null left operand. *)
Definition or_else (a : option string) (b : string) : string :=
  match a with
  | Some s => if truthy_str a then s else b
  | None => b
  end.

(** [s.split(sep)] for a one-unit separator: never empty, [""] gives [[""]]. *)
Fixpoint split {A : Type} (is_sep : A -> bool) (s : list A) : list (list A) :=
  match s with
  | [] => [[]]
  | c :: rest =>
      if is_sep c then [] :: split is_sep rest
      else match split is_sep rest with
           | field :: fields => (c :: field) :: fields
           | [] => [[c]]
           end
  end.

(** WhiteSpace and LineTerminator code points of ECMAScript (all in the
    basic plane, so one code unit each). *)
Definition is_space (c : N) : bool :=
  (   (c =? 0x09) || (c =? 0x0A) || (c =? 0x0B) || (c =? 0x0C) || (c =? 0x0D)
   || (c =? 0x20) || (c =? 0xA0) || (c =? 0x1680)
   || ((0x2000 <=? c) && (c <=? 0x200A))
   || (c =? 0x2028) || (c =? 0x2029) || (c =? 0x202F) || (c =? 0x205F)
   || (c =? 0x3000) || (c =? 0xFEFF))%N.

Fixpoint trimStart (s : text) : text :=
  match s with
  | [] => []
  | c :: rest => if is_space c then trimStart rest else s
  end.

Definition trimEnd (s : text) : text := rev (trimStart (rev s)).

(** [s.trim()]. *)
Definition trim (s : text) : text := trimEnd (trimStart s).

(** [s.split(c)] on a [string], through its characters. *)
Definition chars (s : string) : list ascii := list_ascii_of_string s.

Definition split_string (sep : ascii) (s : string) : list string :=
  map string_of_list_ascii (split (Ascii.eqb sep) (chars s)).

(** [a.slice(0, n)]. *)
Definition slice0 {A : Type} (n : nat) (a : list A) : list A := firstn n a.

End JS.

(* ================================================================== *)
(** * Data model *)
(* ================================================================== *)

(** A browser [File]: its name, its size in bytes, and what [file.text()]
    resolves to ([None] when the read is rejected). *)
Record File := {
  name : string;
  size : N;
  file_text : option JS.text
}.

(** [PredictionResponse] of the API client. *)
Record PredictionResponse := {
  ecg_risk : option float;
  pcg_risk : option float;
  combined_risk : option float;
  ecg_plot_data : option (list (float * float));
  pcg_waveform_data : option (list float);
  pcg_spectrogram : option string;
  ecg_heatmap : option (list float);
  pcg_heatmap : option (list float)
}.

(** [ApiError]: the body of an error response. *)
Record ApiError := {
  detail : option string;
  status : option N
}.

(** The parts of an axios response that the client reads.  [data] is [None]
    when the body is missing ([data?.detail] is then [undefined]). *)
Record AxiosResponse := {
  response_status : N;
  response_data : option ApiError
}.

(** An [AxiosError]: [response] is set when the server answered, [request]
    is truthy when a request object was created. *)
Record AxiosError := {
  axios_message : string;
  response : option AxiosResponse;
  request : bool
}.

(** What a [catch] clause can receive. *)
Inductive JsThrown :=
| ThrownAxios (e : AxiosError)      (* axios.isAxiosError, and an Error *)
| ThrownError (message : string)    (* any other Error instance *)
| ThrownValue (shown : string).     (* a value that is not an Error *)

Definition isAxiosError (t : JsThrown) : option AxiosError :=
  match t with ThrownAxios e => Some e | _ => None end.

(** [t instanceof Error], with [t.message] when it holds. *)
Definition instanceofError (t : JsThrown) : option string :=
  match t with
  | ThrownAxios e => Some (axios_message e)
  | ThrownError m => Some m
  | ThrownValue _ => None
  end.

(** Multipart body: the parts in the order they were appended. *)
Definition FormData := list (string * File).

(** One argument of a console call. *)
Inductive LogArg :=
| ArgStr (s : string)
| ArgThrown (t : JsThrown)
| ArgFields (fields : list (string * string))
| ArgData (r : PredictionResponse).

(** The view state of [Home], one field per [useState]. *)
Record State := {
  ecgFile : option File;
  pcgFile : option File;
  result : option PredictionResponse;
  loading : bool;
  error : option string;
  activeTab : N;
  isPlaying : bool;
  pcgAudioUrl : option string;
  showCsvModal : bool;
  csvData : option (list (list JS.text));
  csvLoading : bool;
  reportLoading : bool
}.

(** A text, line or image placed on a page of the PDF. *)
Inductive Align := AlignLeft | AlignCenter | AlignRight.

Record Style := {
  fontSize : N;
  textColor : N * N * N;
  bold : bool
}.

Inductive Item :=
| IText (txt : string) (x y : float) (align : Align) (style : Style)
| ILine (x1 y1 x2 y2 : float) (drawColor : N * N * N)
| IImage (data : string) (format : string) (x y w h : float).

Definition Page := list Item.

(** The [jsPDF] document: its pages, the (0-based) index of the page being
    drawn on, and the current text style and draw colour. *)
Record Pdf := {
  pages : list Page;
  cur : nat;
  style : Style;
  drawColor : N * N * N
}.

(** Effects, in program order. *)
Inductive Event :=
| ConsoleLog (args : list LogArg)
| ConsoleError (args : list LogArg)
| HttpPost (url : string) (body : FormData) (timeout : N)
| HttpGet (url : string) (timeout : N)
| CreateObjectURL (file : File) (url : string)
| RevokeObjectURL (url : string)
| Await (view : State)   (* the handler awaits the call whose events
                            follow; [view] is what is rendered meanwhile *)
| Save (filename : string) (doc : Pdf).

(* ================================================================== *)
(** * The API client *)
(* ================================================================== *)

Section ApiClient.

(** [process.env.NEXT_PUBLIC_API_URL], and what the backend answers to a
    POST and to a GET: the decoded body, the status of a resolved GET, or
    the value axios rejects with. *)
Variable NEXT_PUBLIC_API_URL : option string.
Variable axios_post : string -> FormData -> JsThrown + PredictionResponse.
Variable axios_get : string -> JsThrown + N.

Definition API_BASE_URL : string :=
  JS.or_else NEXT_PUBLIC_API_URL "http://localhost:8000".

Definition uploading_log (kind : string) (f : File) : Event :=
  ConsoleLog
    [ArgStr ("Uploading " +++ kind +++ " file: " +++ name f
             +++ " (" +++ JS.show_N (size f) +++ " bytes)")].

(** The [try] block of [uploadFiles]. *)
Definition uploadFiles_try (ecgFile pcgFile : option File)
  : list Event * (JsThrown + PredictionResponse) :=
  match ecgFile, pcgFile with
  | None, None =>
      ([], inl (ThrownError "At least one file (ECG or PCG) must be provided"))
  | _, _ =>
      let ecg_part :=
        match ecgFile with Some f => [("ecg_file", f)] | None => [] end in
      let ecg_log :=
        match ecgFile with Some f => [uploading_log "ECG" f] | None => [] end in
      let pcg_part :=
        match pcgFile with Some f => [("pcg_file", f)] | None => [] end in
      let pcg_log :=
        match pcgFile with Some f => [uploading_log "PCG" f] | None => [] end in
      let formData := ecg_part ++ pcg_part in
      let url := API_BASE_URL +++ "/predict" in
      let sent := ecg_log ++ pcg_log ++ [HttpPost url formData 300000] in
      match axios_post url formData with
      | inl thrown => (sent, inl thrown)
      | inr data =>
          (sent ++ [ConsoleLog [ArgStr "Prediction successful:"; ArgData data]],
           inr data)
      end
  end.

(** The tail of the [catch] clause, after the axios branch fell through. *)
Definition uploadFiles_other (error : JsThrown) : list Event * JsThrown :=
  match instanceofError error with
  | Some message =>
      ([ConsoleError [ArgStr "Upload Error:"; ArgStr message]], error)
  | None =>
      ([ConsoleError [ArgStr "Unknown error:"; ArgThrown error]],
       ThrownError "An unexpected error occurred during file upload")
  end.

(** The [catch] clause of [uploadFiles]: what is logged and what is
    thrown on. *)
Definition uploadFiles_catch (error : JsThrown) : list Event * JsThrown :=
  match isAxiosError error with
  | Some axiosError =>
      match response axiosError with
      | Some resp =>
          let errorMessage :=
            JS.or_else
              (match response_data resp with
               | Some body => detail body
               | None => None
               end)
              "Server error occurred" in
          ([ConsoleError
              [ArgStr "API Error:";
               ArgFields [("status", JS.show_N (response_status resp));
                          ("message", errorMessage)]]],
           ThrownError
             (errorMessage +++ " (Status: "
              +++ JS.show_N (response_status resp) +++ ")"))
      | None =>
          if request axiosError then
            ([ConsoleError [ArgStr "Network Error: No response from server"]],
             ThrownError
               "Network error: Unable to reach the server. Please check if the backend is running.")
          else uploadFiles_other error
      end
  | None => uploadFiles_other error
  end.

Definition uploadFiles (ecgFile pcgFile : option File)
  : list Event * (JsThrown + PredictionResponse) :=
  match uploadFiles_try ecgFile pcgFile with
  | (events, inr data) => (events, inr data)
  | (events, inl error) =>
      let '(logged, thrown) := uploadFiles_catch error in
      (events ++ logged, inl thrown)
  end.

Definition checkHealth : list Event * (JsThrown + bool) :=
  let url := API_BASE_URL +++ "/health" in
  match axios_get url with
  | inr status_code => ([HttpGet url 5000], inr (status_code =? 200)%N)
  | inl error =>
      ([HttpGet url 5000;
        ConsoleError [ArgStr "Health check failed:"; ArgThrown error]],
       inr false)
  end.

End ApiClient.

(** The message a caller reads from what [uploadFiles] threw. *)
Definition thrown_message (t : JsThrown) : option string := instanceofError t.

(** An event that reaches the network. *)
Definition is_network (e : Event) : bool :=
  match e with
  | HttpPost _ _ _ | HttpGet _ _ => true
  | _ => false
  end.

Definition network_calls (trace : list Event) : list Event :=
  filter is_network trace.

(* ================================================================== *)
(** * The [Home] component: state and handlers *)
(* ================================================================== *)

(** The [useState] setters. *)
Definition setEcgFile (v : option File) (s : State) : State :=
  {| ecgFile := v; pcgFile := pcgFile s; result := result s;
     loading := loading s; error := error s; activeTab := activeTab s;
     isPlaying := isPlaying s; pcgAudioUrl := pcgAudioUrl s;
     showCsvModal := showCsvModal s; csvData := csvData s;
     csvLoading := csvLoading s; reportLoading := reportLoading s |}.

Definition setPcgFile (v : option File) (s : State) : State :=
  {| ecgFile := ecgFile s; pcgFile := v; result := result s;
     loading := loading s; error := error s; activeTab := activeTab s;
     isPlaying := isPlaying s; pcgAudioUrl := pcgAudioUrl s;
     showCsvModal := showCsvModal s; csvData := csvData s;
     csvLoading := csvLoading s; reportLoading := reportLoading s |}.

Definition setResult (v : option PredictionResponse) (s : State) : State :=
  {| ecgFile := ecgFile s; pcgFile := pcgFile s; result := v;
     loading := loading s; error := error s; activeTab := activeTab s;
     isPlaying := isPlaying s; pcgAudioUrl := pcgAudioUrl s;
     showCsvModal := showCsvModal s; csvData := csvData s;
     csvLoading := csvLoading s; reportLoading := reportLoading s |}.

Definition setLoading (v : bool) (s : State) : State :=
  {| ecgFile := ecgFile s; pcgFile := pcgFile s; result := result s;
     loading := v; error := error s; activeTab := activeTab s;
     isPlaying := isPlaying s; pcgAudioUrl := pcgAudioUrl s;
     showCsvModal := showCsvModal s; csvData := csvData s;
     csvLoading := csvLoading s; reportLoading := reportLoading s |}.

Definition setError (v : option string) (s : State) : State :=
  {| ecgFile := ecgFile s; pcgFile := pcgFile s; result := result s;
     loading := loading s; error := v; activeTab := activeTab s;
     isPlaying := isPlaying s; pcgAudioUrl := pcgAudioUrl s;
     showCsvModal := showCsvModal s; csvData := csvData s;
     csvLoading := csvLoading s; reportLoading := reportLoading s |}.

Definition setActiveTab (v : N) (s : State) : State :=
  {| ecgFile := ecgFile s; pcgFile := pcgFile s; result := result s;
     loading := loading s; error := error s; activeTab := v;
     isPlaying := isPlaying s; pcgAudioUrl := pcgAudioUrl s;
     showCsvModal := showCsvModal s; csvData := csvData s;
     csvLoading := csvLoading s; reportLoading := reportLoading s |}.

Definition setIsPlaying (v : bool) (s : State) : State :=
  {| ecgFile := ecgFile s; pcgFile := pcgFile s; result := result s;
     loading := loading s; error := error s; activeTab := activeTab s;
     isPlaying := v; pcgAudioUrl := pcgAudioUrl s;
     showCsvModal := showCsvModal s; csvData := csvData s;
     csvLoading := csvLoading s; reportLoading := reportLoading s |}.

Definition setPcgAudioUrl (v : option string) (s : State) : State :=
  {| ecgFile := ecgFile s; pcgFile := pcgFile s; result := result s;
     loading := loading s; error := error s; activeTab := activeTab s;
     isPlaying := isPlaying s; pcgAudioUrl := v;
     showCsvModal := showCsvModal s; csvData := csvData s;
     csvLoading := csvLoading s; reportLoading := reportLoading s |}.

Definition setShowCsvModal (v : bool) (s : State) : State :=
  {| ecgFile := ecgFile s; pcgFile := pcgFile s; result := result s;
     loading := loading s; error := error s; activeTab := activeTab s;
     isPlaying := isPlaying s; pcgAudioUrl := pcgAudioUrl s;
     showCsvModal := v; csvData := csvData s;
     csvLoading := csvLoading s; reportLoading := reportLoading s |}.

Definition setCsvData (v : option (list (list JS.text))) (s : State) : State :=
  {| ecgFile := ecgFile s; pcgFile := pcgFile s; result := result s;
     loading := loading s; error := error s; activeTab := activeTab s;
     isPlaying := isPlaying s; pcgAudioUrl := pcgAudioUrl s;
     showCsvModal := showCsvModal s; csvData := v;
     csvLoading := csvLoading s; reportLoading := reportLoading s |}.

Definition setCsvLoading (v : bool) (s : State) : State :=
  {| ecgFile := ecgFile s; pcgFile := pcgFile s; result := result s;
     loading := loading s; error := error s; activeTab := activeTab s;
     isPlaying := isPlaying s; pcgAudioUrl := pcgAudioUrl s;
     showCsvModal := showCsvModal s; csvData := csvData s;
     csvLoading := v; reportLoading := reportLoading s |}.

Definition setReportLoading (v : bool) (s : State) : State :=
  {| ecgFile := ecgFile s; pcgFile := pcgFile s; result := result s;
     loading := loading s; error := error s; activeTab := activeTab s;
     isPlaying := isPlaying s; pcgAudioUrl := pcgAudioUrl s;
     showCsvModal := showCsvModal s; csvData := csvData s;
     csvLoading := csvLoading s; reportLoading := v |}.

(** The component as first rendered. *)
Definition initial_state : State :=
  {| ecgFile := None; pcgFile := None; result := None;
     loading := false; error := None; activeTab := 0;
     isPlaying := false; pcgAudioUrl := None;
     showCsvModal := false; csvData := None;
     csvLoading := false; reportLoading := false |}.

(** The page in its browser: the view state, the object URLs that are
    live (created and not revoked), the number of URLs minted so far, and
    the trace of effects. *)
Record World := {
  ui : State;
  live : list string;
  minted : N;
  trace : list Event
}.

Definition initial_world : World :=
  {| ui := initial_state; live := []; minted := 0; trace := [] |}.

Definition on_ui (f : State -> State) (w : World) : World :=
  {| ui := f (ui w); live := live w; minted := minted w; trace := trace w |}.

Definition emit (events : list Event) (w : World) : World :=
  {| ui := ui w; live := live w; minted := minted w;
     trace := trace w ++ events |}.

(** [URL.createObjectURL(file)]: a fresh [blob:] URL, live until revoked. *)
Definition createObjectURL (file : File) (w : World) : string * World :=
  let url := "blob:" +++ JS.show_N (minted w) in
  (url,
   {| ui := ui w; live := live w ++ [url]; minted := N.succ (minted w);
      trace := trace w ++ [CreateObjectURL file url] |}).

(** [URL.revokeObjectURL(url)]. *)
Definition revokeObjectURL (url : string) (w : World) : World :=
  {| ui := ui w; live := remove string_dec url (live w); minted := minted w;
     trace := trace w ++ [RevokeObjectURL url] |}.

(** A change event of a file input: [e.target.files], [None] for [null]. *)
Definition ChangeEvent := option (list File).

(** [e.target.files && e.target.files[0]]. *)
Definition first_file (e : ChangeEvent) : option File :=
  match e with
  | Some (file :: _) => Some file
  | _ => None
  end.

Definition handleEcgChange (e : ChangeEvent) (s : State) : State :=
  match first_file e with
  | Some file => setCsvData None (setError None (setEcgFile (Some file) s))
  | None => s
  end.

Definition handlePcgChange (e : ChangeEvent) (w : World) : World :=
  match first_file e with
  | Some file =>
      let w1 := on_ui (setPcgFile (Some file)) w in
      let w2 := on_ui (setError None) w1 in
      let w3 :=
        match pcgAudioUrl (ui w) with
        | Some url =>
            if JS.truthy_str (Some url) then revokeObjectURL url w2 else w2
        | None => w2
        end in
      let '(audioUrl, w4) := createObjectURL file w3 in
      let w5 := on_ui (setPcgAudioUrl (Some audioUrl)) w4 in
      on_ui (setIsPlaying false) w5
  | None => w
  end.

(** The rows of [handleViewCsvData]:
    [text.trim().split("\n").map((row) => row.split(","))]. *)
Definition parse_csv (text : JS.text) : list (list JS.text) :=
  map (JS.split (N.eqb 0x2C)) (JS.split (N.eqb 0x0A) (JS.trim text)).

Definition handleViewCsvData (w : World) : World :=
  match ecgFile (ui w) with
  | None => w
  | Some file =>
      let w1 := on_ui (setCsvLoading true) w in
      let w2 := emit [Await (ui w1)] w1 in
      let w3 :=
        match file_text file with
        | Some text =>
            on_ui (setShowCsvModal true)
              (on_ui (setCsvData (Some (parse_csv text))) w2)
        | None => on_ui (setError (Some "Failed to parse CSV file")) w2
        end in
      on_ui (setCsvLoading false) w3
  end.

(** What the CSV modal shows: the size badge, the column headings, the
    numbered rows of the table body, and the note under the table. *)
Record CsvModal := {
  badge_rows : nat;
  badge_columns : nat;
  headings : list string;
  body : list (nat * list JS.text);
  note : option string
}.

(** [a.map((x, i) => f(x, i))], the index counted from [from]. *)
Fixpoint map_indexed {A B : Type} (f : A -> nat -> B) (from : nat) (a : list A)
  : list B :=
  match a with
  | [] => []
  | x :: rest => f x from :: map_indexed f (S from) rest
  end.

(** The modal of the JSX, rendered when [showCsvModal && csvData]. *)
Definition csv_modal (s : State) : option CsvModal :=
  match csvData s with
  | Some rows =>
      if showCsvModal s then
        let first_row := match rows with r :: _ => r | [] => [] end in
        Some
          {| badge_rows := length rows;
             badge_columns := length first_row;
             headings :=
               map_indexed
                 (fun _ colIndex =>
                    "Col " +++ JS.show_N (N.of_nat (colIndex + 1)))
                 0 first_row;
             body :=
               map_indexed (fun row rowIndex => (rowIndex + 1, row)) 0
                 (JS.slice0 200 rows);
             note :=
               if Nat.ltb 200 (length rows) then
                 Some ("Showing first 200 rows of "
                       +++ JS.show_N (N.of_nat (length rows)) +++ " total rows")
               else None |}
      else None
  | None => None
  end.

Definition getRiskColor (risk : option float) : string :=
  match risk with
  | None => "text-gray-400"
  | Some r => if (0.5 <? r)%float then "text-red-400" else "text-emerald-400"
  end.

Definition getRiskLabel (risk : option float) : string :=
  match risk with
  | None => "N/A"
  | Some r => if (0.5 <? r)%float then "HIGH RISK" else "LOW RISK"
  end.

Definition handleAudioEnded (s : State) : State := setIsPlaying false s.

(** A chart point [{ x, y }]. *)
Definition Point := (float * float)%type.

Definition getEcgChartData (s : State) : list Point :=
  match result s with
  | Some r =>
      match ecg_plot_data r with
      | Some samples => map (fun xy => (fst xy, snd xy)) samples
      | None => []
      end
  | None => []
  end.

(** The sample index as a number. *)
Definition index_number (i : nat) : float :=
  of_uint63 (Uint63.of_Z (Z.of_nat i)).

Definition getPcgChartData (s : State) : list Point :=
  match result s with
  | Some r =>
      match pcg_waveform_data r with
      | Some samples => map_indexed (fun y x => (index_number x, y)) 0 samples
      | None => []
      end
  | None => []
  end.

Section Analyze.

Variable NEXT_PUBLIC_API_URL : option string.
Variable axios_post : string -> FormData -> JsThrown + PredictionResponse.

(** The [catch] clause of [handleAnalyze]. *)
Definition analysis_error (err : JsThrown) : string :=
  match instanceofError err with
  | Some message => message
  | None => "An error occurred during analysis"
  end.

Definition handleAnalyze (w : World) : World :=
  match ecgFile (ui w), pcgFile (ui w) with
  | None, None =>
      on_ui (setError (Some "Please upload at least one file (ECG or PCG)")) w
  | _, _ =>
      let w1 := on_ui (setLoading true) w in
      let w2 := on_ui (setError None) w1 in
      let w3 := emit [Await (ui w2)] w2 in
      let '(events, outcome) :=
        uploadFiles NEXT_PUBLIC_API_URL axios_post
          (ecgFile (ui w)) (pcgFile (ui w)) in
      let w4 := emit events w3 in
      let w5 :=
        match outcome with
        | inr response =>
            on_ui (setActiveTab 0) (on_ui (setResult (Some response)) w4)
        | inl err =>
            emit [ConsoleError [ArgStr "Analysis error:"; ArgThrown err]]
              (on_ui (setError (Some (analysis_error err))) w4)
        end in
      on_ui (setLoading false) w5
  end.

End Analyze.

(* ================================================================== *)
(** * The PDF document ([jsPDF]) *)
(* ================================================================== *)

(** [new jsPDF("p", "mm", "a4")]: one blank page, 16 pt black text. *)
Definition new_jsPDF : Pdf :=
  {| pages := [[]]; cur := 0;
     style := {| fontSize := 16; textColor := (0, 0, 0)%N; bold := false |};
     drawColor := (0, 0, 0)%N |}.

Definition with_style (st : Style) (pdf : Pdf) : Pdf :=
  {| pages := pages pdf; cur := cur pdf; style := st;
     drawColor := drawColor pdf |}.

Definition setFontSize (n : N) (pdf : Pdf) : Pdf :=
  with_style {| fontSize := n; textColor := textColor (style pdf);
                bold := bold (style pdf) |} pdf.

Definition setTextColor (r g b : N) (pdf : Pdf) : Pdf :=
  with_style {| fontSize := fontSize (style pdf); textColor := (r, g, b);
                bold := bold (style pdf) |} pdf.

(** [pdf.setFont("helvetica", "bold" | "normal")]. *)
Definition setFont (is_bold : bool) (pdf : Pdf) : Pdf :=
  with_style {| fontSize := fontSize (style pdf);
                textColor := textColor (style pdf); bold := is_bold |} pdf.

Definition setDrawColor (r g b : N) (pdf : Pdf) : Pdf :=
  {| pages := pages pdf; cur := cur pdf; style := style pdf;
     drawColor := (r, g, b) |}.

(** Apply [f] to the page at index [i]. *)
Fixpoint on_page (i : nat) (f : Page -> Page) (ps : list Page) : list Page :=
  match ps, i with
  | [], _ => []
  | p :: rest, O => f p :: rest
  | p :: rest, S j => p :: on_page j f rest
  end.

(** Put an item on the current page. *)
Definition draw (it : Item) (pdf : Pdf) : Pdf :=
  {| pages := on_page (cur pdf) (fun p => p ++ [it]) (pages pdf);
     cur := cur pdf; style := style pdf; drawColor := drawColor pdf |}.

Definition pdf_text (txt : string) (x y : float) (align : Align) (pdf : Pdf)
  : Pdf :=
  draw (IText txt x y align (style pdf)) pdf.

Definition pdf_line (x1 y1 x2 y2 : float) (pdf : Pdf) : Pdf :=
  draw (ILine x1 y1 x2 y2 (drawColor pdf)) pdf.

(** [pdf.addPage()]: a blank page after the last one, which becomes the
    current page. *)
Definition addPage (pdf : Pdf) : Pdf :=
  {| pages := pages pdf ++ [[]]; cur := length (pages pdf);
     style := style pdf; drawColor := drawColor pdf |}.

(** [pdf.setPage(i)], pages counted from 1. *)
Definition setPage (i : nat) (pdf : Pdf) : Pdf :=
  {| pages := pages pdf; cur := i - 1; style := style pdf;
     drawColor := drawColor pdf |}.

Definition getNumberOfPages (pdf : Pdf) : nat := length (pages pdf).

(* ================================================================== *)
(** * The report generator *)
(* ================================================================== *)

(** The chart regions that [generateReport] snapshots, one per ref. *)
Inductive Chart := RiskChart | EcgChart | PcgChart.

(** [ref.current] is set exactly when the JSX renders the element: the
    risk chart with any result, the ECG chart on tab 0 with ECG plot data,
    the PCG chart on tab 1 with PCG waveform data. *)
Definition ref_current (s : State) (c : Chart) : bool :=
  match result s with
  | None => false
  | Some r =>
      match c with
      | RiskChart => true
      | EcgChart =>
          (activeTab s =? 0)%N
          && match ecg_plot_data r with Some _ => true | None => false end
      | PcgChart =>
          (activeTab s =? 1)%N
          && match pcg_waveform_data r with Some _ => true | None => false end
      end
  end.

(** The canvas [html2canvas] resolves to. *)
Record Canvas := {
  width : float;
  height : float;
  toDataURL : JsThrown + string
}.

(** The layout in progress: the document, the vertical cursor, and what
    was written to the console. *)
Record Layout := {
  doc : Pdf;
  yPos : float;
  console : list Event
}.

Definition on_doc (f : Pdf -> Pdf) (l : Layout) : Layout :=
  {| doc := f (doc l); yPos := yPos l; console := console l |}.

Definition advance (dy : float) (l : Layout) : Layout :=
  {| doc := doc l; yPos := (yPos l + dy)%float; console := console l |}.

Definition set_yPos (y : float) (l : Layout) : Layout :=
  {| doc := doc l; yPos := y; console := console l |}.

Definition console_error (args : list LogArg) (l : Layout) : Layout :=
  {| doc := doc l; yPos := yPos l;
     console := console l ++ [ConsoleError args] |}.

Definition margin : float := 15.

(** Section headers are the only 14 pt text of the report. *)
Definition addSectionHeader (text : string) (l : Layout) : Layout :=
  let l1 := on_doc (setFontSize 14) l in
  let l2 := on_doc (setTextColor 16 185 129) l1 in
  let l3 := on_doc (pdf_text text margin (yPos l2) AlignLeft) l2 in
  let l4 := advance 8 l3 in
  let l5 := on_doc (setTextColor 0 0 0) l4 in
  on_doc (setFontSize 11) l5.

Section Report.

(** What the platform answers during one run: the page width of the
    document, the width of a text in the current style, [x.toFixed(1)],
    the three renderings of [now], the snapshot of each chart region, and
    the error [addImage] throws on image data it cannot place. *)
Variable pageWidth : float.
Variable getTextWidth : Style -> string -> float.
Variable toFixed1 : float -> string.
Variable toLocaleDateString toLocaleTimeString toISOString : string.
Variable html2canvas : Chart -> JsThrown + Canvas.
Variable addImage_error : string -> option JsThrown.

Definition addImage (data format : string) (x y w h : float) (pdf : Pdf)
  : JsThrown + Pdf :=
  match addImage_error data with
  | Some err => inl err
  | None => inr (draw (IImage data format x y w h) pdf)
  end.

Definition addText (label value : string) (indent : float) (l : Layout)
  : Layout :=
  let l1 := on_doc (setFont true) l in
  let l2 :=
    on_doc (pdf_text (label +++ ": ") (margin + indent)%float (yPos l1)
              AlignLeft) l1 in
  let labelWidth := getTextWidth (style (doc l2)) (label +++ ": ") in
  let l3 := on_doc (setFont false) l2 in
  let l4 :=
    on_doc (pdf_text value (margin + indent + labelWidth)%float (yPos l3)
              AlignLeft) l3 in
  advance 6 l4.

(** The risk line of the report:
    [`${(risk * 100).toFixed(1)}% (${risk > 0.5 ? "HIGH RISK" : "LOW RISK"})`],
    or ["Not Available"] for [null]. *)
Definition riskText (risk : option float) : string :=
  match risk with
  | Some r =>
      toFixed1 (r * 100)%float +++ "% ("
      +++ (if (0.5 <? r)%float then "HIGH RISK" else "LOW RISK") +++ ")"
  | None => "Not Available"
  end.

(** "Check if we need a new page". *)
Definition page_break (imgHeight : float) (l : Layout) : Layout :=
  if (280 <? yPos l + imgHeight)%float
  then set_yPos 20 (on_doc addPage l)
  else l.

(** Header, title lines and the divider. *)
Definition report_header (l : Layout) : Layout :=
  let l := on_doc (setFontSize 22) l in
  let l := on_doc (setTextColor 16 185 129) l in
  let l :=
    on_doc (pdf_text "SmartHeart Analysis Report" (pageWidth / 2)%float
              (yPos l) AlignCenter) l in
  let l := advance 10 l in
  let l := on_doc (setFontSize 10) l in
  let l := on_doc (setTextColor 100 100 100) l in
  let l :=
    on_doc (pdf_text
              "Bimodal Deep Learning for ECG and PCG-Based Cardiac Monitoring"
              (pageWidth / 2)%float (yPos l) AlignCenter) l in
  let l := advance 15 l in
  let l := on_doc (setFontSize 10) l in
  let l := on_doc (setTextColor 0 0 0) l in
  let l :=
    on_doc (pdf_text
              ("Report Generated: " +++ toLocaleDateString +++ " at "
               +++ toLocaleTimeString)
              margin (yPos l) AlignLeft) l in
  let l := advance 15 l in
  let l := on_doc (setDrawColor 200 200 200) l in
  on_doc (pdf_line margin (yPos l - 5)%float (pageWidth - margin)%float
            (yPos l - 5)%float) l.

Definition risk_section (r : PredictionResponse) (l : Layout) : Layout :=
  let l := addSectionHeader "Risk Assessment Results" l in
  let l := advance 2 l in
  let l := addText "ECG Risk" (riskText (ecg_risk r)) 0 l in
  let l := addText "PCG Risk" (riskText (pcg_risk r)) 0 l in
  let l := addText "Combined Risk" (riskText (combined_risk r)) 0 l in
  advance 10 l.

Definition files_section (s : State) (l : Layout) : Layout :=
  let l := addSectionHeader "Files Analyzed" l in
  let l := advance 2 l in
  let l :=
    match ecgFile s with
    | Some f => addText "ECG File" (name f) 0 l
    | None => l
    end in
  let l :=
    match pcgFile s with
    | Some f => addText "PCG File" (name f) 0 l
    | None => l
    end in
  advance 10 l.

(** The body of one chart's [try] block, with its [catch].  The source
    writes this block three times, for the risk, ECG and PCG charts,
    differing only in the element, the section title and the console
    message. *)
Definition capture_chart (chart : Chart) (title failure : string)
    (l : Layout) : Layout :=
  match html2canvas chart with
  | inl err => console_error [ArgStr failure; ArgThrown err] l
  | inr canvas =>
      match toDataURL canvas with
      | inl err => console_error [ArgStr failure; ArgThrown err] l
      | inr imgData =>
          let imgWidth := (pageWidth - 2 * margin)%float in
          let imgHeight := (height canvas * imgWidth / width canvas)%float in
          let l1 := page_break imgHeight l in
          let l2 := addSectionHeader title l1 in
          match addImage imgData "PNG" margin (yPos l2) imgWidth imgHeight
                  (doc l2) with
          | inl err => console_error [ArgStr failure; ArgThrown err] l2
          | inr pdf =>
              advance (imgHeight + 10)%float (on_doc (fun _ => pdf) l2)
          end
      end
  end.

Definition risk_chart (s : State) (l : Layout) : Layout :=
  if ref_current s RiskChart
  then capture_chart RiskChart "Risk Assessment Overview"
         "Failed to capture risk chart:" l
  else l.

Definition ecg_chart (r : PredictionResponse) (s : State) (l : Layout)
  : Layout :=
  match ecg_plot_data r with
  | Some _ =>
      if ref_current s EcgChart
      then capture_chart EcgChart "ECG Signal Visualization"
             "Failed to capture ECG chart:" l
      else l
  | None => l
  end.

Definition pcg_chart (r : PredictionResponse) (s : State) (l : Layout)
  : Layout :=
  match pcg_waveform_data r with
  | Some _ =>
      if ref_current s PcgChart
      then capture_chart PcgChart "PCG Waveform Visualization"
             "Failed to capture PCG chart:" l
      else l
  | None => l
  end.

Definition spectrogram (r : PredictionResponse) (l : Layout) : Layout :=
  match pcg_spectrogram r with
  | Some image =>
      if JS.truthy_str (Some image) then
        let imgWidth := (pageWidth - 2 * margin)%float in
        let imgHeight := 60%float in
        let l1 := page_break imgHeight l in
        let l2 := addSectionHeader "PCG Spectrogram" l1 in
        match addImage image "PNG" margin (yPos l2) imgWidth imgHeight
                (doc l2) with
        | inl err =>
            console_error [ArgStr "Failed to add spectrogram:"; ArgThrown err]
              l2
        | inr pdf => advance (imgHeight + 10)%float (on_doc (fun _ => pdf) l2)
        end
      else l
  | None => l
  end.

(** The footer of page [i]. *)
Definition footer (pageCount i : nat) (pdf : Pdf) : Pdf :=
  let pdf := setPage i pdf in
  let pdf := setFontSize 8 pdf in
  let pdf := setTextColor 150 150 150 pdf in
  let pdf :=
    pdf_text
      "SmartHeart - AI-powered multimodal cardiovascular risk assessment system | For research and educational purposes only"
      (pageWidth / 2)%float 290 AlignCenter pdf in
  pdf_text
    ("Page " +++ JS.show_N (N.of_nat i) +++ " of "
     +++ JS.show_N (N.of_nat pageCount))
    (pageWidth - margin)%float 290 AlignRight pdf.

(** [for (let i = 1; i <= pageCount; i++)]. *)
Definition footers (pdf : Pdf) : Pdf :=
  let pageCount := getNumberOfPages pdf in
  fold_left (fun pdf i => footer pageCount i pdf) (seq 1 pageCount) pdf.

(** Everything [generateReport] lays out before the footer. *)
Definition layout (r : PredictionResponse) (s : State) : Layout :=
  let l := {| doc := new_jsPDF; yPos := 20; console := [] |} in
  let l := report_header l in
  let l := risk_section r l in
  let l := files_section s l in
  let l := risk_chart s l in
  let l := ecg_chart r s l in
  let l := pcg_chart r s l in
  spectrogram r l.

Definition report_filename : string :=
  "SmartHeart_Report_"
  +++ hd "" (JS.split_string "T"%char toISOString) +++ ".pdf".

(** [generateReport].  The [jsPDF] drawing calls and [save] are taken not
    to throw, so the outer [catch] is not entered; the per-chart [try]
    blocks are as written. *)
Definition generateReport (w : World) : World :=
  match result (ui w) with
  | None => w
  | Some r =>
      let w1 := on_ui (setReportLoading true) w in
      let w2 := emit [Await (ui w1)] w1 in
      let l := layout r (ui w) in
      let pdf := footers (doc l) in
      let w3 := emit (console l ++ [Save report_filename pdf]) w2 in
      on_ui (setReportLoading false) w3
  end.

End Report.

(* ================================================================== *)
(** * A concrete platform and sample inputs *)
(* ================================================================== *)

Module Sample.

(** [x.toFixed(1)] computed exactly from the binary expansion of [x]:
    the integer nearest to [10 * |x|], ties upward, printed with one
    decimal.  It agrees with the platform for [|x| < 1e21]. *)
Definition toFixed1 (x : float) : string :=
  match Prim2SF x with
  | S754_nan => "NaN"
  | S754_infinity s => if s then "-Infinity" else "Infinity"
  | S754_zero _ => "0.0"
  | S754_finite s m e =>
      let n :=
        if (0 <=? e)%Z then (10 * Zpos m * 2 ^ e)%Z
        else ((20 * Zpos m + 2 ^ (- e)) / 2 ^ (1 - e))%Z in
      (if s then "-" else "")
      +++ JS.show_N (Z.to_N (n / 10)) +++ "."
      +++ JS.show_N (Z.to_N (n mod 10))
  end.

Definition ecg_csv : File :=
  {| name := "ecg.csv"; size := 11;
     file_text :=
       Some (JS.units "1,2" ++ [0x0A%N] ++ JS.units "3,4" ++ [0x0A%N]
             ++ JS.units "5,6") |}.

(** The same kind of file, ending in a newline. *)
Definition terminated_csv : File :=
  {| name := "terminated.csv"; size := 8;
     file_text :=
       Some (JS.units "1,2" ++ [0x0A%N] ++ JS.units "3,4" ++ [0x0A%N]) |}.

(** 201 rows of two fields. *)
Definition long_csv : File :=
  {| name := "long.csv"; size := 804;
     file_text :=
       Some (concat (repeat (JS.units "7,8" ++ [0x0A%N]) 201)) |}.

Definition heart_wav : File :=
  {| name := "heart.wav"; size := 44; file_text := None |}.

Definition murmur_wav : File :=
  {| name := "murmur.wav"; size := 88; file_text := None |}.

(** A response for a PCG-less, plot-less analysis: risks only. *)
Definition risks_only : PredictionResponse :=
  {| ecg_risk := Some 0.75%float; pcg_risk := None;
     combined_risk := Some 0.25%float;
     ecg_plot_data := None; pcg_waveform_data := None;
     pcg_spectrogram := None; ecg_heatmap := None; pcg_heatmap := None |}.

(** A response with every chart's data. *)
Definition full : PredictionResponse :=
  {| ecg_risk := Some 0.75%float; pcg_risk := Some 0.5%float;
     combined_risk := Some 0.625%float;
     ecg_plot_data := Some [(0, 0.125); (1, 0.25)]%float;
     pcg_waveform_data := Some [0.5; 0.25]%float;
     pcg_spectrogram := Some "data:image/png;base64,AAAA";
     ecg_heatmap := None; pcg_heatmap := None |}.

Definition canvas : Canvas :=
  {| width := 1280; height := 640;
     toDataURL := inr "data:image/png;base64,iVBOR" |}.

(** Every snapshot succeeds. *)
Definition snapshot_ok (_ : Chart) : JsThrown + Canvas := inr canvas.

(** The snapshot of the risk chart is rejected, the others succeed. *)
Definition snapshot_risk_fails (c : Chart) : JsThrown + Canvas :=
  match c with
  | RiskChart => inl (ThrownError "Unable to find element in cloned iframe")
  | _ => inr canvas
  end.

Definition textWidth (_ : Style) (s : string) : float :=
  (2 * of_uint63 (Uint63.of_Z (Z.of_nat (String.length s))))%float.

Definition report (snapshot : Chart -> JsThrown + Canvas) : World -> World :=
  generateReport 210 textWidth toFixed1 "11/3/2026" "9:41:00 AM"
    "2026-11-03T09:41:00.000Z" snapshot (fun _ => None).

Definition with_result (r : PredictionResponse) (tab : N) : World :=
  on_ui (setActiveTab tab)
    (on_ui (setResult (Some r))
       (on_ui (setEcgFile (Some ecg_csv)) initial_world)).

(** The backend answers every upload with [risks_only]. *)
Definition backend_ok (_ : string) (_ : FormData)
  : JsThrown + PredictionResponse := inr risks_only.

(** The backend answers 500 with a detail. *)
Definition backend_500 (_ : string) (_ : FormData)
  : JsThrown + PredictionResponse :=
  inl (ThrownAxios
         {| axios_message := "Request failed with status code 500";
            response :=
              Some {| response_status := 500;
                      response_data :=
                        Some {| detail := Some "Model not loaded";
                                status := None |} |};
            request := true |}).

(** The backend cannot be reached: a request object, no response. *)
Definition backend_down (_ : string) (_ : FormData)
  : JsThrown + PredictionResponse :=
  inl (ThrownAxios
         {| axios_message := "Network Error"; response := None;
            request := true |}).

(** The request rejects with a value that is not an Error. *)
Definition backend_odd (_ : string) (_ : FormData)
  : JsThrown + PredictionResponse :=
  inl (ThrownValue "cancelled").

End Sample.

(* ================================================================== *)
(** * Observations used in the statements *)
(* ================================================================== *)

(** The section header an item is, if any: a 14 pt text. *)
Definition header_of (it : Item) : list string :=
  match it with
  | IText txt _ _ _ st => if (fontSize st =? 14)%N then [txt] else []
  | _ => []
  end.

Definition image_of (it : Item) : list string :=
  match it with
  | IImage data _ _ _ _ _ => [data]
  | _ => []
  end.

(** The section headers of a document, page after page. *)
Definition section_headers (pdf : Pdf) : list string :=
  flat_map (flat_map header_of) (pages pdf).

(** The images of a document, page after page. *)
Definition images (pdf : Pdf) : list string :=
  flat_map (flat_map image_of) (pages pdf).

(** The texts of a page with the size they are set in. *)
Definition text_of (it : Item) : list (string * N) :=
  match it with
  | IText txt _ _ _ st => [(txt, fontSize st)]
  | _ => []
  end.

Definition page_texts (p : Page) : list (string * N) := flat_map text_of p.

(** The documents a trace saves. *)
Definition saved_doc (e : Event) : list Pdf :=
  match e with Save _ pdf => [pdf] | _ => [] end.

Definition saved (events : list Event) : list Pdf := flat_map saved_doc events.

(** The page being drawn on is the last one. *)
Definition on_last_page (pdf : Pdf) : Prop := S (cur pdf) = length (pages pdf).

(** The header a chart's section carries when its snapshot was taken. *)
Definition snapshot_taken (html2canvas : Chart -> JsThrown + Canvas)
    (c : Chart) : bool :=
  match html2canvas c with
  | inr canvas => match toDataURL canvas with inr _ => true | inl _ => false end
  | inl _ => false
  end.

(** What the snapshot of a chart fails with, if it fails: the rejection of
    [html2canvas], or the error of [canvas.toDataURL]. *)
Definition snapshot_error (html2canvas : Chart -> JsThrown + Canvas)
    (c : Chart) : option JsThrown :=
  match html2canvas c with
  | inl err => Some err
  | inr canvas =>
      match toDataURL canvas with inl err => Some err | inr _ => None end
  end.

Definition chart_title (c : Chart) : string :=
  match c with
  | RiskChart => "Risk Assessment Overview"
  | EcgChart => "ECG Signal Visualization"
  | PcgChart => "PCG Waveform Visualization"
  end.

Definition chart_failure (c : Chart) : string :=
  match c with
  | RiskChart => "Failed to capture risk chart:"
  | EcgChart => "Failed to capture ECG chart:"
  | PcgChart => "Failed to capture PCG chart:"
  end.

Definition chart_header (html2canvas : Chart -> JsThrown + Canvas)
    (s : State) (c : Chart) : list string :=
  if ref_current s c && snapshot_taken html2canvas c
  then [chart_title c] else [].

Definition spectrogram_header (r : PredictionResponse) : list string :=
  if JS.truthy_str (pcg_spectrogram r) then ["PCG Spectrogram"] else [].

(** What one chart's [try] block leaves behind: the image it placed and
    the console line of its [catch]. *)
Definition chart_image (html2canvas : Chart -> JsThrown + Canvas)
    (addImage_error : string -> option JsThrown) (s : State) (c : Chart)
  : list string :=
  if ref_current s c then
    match html2canvas c with
    | inr canvas =>
        match toDataURL canvas with
        | inr data =>
            match addImage_error data with None => [data] | Some _ => [] end
        | inl _ => []
        end
    | inl _ => []
    end
  else [].

Definition chart_errors (html2canvas : Chart -> JsThrown + Canvas)
    (addImage_error : string -> option JsThrown) (s : State) (c : Chart)
  : list Event :=
  let failed err := [ConsoleError [ArgStr (chart_failure c); ArgThrown err]] in
  if ref_current s c then
    match html2canvas c with
    | inr canvas =>
        match toDataURL canvas with
        | inr data =>
            match addImage_error data with
            | None => []
            | Some err => failed err
            end
        | inl err => failed err
        end
    | inl err => failed err
    end
  else [].

Definition spectrogram_image (addImage_error : string -> option JsThrown)
    (r : PredictionResponse) : list string :=
  match pcg_spectrogram r with
  | Some image =>
      if JS.truthy_str (Some image) then
        match addImage_error image with None => [image] | Some _ => [] end
      else []
  | None => []
  end.

Definition spectrogram_errors (addImage_error : string -> option JsThrown)
    (r : PredictionResponse) : list Event :=
  match pcg_spectrogram r with
  | Some image =>
      if JS.truthy_str (Some image) then
        match addImage_error image with
        | None => []
        | Some err =>
            [ConsoleError [ArgStr "Failed to add spectrogram:"; ArgThrown err]]
        end
      else []
  | None => []
  end.

(** Every item of every page of [pdf] is still on that page in [pdf']. *)
Definition page_grows (pdf pdf' : Pdf) : Prop :=
  forall i it, In it (nth i (pages pdf) []) -> In it (nth i (pages pdf') []).

(** Between section bodies the last page is current and text is 11 pt. *)
Definition tidy (pdf : Pdf) : Prop :=
  on_last_page pdf /\ fontSize (style pdf) = 11%N.

(** What a stage of the layout adds: section headers, images and console
    lines, all appended; pages only grow. *)
Record Adds (l l' : Layout) (headers placed : list string)
    (logged : list Event) : Prop := {
  adds_tidy : tidy (doc l');
  adds_headers : section_headers (doc l') = section_headers (doc l) ++ headers;
  adds_images : images (doc l') = images (doc l) ++ placed;
  adds_console : console l' = console l ++ logged;
  adds_grows : page_grows (doc l) (doc l')
}.

(** The two lines of the footer of page [i] out of [n], as (text, size). *)
Definition disclaimer : string :=
  "SmartHeart - AI-powered multimodal cardiovascular risk assessment system | For research and educational purposes only".

Definition page_number (i n : nat) : string :=
  "Page " +++ JS.show_N (N.of_nat i) +++ " of " +++ JS.show_N (N.of_nat n).

Definition has_footer (pdf : Pdf) (i : nat) : Prop :=
  In (disclaimer, 8%N) (page_texts (nth (i - 1) (pages pdf) []))
  /\ In (page_number i (length (pages pdf)), 8%N)
       (page_texts (nth (i - 1) (pages pdf) [])).

(** The texts of the three fixed parts of the report, with their sizes:
    the header, the risk-assessment section, the files-analyzed section. *)
Definition header_texts (date time : string) : list (string * N) :=
  [("SmartHeart Analysis Report", 22%N);
   ("Bimodal Deep Learning for ECG and PCG-Based Cardiac Monitoring", 10%N);
   ("Report Generated: " +++ date +++ " at " +++ time, 10%N)].

Definition risk_texts (toFixed1 : float -> string) (r : PredictionResponse)
  : list (string * N) :=
  [("Risk Assessment Results", 14%N);
   ("ECG Risk: ", 11%N); (riskText toFixed1 (ecg_risk r), 11%N);
   ("PCG Risk: ", 11%N); (riskText toFixed1 (pcg_risk r), 11%N);
   ("Combined Risk: ", 11%N); (riskText toFixed1 (combined_risk r), 11%N)].

Definition files_texts (s : State) : list (string * N) :=
  ("Files Analyzed", 14%N)
  :: match ecgFile s with
     | Some f => [("ECG File: ", 11%N); (name f, 11%N)]
     | None => []
     end
  ++ match pcgFile s with
     | Some f => [("PCG File: ", 11%N); (name f, 11%N)]
     | None => []
     end.

(** The console lines of a report run, in order. *)
Definition report_errors (html2canvas : Chart -> JsThrown + Canvas)
    (addImage_error : string -> option JsThrown) (s : State)
    (r : PredictionResponse) : list Event :=
  chart_errors html2canvas addImage_error s RiskChart
  ++ chart_errors html2canvas addImage_error s EcgChart
  ++ chart_errors html2canvas addImage_error s PcgChart
  ++ spectrogram_errors addImage_error r.

(** The section headers of a report, in order: the two fixed sections,
    then each chart whose snapshot was taken, then the spectrogram. *)
Definition report_headers (html2canvas : Chart -> JsThrown + Canvas)
    (s : State) (r : PredictionResponse) : list string :=
  "Risk Assessment Results" :: "Files Analyzed"
  :: chart_header html2canvas s RiskChart
  ++ chart_header html2canvas s EcgChart
  ++ chart_header html2canvas s PcgChart
  ++ spectrogram_header r.

Definition report_images (html2canvas : Chart -> JsThrown + Canvas)
    (addImage_error : string -> option JsThrown) (s : State)
    (r : PredictionResponse) : list string :=
  chart_image html2canvas addImage_error s RiskChart
  ++ chart_image html2canvas addImage_error s EcgChart
  ++ chart_image html2canvas addImage_error s PcgChart
  ++ spectrogram_image addImage_error r.

(** The layout after its fixed part: header, risk section and files
    section, all on the first page. *)
Definition fixed_part (pageWidth : float)
    (getTextWidth : Style -> string -> float) (toFixed1 : float -> string)
    (toLocaleDateString toLocaleTimeString : string)
    (r : PredictionResponse) (s : State) : Layout :=
  files_section getTextWidth s
    (risk_section getTextWidth toFixed1 r
       (report_header pageWidth toLocaleDateString toLocaleTimeString
          {| doc := new_jsPDF; yPos := 20; console := [] |})).

(** The table the specification describes for the CSV preview: the text
    split at newlines, each row split at commas, nothing else. *)
Definition raw_split (text : JS.text) : list (list JS.text) :=
  map (JS.split (N.eqb 0x2C)) (JS.split (N.eqb 0x0A) text).

(** The [n]-th object URL of a page. *)
Definition blob (n : N) : string := "blob:" +++ JS.show_N n.

(** A run of PCG selections, each a non-empty file list. *)
Definition select_all (selections : list (File * list File)) (w : World)
  : World :=
  fold_left (fun w sel => handlePcgChange (Some (fst sel :: snd sel)) w)
    selections w.

(** The object-URL events of a leak-free run of selections: every URL but
    the last is revoked right before the next one is created. *)
Fixpoint release_before_replace (previous : option string) (n : N)
    (selections : list (File * list File)) : list Event :=
  match selections with
  | [] => []
  | sel :: rest =>
      match previous with
      | Some url => [RevokeObjectURL url]
      | None => []
      end
      ++ CreateObjectURL (fst sel) (blob n)
         :: release_before_replace (Some (blob n)) (N.succ n) rest
  end.

(** The only live object URL is the one the audio player holds. *)
Definition leak_free (w : World) : Prop :=
  live w = match pcgAudioUrl (ui w) with Some url => [url] | None => [] end
  /\ (forall url,
        pcgAudioUrl (ui w) = Some url -> JS.truthy_str (Some url) = true).

(* ================================================================== *)
(** * The rest of the page: audio, view conditions, API info, actions *)
(* ================================================================== *)

Definition present {A : Type} (o : option A) : bool :=
  match o with Some _ => true | None => false end.

(** Calls on the [<audio>] element. *)
Inductive AudioCall := AudioPlay | AudioPause.

(** [audioRef.current] is set while the JSX renders the player:
    [pcgFile && pcgAudioUrl]. *)
Definition audioRef_current (s : State) : bool :=
  present (pcgFile s) && JS.truthy_str (pcgAudioUrl s).

Definition toggleAudioPlayback (s : State) : State * list AudioCall :=
  if negb (audioRef_current s) || negb (JS.truthy_str (pcgAudioUrl s))
  then (s, [])
  else
    (setIsPlaying (negb (isPlaying s)) s,
     [if isPlaying s then AudioPause else AudioPlay]).

(** The close buttons of the CSV modal. *)
Definition closeCsvModal (s : State) : State := setShowCsvModal false s.

(** [disabled] of the Analyze button and of the two file inputs. *)
Definition analyze_disabled (s : State) : bool :=
  loading s || (negb (present (ecgFile s)) && negb (present (pcgFile s))).

Definition file_input_disabled (s : State) : bool := loading s.




(** What the chart container can hold. *)
Inductive Panel :=
| EcgPanel (data : list Point) (heatmapData : option (list float))
    (riskScore : option float)
| PcgPanel (data : list Point) (heatmapData : option (list float))
    (riskScore : option float)
| SpectrogramPanel (base64Image : option string)
| NoData.

(** The chart container of the JSX, its four conditional children in
    order. *)
Definition visual_panel (s : State) : list Panel :=
  match result s with
  | None => []
  | Some r =>
      (if (activeTab s =? 0)%N && present (ecg_plot_data r)
       then [EcgPanel (getEcgChartData s) (ecg_heatmap r)
               (option_map (fun x => (x * 100)%float) (ecg_risk r))]
       else [])
      ++ (if (activeTab s =? 1)%N && present (pcg_waveform_data r)
          then [PcgPanel (getPcgChartData s) (pcg_heatmap r)
                  (option_map (fun x => (x * 100)%float) (pcg_risk r))]
          else [])
      ++ (if (activeTab s =? 2)%N
          then [SpectrogramPanel (pcg_spectrogram r)] else [])
      ++ (if ((activeTab s =? 0)%N && negb (present (ecg_plot_data r)))
             || ((activeTab s =? 1)%N && negb (present (pcg_waveform_data r)))
             || ((activeTab s =? 2)%N
                 && negb (JS.truthy_str (pcg_spectrogram r)))
          then [NoData] else [])
  end.

Section ApiInfo.

(** The body of the GET on the API root, or what axios rejects with. *)
Variable NEXT_PUBLIC_API_URL : option string.
Variable axios_get_data : string -> JsThrown + string.

(** [getApiInfo]: no timeout is configured (0 is the axios default). *)
Definition getApiInfo : list Event * (JsThrown + string) :=
  let url := API_BASE_URL NEXT_PUBLIC_API_URL +++ "/" in
  match axios_get_data url with
  | inr data => ([HttpGet url 0], inr data)
  | inl error =>
      ([HttpGet url 0;
        ConsoleError [ArgStr "Failed to fetch API info:"; ArgThrown error]],
       inl error)
  end.

End ApiInfo.

(** What the platform answers during one report run. *)
Record ReportPlatform := {
  rp_pageWidth : float;
  rp_getTextWidth : Style -> string -> float;
  rp_toFixed1 : float -> string;
  rp_toLocaleDateString : string;
  rp_toLocaleTimeString : string;
  rp_toISOString : string;
  rp_html2canvas : Chart -> JsThrown + Canvas;
  rp_addImage_error : string -> option JsThrown
}.

(** The sample platform, with the snapshots and image errors given. *)
Definition sample_platform (snapshot : Chart -> JsThrown + Canvas)
    (image_error : string -> option JsThrown) : ReportPlatform :=
  {| rp_pageWidth := 210;
     rp_getTextWidth := Sample.textWidth;
     rp_toFixed1 := Sample.toFixed1;
     rp_toLocaleDateString := "11/3/2026";
     rp_toLocaleTimeString := "9:41:00 AM";
     rp_toISOString := "2026-11-03T09:41:00.000Z";
     rp_html2canvas := snapshot;
     rp_addImage_error := image_error |}.

(** What the user can do on the page, each with what the outside answers
    while its handler runs. *)
Inductive Action :=
| SelectEcg (e : ChangeEvent)
| SelectPcg (e : ChangeEvent)
| ViewCsv
| CloseCsv
| Analyze (env_url : option string)
    (post : string -> FormData -> JsThrown + PredictionResponse)
| DownloadReport (platform : ReportPlatform)
| ToggleAudio
| AudioEnded
| SelectTab (tab : N).

(** One handler, run to completion. *)
Definition step (w : World) (a : Action) : World :=
  match a with
  | SelectEcg e => on_ui (handleEcgChange e) w
  | SelectPcg e => handlePcgChange e w
  | ViewCsv => handleViewCsvData w
  | CloseCsv => on_ui closeCsvModal w
  | Analyze env_url post => handleAnalyze env_url post w
  | DownloadReport p =>
      generateReport (rp_pageWidth p) (rp_getTextWidth p) (rp_toFixed1 p)
        (rp_toLocaleDateString p) (rp_toLocaleTimeString p)
        (rp_toISOString p) (rp_html2canvas p) (rp_addImage_error p) w
  | ToggleAudio => on_ui (fun s => fst (toggleAudioPlayback s)) w
  | AudioEnded => on_ui handleAudioEnded w
  | SelectTab tab => on_ui (setActiveTab tab) w
  end.

Definition run (actions : list Action) (w : World) : World :=
  fold_left step actions w.

Definition is_analyze (a : Action) : bool :=
  match a with Analyze _ _ => true | _ => false end.

(** The parts [uploadFiles] appends to its form: ECG first, then PCG. *)
Definition upload_body (ecg pcg : option File) : FormData :=
  match ecg with Some f => [("ecg_file", f)] | None => [] end
  ++ match pcg with Some f => [("pcg_file", f)] | None => [] end.

(** [parts.join(sep)]. *)
Fixpoint join {A : Type} (sep : A) (parts : list (list A)) : list A :=
  match parts with
  | [] => []
  | [part] => part
  | part :: rest => part ++ sep :: join sep rest
  end.

(** The parsed table written back as text. *)
Definition unparse_csv (rows : list (list JS.text)) : JS.text :=
  join 0x0A%N (map (join 0x2C%N) rows).

(** The view flags are all down: no handler is in flight. *)
Definition at_rest (s : State) : Prop :=
  loading s = false /\ csvLoading s = false /\ reportLoading s = false.


(** The player and the PCG file come and go together. *)
Definition player_matches_file (s : State) : Prop :=
  present (pcgAudioUrl s) = present (pcgFile s).

(* ================================================================== *)
(** * Numbers *)
(* ================================================================== *)

Lemma SFcompare_antisym (x y : spec_float) :
  SFcompare y x = option_map CompOpp (SFcompare x y).
Proof.
  destruct x as [sx|sx| |sx mx ex], y as [sy|sy| |sy my ey]; cbn;
    try reflexivity; try (destruct sx; reflexivity);
    try (destruct sy; reflexivity); try (destruct sx, sy; reflexivity).
  pose proof (Pos.compare_cont_antisym mx my Eq) as Hm.
  change (Pos.compare_cont (CompOpp Eq) my mx)
    with (PosDef.Pos.compare_cont Eq my mx) in Hm.
  change (Pos.compare_cont Eq mx my)
    with (PosDef.Pos.compare_cont Eq mx my) in Hm.
  destruct sx, sy; cbn; try reflexivity;
    rewrite (Z.compare_antisym ey ex);
    destruct (ey ?= ex)%Z; cbn; try reflexivity; rewrite <- Hm;
    destruct (PosDef.Pos.compare_cont Eq mx my); reflexivity.
Qed.

(** [x <= y] excludes [y < x], also at infinities; a NaN satisfies
    neither. *)
Lemma leb_not_gt (x y : float) :
  (x <=? y)%float = true -> (y <? x)%float = false.
Proof.
  rewrite leb_spec, ltb_spec. unfold SFleb, SFltb.
  rewrite (SFcompare_antisym (Prim2SF x) (Prim2SF y)).
  destruct (SFcompare (Prim2SF x) (Prim2SF y)) as [[| |]|]; cbn; congruence.
Qed.

(* ================================================================== *)
(** * Risk labels *)
(* ================================================================== *)

(** C3, as stated, fails on the report: the risk line of an absent value
    reads "Not Available", not "N/A". *)
Lemma report_absent_risk_is_not_NA :
  riskText Sample.toFixed1 None = "Not Available"
  /\ riskText Sample.toFixed1 None <> "N/A".
Proof. split; [reflexivity | discriminate]. Qed.

(** C3 (amended).  The label is a function of the risk value alone:
    above 0.5 it is "HIGH RISK", in red on the page and after the
    percentage in the report; at or below 0.5 it is "LOW RISK", in
    emerald; an absent value gives "N/A" in gray on the page and
    "Not Available" in the report. *)
Theorem risk_labeling (toFixed1 : float -> string) (r : float) :
  ((0.5 <? r)%float = true ->
     getRiskLabel (Some r) = "HIGH RISK"
     /\ getRiskColor (Some r) = "text-red-400"
     /\ riskText toFixed1 (Some r)
        = toFixed1 (r * 100)%float +++ "% (HIGH RISK)")
  /\ ((r <=? 0.5)%float = true ->
     getRiskLabel (Some r) = "LOW RISK"
     /\ getRiskColor (Some r) = "text-emerald-400"
     /\ riskText toFixed1 (Some r)
        = toFixed1 (r * 100)%float +++ "% (LOW RISK)")
  /\ getRiskLabel None = "N/A"
  /\ getRiskColor None = "text-gray-400"
  /\ riskText toFixed1 None = "Not Available".
Proof.
  unfold getRiskLabel, getRiskColor, riskText.
  split; [intros Hgt | split; [intros Hle |]].
  - rewrite Hgt. repeat split.
  - rewrite (leb_not_gt _ _ Hle). repeat split.
  - repeat split.
Qed.

Lemma risk_labeling_witness :
  (getRiskLabel (Some 0.75%float) = "HIGH RISK"
   /\ riskText Sample.toFixed1 (Some 0.75%float) = "75.0% (HIGH RISK)")
  /\ (getRiskLabel (Some 0.5%float) = "LOW RISK"
      /\ riskText Sample.toFixed1 (Some 0.5%float) = "50.0% (LOW RISK)").
Proof.
  split.
  - destruct (proj1 (risk_labeling Sample.toFixed1 0.75%float) eq_refl)
      as (Hl & _ & Ht).
    split; [exact Hl | exact Ht].
  - destruct (proj1 (proj2 (risk_labeling Sample.toFixed1 0.5%float)) eq_refl)
      as (Hl & _ & Ht).
    split; [exact Hl | exact Ht].
Defined.

(* ================================================================== *)
(** * The API client: validation, error taxonomy, health check *)
(* ================================================================== *)

Section ApiFacts.

Variable env_url : option string.
Variable post : string -> FormData -> JsThrown + PredictionResponse.

Lemma uploadFiles_no_files :
  uploadFiles env_url post None None
  = ([ConsoleError
        [ArgStr "Upload Error:";
         ArgStr "At least one file (ECG or PCG) must be provided"]],
     inl (ThrownError "At least one file (ECG or PCG) must be provided")).
Proof. reflexivity. Qed.

(** With a file, the request is sent: the POST is in the trace. *)
Lemma uploadFiles_posts (ecg pcg : option File) :
  ecg <> None \/ pcg <> None ->
  exists body,
    In (HttpPost (API_BASE_URL env_url +++ "/predict") body 300000)
      (fst (uploadFiles env_url post ecg pcg)).
Proof.
  intros Hsome. unfold uploadFiles, uploadFiles_try.
  destruct ecg as [e|], pcg as [p|];
    try (destruct Hsome as [H|H]; congruence);
    match goal with
    | |- context [post ?u ?b] =>
        exists b; destruct (post u b) as [t|d]
    end;
    try destruct (uploadFiles_catch t) as [logged thrown];
    cbn [fst]; rewrite ?in_app_iff; cbn; tauto.
Qed.

(** Whatever [uploadFiles] throws is an Error with a message. *)
Lemma uploadFiles_catch_message (error : JsThrown) :
  exists message,
    thrown_message (snd (uploadFiles_catch error)) = Some message.
Proof.
  destruct error as [e|m|v]; cbn.
  - destruct (response e) as [resp|]; [cbn; eauto|].
    destruct (request e); cbn; eauto.
  - eauto.
  - eauto.
Qed.

End ApiFacts.

(** C1.  With neither an ECG nor a PCG file, [handleAnalyze] only sets the
    "at least one file" error: it adds nothing to the trace, so no request
    is issued, whatever the backend would answer.  [uploadFiles] called
    with no file throws its own "At least one file" error from the
    validation at the top of its [try] block, its trace holding one console
    line and no network call. *)
Theorem no_files_rejected_before_network
    (env_url : option string)
    (post : string -> FormData -> JsThrown + PredictionResponse)
    (w : World) :
  ecgFile (ui w) = None ->
  pcgFile (ui w) = None ->
  handleAnalyze env_url post w
  = on_ui (setError (Some "Please upload at least one file (ECG or PCG)")) w
  /\ error (ui (handleAnalyze env_url post w))
     = Some "Please upload at least one file (ECG or PCG)"
  /\ trace (handleAnalyze env_url post w) = trace w
  /\ snd (uploadFiles env_url post None None)
     = inl (ThrownError "At least one file (ECG or PCG) must be provided")
  /\ network_calls (fst (uploadFiles env_url post None None)) = [].
Proof.
  intros Hecg Hpcg. unfold handleAnalyze. rewrite Hecg, Hpcg.
  repeat split.
Qed.

Lemma no_files_rejected_before_network_witness :
  error (ui (handleAnalyze None Sample.backend_ok initial_world))
  = Some "Please upload at least one file (ECG or PCG)"
  /\ trace (handleAnalyze None Sample.backend_ok initial_world) = [].
Proof.
  destruct (no_files_rejected_before_network None Sample.backend_ok
              initial_world eq_refl eq_refl) as (_ & Herr & Htrace & _).
  split; [exact Herr | exact Htrace].
Defined.

(** C2, as stated, fails on its third class: a thrown Error that is
    neither a server response nor a lost request keeps its own message.
    The validation error of a call without files is one; it is not the
    generic fallback message. *)
Lemma other_error_keeps_its_message :
  snd (uploadFiles None Sample.backend_ok None None)
  = inl (ThrownError "At least one file (ECG or PCG) must be provided")
  /\ snd (uploadFiles None Sample.backend_ok None None)
     <> inl (ThrownError "An unexpected error occurred during file upload").
Proof. split; [reflexivity | discriminate]. Qed.

(** C2 (amended).  When the [try] block of [uploadFiles] fails with
    [error], the call throws one Error value with a message, chosen as
    follows: (a) an axios error with a response gives the server's detail,
    or "Server error occurred" when the body has none, followed by the
    status code; (b) an axios error with a request and no response gives
    the server-unreachable message; (c) any other Error is thrown on
    unchanged, with its own message; only a thrown value that is not an
    Error gives the generic fallback message. *)
Theorem upload_error_taxonomy
    (env_url : option string)
    (post : string -> FormData -> JsThrown + PredictionResponse)
    (ecg pcg : option File) (events : list Event) (error : JsThrown) :
  uploadFiles_try env_url post ecg pcg = (events, inl error) ->
  exists logged thrown message,
    uploadFiles env_url post ecg pcg = (events ++ logged, inl thrown)
    /\ thrown_message thrown = Some message
    /\ match error with
       | ThrownAxios e =>
           match response e with
           | Some resp =>
               message
               = JS.or_else
                   (match response_data resp with
                    | Some body => detail body
                    | None => None
                    end) "Server error occurred"
                 +++ " (Status: " +++ JS.show_N (response_status resp) +++ ")"
           | None =>
               if request e
               then message
                    = "Network error: Unable to reach the server. Please check if the backend is running."
               else thrown = error /\ message = axios_message e
           end
       | ThrownError m => thrown = error /\ message = m
       | ThrownValue _ =>
           message = "An unexpected error occurred during file upload"
       end.
Proof.
  intros Htry. unfold uploadFiles. rewrite Htry.
  destruct (uploadFiles_catch error) as [logged thrown] eqn:Hcatch.
  exists logged, thrown.
  destruct error as [e|m|v]; cbn in Hcatch.
  - destruct (response e) as [resp|].
    + inversion Hcatch; subst. eexists. repeat split.
    + destruct (request e); inversion Hcatch; subst;
        eexists; repeat split.
  - inversion Hcatch; subst. eexists. repeat split.
  - inversion Hcatch; subst. eexists. repeat split.
Qed.

Lemma upload_error_taxonomy_witness :
  snd (uploadFiles None Sample.backend_500 (Some Sample.ecg_csv) None)
  = inl (ThrownError "Model not loaded (Status: 500)").
Proof.
  destruct (upload_error_taxonomy None Sample.backend_500
              (Some Sample.ecg_csv) None _ _ eq_refl)
    as (logged & thrown & message & Hup & Hmsg & Hclass).
  pose proof Hup as Hcomputed. cbn in Hcomputed.
  injection Hcomputed as _ Hthrown.
  rewrite Hup. cbn [snd]. rewrite <- Hthrown. reflexivity.
Defined.

(** C10.  [checkHealth] does not throw: it returns [true] when the GET
    resolved with status 200, and [false] when it resolved with another
    status or was rejected. *)
Theorem checkHealth_total
    (env_url : option string) (get : string -> JsThrown + N) :
  exists healthy,
    snd (checkHealth env_url get) = inr healthy
    /\ (healthy = true
        <-> get (API_BASE_URL env_url +++ "/health") = inr 200%N).
Proof.
  unfold checkHealth.
  destruct (get (API_BASE_URL env_url +++ "/health")) as [err|code] eqn:Hget.
  - exists false. split; [reflexivity|]. split; discriminate.
  - exists (code =? 200)%N. split; [reflexivity|].
    rewrite N.eqb_eq. split; [intros ->; reflexivity | congruence].
Qed.

(* ================================================================== *)
(** * The controller: analysis and file selection *)
(* ================================================================== *)

Lemma uploadFiles_throws_message
    (env_url : option string)
    (post : string -> FormData -> JsThrown + PredictionResponse)
    (ecg pcg : option File) (err : JsThrown) :
  snd (uploadFiles env_url post ecg pcg) = inl err ->
  exists message, thrown_message err = Some message.
Proof.
  unfold uploadFiles.
  destruct (uploadFiles_try env_url post ecg pcg) as [events [error|data]].
  - pose proof (uploadFiles_catch_message error) as Hmsg.
    destruct (uploadFiles_catch error) as [logged thrown]. cbn in *.
    intros Heq. inversion Heq; subst. exact Hmsg.
  - cbn. discriminate.
Qed.

(** C8.  With at least one file selected, [handleAnalyze] first renders
    the analyzing state (loading set, error cleared), then calls the API
    client with the selected files, which posts to the backend.  When the
    call returns a response, the result is that response, the active tab
    is 0 and no error is shown; when it throws, the error shown is the
    thrown message and result and tab are as before.  In both cases the
    loading flag is cleared at the end. *)
Theorem analyze_with_file
    (env_url : option string)
    (post : string -> FormData -> JsThrown + PredictionResponse)
    (w : World) :
  ecgFile (ui w) <> None \/ pcgFile (ui w) <> None ->
  let analyzing := setError None (setLoading true (ui w)) in
  let call := uploadFiles env_url post (ecgFile (ui w)) (pcgFile (ui w)) in
  let w' := handleAnalyze env_url post w in
  (loading analyzing = true /\ error analyzing = None)
  /\ (exists body,
        In (HttpPost (API_BASE_URL env_url +++ "/predict") body 300000)
          (fst call))
  /\ loading (ui w') = false
  /\ match snd call with
     | inr response =>
         trace w' = trace w ++ Await analyzing :: fst call
         /\ result (ui w') = Some response
         /\ activeTab (ui w') = 0%N
         /\ error (ui w') = None
     | inl err =>
         trace w'
         = trace w ++ Await analyzing
             :: fst call
                ++ [ConsoleError [ArgStr "Analysis error:"; ArgThrown err]]
         /\ (exists message,
               thrown_message err = Some message
               /\ error (ui w') = Some message)
         /\ result (ui w') = result (ui w)
         /\ activeTab (ui w') = activeTab (ui w)
     end.
Proof.
  intros Hfile analyzing call w'.
  split; [split; reflexivity|].
  split; [apply uploadFiles_posts; exact Hfile|].
  assert (Hrun :
    w' = on_ui (setLoading false)
           (match snd call with
            | inr response =>
                on_ui (setActiveTab 0)
                  (on_ui (setResult (Some response))
                     (emit (fst call)
                        (emit [Await analyzing]
                           (on_ui (setError None)
                              (on_ui (setLoading true) w)))))
            | inl err =>
                emit [ConsoleError [ArgStr "Analysis error:"; ArgThrown err]]
                  (on_ui (setError (Some (analysis_error err)))
                     (emit (fst call)
                        (emit [Await analyzing]
                           (on_ui (setError None)
                              (on_ui (setLoading true) w)))))
            end)).
  { subst w' call analyzing. unfold handleAnalyze.
    destruct (uploadFiles env_url post (ecgFile (ui w)) (pcgFile (ui w)))
      as [events outcome].
    destruct (ecgFile (ui w)) as [e|], (pcgFile (ui w)) as [p|];
      try reflexivity.
    destruct Hfile as [H|H]; congruence. }
  rewrite Hrun.
  destruct (snd call) as [err|response] eqn:Hcall.
  - split; [reflexivity|].
    split; [cbn; rewrite <- !app_assoc; reflexivity|].
    split; [|split; reflexivity].
    destruct (uploadFiles_throws_message _ _ _ _ _ Hcall) as [message Hmsg].
    exists message. split; [exact Hmsg|].
    unfold analysis_error. unfold thrown_message in Hmsg. rewrite Hmsg.
    reflexivity.
  - split; [reflexivity|].
    split; [cbn; rewrite <- !app_assoc; reflexivity|].
    repeat split.
Qed.

Lemma analyze_with_file_witness :
  let w := on_ui (handleEcgChange (Some [Sample.ecg_csv])) initial_world in
  loading (ui (handleAnalyze None Sample.backend_ok w)) = false
  /\ result (ui (handleAnalyze None Sample.backend_ok w))
     = Some Sample.risks_only
  /\ activeTab (ui (handleAnalyze None Sample.backend_ok w)) = 0%N.
Proof.
  intros w.
  assert (Hfile : ecgFile (ui w) <> None \/ pcgFile (ui w) <> None)
    by (left; discriminate).
  destruct (analyze_with_file None Sample.backend_ok w Hfile)
    as (_ & _ & Hloading & Hdone).
  cbn in Hdone. destruct Hdone as (_ & Hresult & Htab & _).
  split; [exact Hloading | split; [exact Hresult | exact Htab]].
Defined.

(** C5, as stated, fails for a PCG selection: it clears the error and
    leaves the parsed CSV table in place.  Here the ECG file is selected
    and previewed, an analysis fails, and a PCG file is selected. *)
Lemma pcg_selection_keeps_csv_preview :
  let w :=
    handleAnalyze None Sample.backend_500
      (handleViewCsvData
         (on_ui (handleEcgChange (Some [Sample.ecg_csv])) initial_world)) in
  error (ui w) = Some "Model not loaded (Status: 500)"
  /\ error (ui (handlePcgChange (Some [Sample.heart_wav]) w)) = None
  /\ csvData (ui (handlePcgChange (Some [Sample.heart_wav]) w))
     = Some [[JS.units "1"; JS.units "2"]; [JS.units "3"; JS.units "4"];
             [JS.units "5"; JS.units "6"]]
  /\ csvData (ui (handlePcgChange (Some [Sample.heart_wav]) w)) <> None.
Proof. cbv zeta. repeat split. discriminate. Qed.

(** C5 (amended).  In every state, selecting an ECG file stores it and
    clears the error message and the parsed CSV table; selecting a PCG
    file stores it and clears the error message, and leaves the parsed CSV
    table (which belongs to the ECG file) as it was. *)
Theorem selection_clears
    (file : File) (others : list File) (s : State) (w : World) :
  (ecgFile (handleEcgChange (Some (file :: others)) s) = Some file
   /\ error (handleEcgChange (Some (file :: others)) s) = None
   /\ csvData (handleEcgChange (Some (file :: others)) s) = None)
  /\ (pcgFile (ui (handlePcgChange (Some (file :: others)) w)) = Some file
      /\ error (ui (handlePcgChange (Some (file :: others)) w)) = None
      /\ csvData (ui (handlePcgChange (Some (file :: others)) w))
         = csvData (ui w)).
Proof.
  split; [repeat split|].
  unfold handlePcgChange. cbn [first_file].
  destruct (pcgAudioUrl (ui w)) as [url|];
    [destruct (JS.truthy_str (Some url))|]; repeat split.
Qed.

(* ================================================================== *)
(** * The CSV preview *)
(* ================================================================== *)

Lemma map_indexed_length {A B : Type} (f : A -> nat -> B) (from : nat)
    (a : list A) :
  length (map_indexed f from a) = length a.
Proof.
  revert from. induction a as [|x rest IH]; intros from; cbn;
    [reflexivity | rewrite IH; reflexivity].
Qed.

Lemma numbered_rows {A : Type} (from : nat) (a : list A) :
  map snd (map_indexed (fun row i => (i + 1, row)) from a) = a
  /\ map fst (map_indexed (fun row i => (i + 1, row)) from a)
     = seq (from + 1) (length a).
Proof.
  revert from. induction a as [|x rest IH]; intros from; cbn.
  - split; reflexivity.
  - destruct (IH (S from)) as [Hsnd Hfst]. rewrite Hsnd, Hfst.
    split; reflexivity.
Qed.

(** C6, as stated, fails on a text with surrounding whitespace: the text
    is trimmed before it is split.  A file that ends in a newline has two
    rows in the preview, where splitting its text gives a third, empty
    row. *)
Lemma csv_preview_is_not_the_raw_split :
  let text :=
    JS.units "1,2" ++ [0x0A%N] ++ JS.units "3,4" ++ [0x0A%N] in
  let w :=
    handleViewCsvData
      (on_ui (handleEcgChange (Some [Sample.terminated_csv])) initial_world) in
  file_text Sample.terminated_csv = Some text
  /\ csvData (ui w)
     = Some [[JS.units "1"; JS.units "2"]; [JS.units "3"; JS.units "4"]]
  /\ raw_split text
     = [[JS.units "1"; JS.units "2"]; [JS.units "3"; JS.units "4"]; [[]]]
  /\ csvData (ui w) <> Some (raw_split text).
Proof. cbv zeta. repeat split. discriminate. Qed.

(** C6 (amended).  For an ECG file whose text can be read, the preview
    holds the table obtained by trimming the text and then splitting it at
    newlines into rows and each row at commas into fields.  The modal
    shows the total number of rows in its badge and the first 200 rows,
    numbered from 1, in its body; past 200 rows a note repeats the total.
    The text "1,2\n3,4\n5,6" gives exactly 3 rows of 2 fields. *)
Theorem csv_preview (w : World) (file : File) (text : JS.text) :
  ecgFile (ui w) = Some file ->
  file_text file = Some text ->
  let rows := raw_split (JS.trim text) in
  let w' := handleViewCsvData w in
  csvData (ui w') = Some rows
  /\ showCsvModal (ui w') = true
  /\ (exists modal,
        csv_modal (ui w') = Some modal
        /\ badge_rows modal = length rows
        /\ map snd (body modal) = firstn 200 rows
        /\ map fst (body modal) = seq 1 (Nat.min 200 (length rows))
        /\ length (body modal) <= 200
        /\ note modal
           = if Nat.ltb 200 (length rows)
             then Some ("Showing first 200 rows of "
                        +++ JS.show_N (N.of_nat (length rows))
                        +++ " total rows")
             else None)
  /\ (text = JS.units "1,2" ++ [0x0A%N] ++ JS.units "3,4" ++ [0x0A%N]
             ++ JS.units "5,6" ->
      rows = [[JS.units "1"; JS.units "2"]; [JS.units "3"; JS.units "4"];
              [JS.units "5"; JS.units "6"]]).
Proof.
  intros Hfile Htext rows w'.
  assert (Hui : ui w'
                = setCsvLoading false
                    (setShowCsvModal true
                       (setCsvData (Some rows)
                          (setCsvLoading true (ui w))))).
  { subst w'. unfold handleViewCsvData. rewrite Hfile, Htext. reflexivity. }
  rewrite Hui. split; [reflexivity|]. split; [reflexivity|].
  split.
  - unfold csv_modal. cbn [csvData showCsvModal setCsvLoading setShowCsvModal
                             setCsvData].
    eexists. split; [reflexivity|]. cbn [badge_rows body note].
    unfold JS.slice0.
    destruct (numbered_rows 0 (firstn 200 rows)) as [Hsnd Hfst].
    split; [reflexivity|]. split; [exact Hsnd|].
    split; [rewrite Hfst, length_firstn; reflexivity|].
    split; [|reflexivity].
    rewrite map_indexed_length, length_firstn. apply Nat.le_min_l.
  - intros ->. reflexivity.
Qed.

Lemma csv_preview_witness :
  csvData
    (ui (handleViewCsvData
           (on_ui (handleEcgChange (Some [Sample.ecg_csv])) initial_world)))
  = Some [[JS.units "1"; JS.units "2"]; [JS.units "3"; JS.units "4"];
          [JS.units "5"; JS.units "6"]].
Proof.
  destruct (csv_preview
              (on_ui (handleEcgChange (Some [Sample.ecg_csv])) initial_world)
              Sample.ecg_csv _ eq_refl eq_refl)
    as (Hdata & _ & _ & Hexample).
  rewrite Hdata. exact (f_equal Some (Hexample eq_refl)).
Defined.

(* ================================================================== *)
(** * Object URLs of the audio player *)
(* ================================================================== *)

Lemma blob_truthy (n : N) : JS.truthy_str (Some (blob n)) = true.
Proof. reflexivity. Qed.

Lemma remove_only (url : string) : remove string_dec url [url] = [].
Proof. cbn. destruct (string_dec url url); [reflexivity | congruence]. Qed.

(** One selection: the held URL, if any, is revoked, then the next URL is
    created and held. *)
Lemma handlePcgChange_step (file : File) (others : list File) (w : World) :
  leak_free w ->
  let w' := handlePcgChange (Some (file :: others)) w in
  trace w'
  = trace w
    ++ release_before_replace (pcgAudioUrl (ui w)) (minted w) [(file, others)]
  /\ pcgAudioUrl (ui w') = Some (blob (minted w))
  /\ live w' = [blob (minted w)]
  /\ minted w' = N.succ (minted w)
  /\ leak_free w'.
Proof.
  intros [Hlive Htruthy] w'. subst w'. unfold handlePcgChange, leak_free.
  cbn [first_file].
  destruct (pcgAudioUrl (ui w)) as [url|] eqn:Hurl.
  - rewrite (Htruthy url eq_refl). cbn. rewrite Hlive, remove_only.
    rewrite <- app_assoc. cbn.
    repeat split. intros u Hu. inversion Hu; subst. reflexivity.
  - cbn. rewrite Hlive. cbn.
    repeat split. intros u Hu. inversion Hu; subst. reflexivity.
Qed.

Lemma select_all_run (selections : list (File * list File)) (w : World) :
  leak_free w ->
  trace (select_all selections w)
  = trace w
    ++ release_before_replace (pcgAudioUrl (ui w)) (minted w) selections
  /\ minted (select_all selections w)
     = (minted w + N.of_nat (length selections))%N
  /\ (selections <> [] ->
      pcgAudioUrl (ui (select_all selections w))
      = Some (blob (N.pred (minted (select_all selections w)))))
  /\ leak_free (select_all selections w).
Proof.
  revert w. induction selections as [|[file others] rest IH]; intros w Hfree.
  - cbn. rewrite app_nil_r, N.add_0_r.
    split; [reflexivity|]. split; [reflexivity|].
    split; [congruence | exact Hfree].
  - destruct (handlePcgChange_step file others w Hfree)
      as (Htrace & Hurl & _ & Hminted & Hfree').
    specialize (IH _ Hfree'). destruct IH as (IHtrace & IHminted & IHurl & IHfree).
    change (select_all ((file, others) :: rest) w)
      with (select_all rest (handlePcgChange (Some (file :: others)) w)).
    split; [|split; [|split]].
    + rewrite IHtrace, Htrace, Hurl, Hminted. rewrite <- app_assoc.
      f_equal. cbn [release_before_replace fst snd].
      rewrite <- app_assoc. reflexivity.
    + rewrite IHminted, Hminted. cbn [length]. lia.
    + intros _. destruct rest as [|next rest'].
      * cbn [select_all fold_left]. rewrite Hurl, Hminted, N.pred_succ.
        reflexivity.
      * apply IHurl. discriminate.
    + exact IHfree.
Qed.

(** C7.  Starting from the fresh page, after any run of PCG selections the
    object-URL events are exactly: create for the first selection, and for
    every later one a revoke of the URL created by the selection before it,
    followed by the create.  At the end the only live URL is the one the
    player holds, so at most one URL is live. *)
Theorem pcg_urls_released_before_replaced
    (selections : list (File * list File)) :
  let w := select_all selections initial_world in
  trace w = release_before_replace None 0 selections
  /\ live w
     = match pcgAudioUrl (ui w) with Some url => [url] | None => [] end
  /\ live w
     = match selections with
       | [] => []
       | _ :: _ => [blob (N.of_nat (length selections - 1))]
       end
  /\ length (live w) <= 1.
Proof.
  intros w.
  assert (Hfree : leak_free initial_world) by (split; [reflexivity | discriminate]).
  destruct (select_all_run selections initial_world Hfree)
    as (Htrace & Hminted & Hurl & Hlive & Htruthy).
  fold w in Htrace, Hminted, Hurl, Hlive, Htruthy.
  assert (Hheld : live w
                  = match selections with
                    | [] => []
                    | _ :: _ => [blob (N.of_nat (length selections - 1))]
                    end).
  { destruct selections as [|sel rest].
    - reflexivity.
    - rewrite Hlive, Hurl by discriminate. rewrite Hminted.
      cbn [minted initial_world length]. do 2 f_equal. lia. }
  split; [exact Htrace|]. split; [exact Hlive|]. split; [exact Hheld|].
  rewrite Hheld. destruct selections; cbn; lia.
Qed.

(* ================================================================== *)
(** * The PDF document: drawing keeps what is there *)
(* ================================================================== *)

Lemma on_page_length (i : nat) (f : Page -> Page) (ps : list Page) :
  length (on_page i f ps) = length ps.
Proof.
  revert i. induction ps as [|p rest IH]; intros [|j]; cbn;
    try reflexivity. rewrite IH. reflexivity.
Qed.

Lemma on_page_nth (i j : nat) (f : Page -> Page) (ps : list Page) :
  nth j (on_page i f ps) []
  = if Nat.eqb i j && Nat.ltb j (length ps) then f (nth j ps [])
    else nth j ps [].
Proof.
  revert i j. induction ps as [|p rest IH]; intros [|i] [|j]; cbn;
    rewrite ?andb_false_r; try reflexivity.
  rewrite IH. reflexivity.
Qed.

(** Appending an item that a projection ignores changes nothing. *)
Lemma on_page_ignored {X : Type} (h : Item -> list X) (it : Item) (i : nat)
    (ps : list Page) :
  h it = [] ->
  flat_map (flat_map h) (on_page i (fun p => p ++ [it]) ps)
  = flat_map (flat_map h) ps.
Proof.
  intros Hnone. revert i.
  induction ps as [|p rest IH]; intros [|j]; cbn; try reflexivity.
  - rewrite flat_map_app. cbn. rewrite Hnone, !app_nil_r. reflexivity.
  - rewrite IH. reflexivity.
Qed.

(** Appending to the last page appends to the projection. *)
Lemma on_page_last {X : Type} (h : Item -> list X) (it : Item) (i : nat)
    (ps : list Page) :
  S i = length ps ->
  flat_map (flat_map h) (on_page i (fun p => p ++ [it]) ps)
  = flat_map (flat_map h) ps ++ h it.
Proof.
  revert i. induction ps as [|p rest IH]; intros i Hlast; cbn in Hlast;
    [discriminate|].
  destruct i as [|j]; cbn.
  - destruct rest; [|discriminate]. cbn.
    rewrite flat_map_app. cbn. rewrite !app_nil_r. reflexivity.
  - rewrite IH by lia. rewrite app_assoc. reflexivity.
Qed.

Lemma page_grows_refl (pdf : Pdf) : page_grows pdf pdf.
Proof. intros i it H. exact H. Qed.

Lemma page_grows_trans (a b c : Pdf) :
  page_grows a b -> page_grows b c -> page_grows a c.
Proof. intros Hab Hbc i it H. apply Hbc, Hab, H. Qed.

Lemma draw_grows (it : Item) (pdf : Pdf) : page_grows pdf (draw it pdf).
Proof.
  intros i x Hx. cbn. rewrite on_page_nth.
  destruct (Nat.eqb (cur pdf) i && Nat.ltb i (length (pages pdf)));
    [apply in_or_app; left|]; exact Hx.
Qed.

Lemma draw_on_current (it : Item) (pdf : Pdf) :
  cur pdf < length (pages pdf) ->
  In it (nth (cur pdf) (pages (draw it pdf)) []).
Proof.
  intros Hcur. cbn. rewrite on_page_nth, Nat.eqb_refl.
  apply Nat.ltb_lt in Hcur. rewrite Hcur. cbn.
  apply in_or_app. right. left. reflexivity.
Qed.

Lemma addPage_grows (pdf : Pdf) : page_grows pdf (addPage pdf).
Proof.
  intros i x Hx. cbn.
  destruct (Nat.lt_ge_cases i (length (pages pdf))) as [Hlt|Hge].
  - rewrite app_nth1 by exact Hlt. exact Hx.
  - rewrite nth_overflow in Hx by exact Hge. destruct Hx.
Qed.

Lemma addPage_projection {X : Type} (h : Item -> list X) (pdf : Pdf) :
  flat_map (flat_map h) (pages (addPage pdf))
  = flat_map (flat_map h) (pages pdf).
Proof. cbn. rewrite flat_map_app. cbn. rewrite app_nil_r. reflexivity. Qed.

Lemma addPage_last (pdf : Pdf) : on_last_page (addPage pdf).
Proof. unfold on_last_page. cbn. rewrite length_app. cbn. lia. Qed.

Lemma draw_last (it : Item) (pdf : Pdf) :
  on_last_page pdf -> on_last_page (draw it pdf).
Proof. unfold on_last_page. cbn. rewrite on_page_length. tauto. Qed.

Lemma draw_headers_last (it : Item) (pdf : Pdf) :
  on_last_page pdf ->
  section_headers (draw it pdf) = section_headers pdf ++ header_of it.
Proof. intros Hlast. apply on_page_last. exact Hlast. Qed.

Lemma draw_images_last (it : Item) (pdf : Pdf) :
  on_last_page pdf -> images (draw it pdf) = images pdf ++ image_of it.
Proof. intros Hlast. apply on_page_last. exact Hlast. Qed.

Lemma draw_headers_ignored (it : Item) (pdf : Pdf) :
  header_of it = [] -> section_headers (draw it pdf) = section_headers pdf.
Proof. intros Hnone. apply on_page_ignored. exact Hnone. Qed.

Lemma draw_images_ignored (it : Item) (pdf : Pdf) :
  image_of it = [] -> images (draw it pdf) = images pdf.
Proof. intros Hnone. apply on_page_ignored. exact Hnone. Qed.

(* ================================================================== *)
(** * The layout, stage by stage *)
(* ================================================================== *)

Lemma Adds_refl (l : Layout) : tidy (doc l) -> Adds l l [] [] [].
Proof.
  intros Htidy. constructor; rewrite ?app_nil_r;
    try reflexivity; [exact Htidy | apply page_grows_refl].
Qed.

Lemma Adds_trans (a b c : Layout) (h1 h2 p1 p2 : list string)
    (e1 e2 : list Event) :
  Adds a b h1 p1 e1 -> Adds b c h2 p2 e2 ->
  Adds a c (h1 ++ h2) (p1 ++ p2) (e1 ++ e2).
Proof.
  intros [_ Hh1 Hp1 He1 Hg1] [Ht2 Hh2 Hp2 He2 Hg2]. constructor.
  - exact Ht2.
  - rewrite Hh2, Hh1, app_assoc. reflexivity.
  - rewrite Hp2, Hp1, app_assoc. reflexivity.
  - rewrite He2, He1, app_assoc. reflexivity.
  - eapply page_grows_trans; eassumption.
Qed.

(** A section header is one 14 pt text on the last page; text is 11 pt
    afterwards. *)
Lemma addSectionHeader_adds (text : string) (l : Layout) :
  on_last_page (doc l) -> Adds l (addSectionHeader text l) [text] [] [].
Proof.
  intros Hlast.
  set (pen := setTextColor 16 185 129 (setFontSize 14 (doc l))).
  set (it := IText text margin (yPos l) AlignLeft (style pen)).
  assert (Hpen : on_last_page pen) by exact Hlast.
  assert (Hdoc : doc (addSectionHeader text l)
                 = setFontSize 11 (setTextColor 0 0 0 (draw it pen)))
    by reflexivity.
  constructor.
  - rewrite Hdoc. split; [|reflexivity].
    exact (draw_last it pen Hpen).
  - rewrite Hdoc.
    change (section_headers (draw it pen) = section_headers pen ++ [text]).
    apply (draw_headers_last it pen Hpen).
  - rewrite Hdoc, app_nil_r.
    change (images (draw it pen) = images pen).
    apply draw_images_ignored. reflexivity.
  - rewrite app_nil_r. reflexivity.
  - rewrite Hdoc. exact (draw_grows it pen).
Qed.

Lemma page_break_adds (imgHeight : float) (l : Layout) :
  tidy (doc l) -> Adds l (page_break imgHeight l) [] [] [].
Proof.
  intros [Hlast Hsize]. unfold page_break.
  destruct (280 <? yPos l + imgHeight)%float.
  - constructor; rewrite ?app_nil_r.
    + split; [apply addPage_last | exact Hsize].
    + apply (addPage_projection header_of).
    + apply (addPage_projection image_of).
    + reflexivity.
    + apply addPage_grows.
  - apply Adds_refl. split; assumption.
Qed.

Section ReportFacts.

Variable pageWidth : float.
Variable getTextWidth : Style -> string -> float.
Variable toFixed1 : float -> string.
Variable toLocaleDateString toLocaleTimeString toISOString : string.
Variable html2canvas : Chart -> JsThrown + Canvas.
Variable addImage_error : string -> option JsThrown.

(** A label and its value are 11 pt text: no header, no image. *)
Lemma addText_adds (label value : string) (indent : float) (l : Layout) :
  tidy (doc l) -> Adds l (addText getTextWidth label value indent l) [] [] [].
Proof.
  intros [Hlast Hsize].
  set (pen1 := setFont true (doc l)).
  set (it1 := IText (label +++ ": ") (margin + indent)%float (yPos l)
                AlignLeft (style pen1)).
  set (pen2 := setFont false (draw it1 pen1)).
  set (it2 := IText value
                (margin + indent
                 + getTextWidth (style (draw it1 pen1)) (label +++ ": "))%float
                (yPos l) AlignLeft (style pen2)).
  assert (Hdoc : doc (addText getTextWidth label value indent l)
                 = draw it2 pen2) by reflexivity.
  assert (Hit1 : header_of it1 = []) by (cbn; rewrite Hsize; reflexivity).
  assert (Hit2 : header_of it2 = []) by (cbn; rewrite Hsize; reflexivity).
  constructor; rewrite ?app_nil_r.
  - rewrite Hdoc. split; [|exact Hsize].
    apply draw_last. exact (draw_last it1 pen1 Hlast).
  - rewrite Hdoc, (draw_headers_ignored it2 pen2 Hit2).
    exact (draw_headers_ignored it1 pen1 Hit1).
  - rewrite Hdoc, (draw_images_ignored it2 pen2 eq_refl).
    exact (draw_images_ignored it1 pen1 eq_refl).
  - reflexivity.
  - rewrite Hdoc.
    apply (page_grows_trans _ (draw it1 pen1)); [exact (draw_grows it1 pen1)|].
    exact (draw_grows it2 pen2).
Qed.

(** Placing an image after a header: the image is added, or the error
    of [addImage] is logged; in both cases the header stays. *)
Lemma place_image_adds (data failure : string) (w h : float) (l : Layout) :
  tidy (doc l) ->
  Adds l
    (match addImage addImage_error data "PNG" margin (yPos l) w h (doc l) with
     | inl err => console_error [ArgStr failure; ArgThrown err] l
     | inr pdf => advance (h + 10)%float (on_doc (fun _ => pdf) l)
     end)
    []
    (match addImage_error data with None => [data] | Some _ => [] end)
    (match addImage_error data with
     | None => []
     | Some err => [ConsoleError [ArgStr failure; ArgThrown err]]
     end).
Proof.
  intros [Hlast Hsize]. unfold addImage.
  destruct (addImage_error data) as [err|].
  - constructor; rewrite ?app_nil_r; try reflexivity;
      [split; assumption | apply page_grows_refl].
  - set (it := IImage data "PNG" margin (yPos l) w h).
    constructor; rewrite ?app_nil_r; cbn [doc advance on_doc console].
    + split; [exact (draw_last it _ Hlast) | exact Hsize].
    + exact (draw_headers_ignored it (doc l) eq_refl).
    + exact (draw_images_last it (doc l) Hlast).
    + reflexivity.
    + exact (draw_grows it (doc l)).
Qed.

(** One chart's [try] block, for a mounted element. *)
Lemma capture_chart_adds (s : State) (c : Chart) (l : Layout) :
  tidy (doc l) ->
  ref_current s c = true ->
  Adds l
    (capture_chart pageWidth html2canvas addImage_error c (chart_title c)
       (chart_failure c) l)
    (chart_header html2canvas s c)
    (chart_image html2canvas addImage_error s c)
    (chart_errors html2canvas addImage_error s c).
Proof.
  intros Htidy Hmounted.
  unfold capture_chart, chart_header, chart_image, chart_errors,
    snapshot_taken.
  rewrite Hmounted. cbn [andb].
  destruct (html2canvas c) as [err|canvas].
  { constructor; rewrite ?app_nil_r; try reflexivity;
      [exact Htidy | apply page_grows_refl]. }
  destruct (toDataURL canvas) as [err|data].
  { constructor; rewrite ?app_nil_r; try reflexivity;
      [exact Htidy | apply page_grows_refl]. }
  set (imgWidth := (pageWidth - 2 * margin)%float).
  set (imgHeight := (height canvas * imgWidth / width canvas)%float).
  pose proof (page_break_adds imgHeight l Htidy) as Hbreak.
  pose proof (addSectionHeader_adds (chart_title c) _
                (proj1 (adds_tidy _ _ _ _ _ Hbreak))) as Hhead.
  pose proof (place_image_adds data (chart_failure c) imgWidth imgHeight _
                (adds_tidy _ _ _ _ _ Hhead)) as Himage.
  exact (Adds_trans _ _ _ _ _ _ _ _ _
           (Adds_trans _ _ _ _ _ _ _ _ _ Hbreak Hhead) Himage).
Qed.

Lemma skipped_adds (s : State) (c : Chart) (l : Layout) :
  tidy (doc l) ->
  ref_current s c = false ->
  Adds l l (chart_header html2canvas s c)
    (chart_image html2canvas addImage_error s c)
    (chart_errors html2canvas addImage_error s c).
Proof.
  intros Htidy Hoff. unfold chart_header, chart_image, chart_errors.
  rewrite Hoff. apply Adds_refl. exact Htidy.
Qed.

Lemma risk_chart_adds (s : State) (l : Layout) :
  tidy (doc l) ->
  Adds l (risk_chart pageWidth html2canvas addImage_error s l)
    (chart_header html2canvas s RiskChart)
    (chart_image html2canvas addImage_error s RiskChart)
    (chart_errors html2canvas addImage_error s RiskChart).
Proof.
  intros Htidy. unfold risk_chart.
  destruct (ref_current s RiskChart) eqn:Hmounted.
  - apply (capture_chart_adds s RiskChart l Htidy Hmounted).
  - apply (skipped_adds s RiskChart l Htidy Hmounted).
Qed.

(** The ECG chart is mounted only when the result has ECG plot data, so
    the test of [ecg_plot_data] before the ref adds nothing. *)
Lemma ecg_chart_adds (r : PredictionResponse) (s : State) (l : Layout) :
  result s = Some r ->
  tidy (doc l) ->
  Adds l (ecg_chart pageWidth html2canvas addImage_error r s l)
    (chart_header html2canvas s EcgChart)
    (chart_image html2canvas addImage_error s EcgChart)
    (chart_errors html2canvas addImage_error s EcgChart).
Proof.
  intros Hresult Htidy. unfold ecg_chart.
  destruct (ref_current s EcgChart) eqn:Hmounted.
  - pose proof Hmounted as Hdata. unfold ref_current in Hdata.
    rewrite Hresult in Hdata.
    destruct (ecg_plot_data r); [|rewrite andb_false_r in Hdata; discriminate].
    apply (capture_chart_adds s EcgChart l Htidy Hmounted).
  - destruct (ecg_plot_data r);
      apply (skipped_adds s EcgChart l Htidy Hmounted).
Qed.

Lemma pcg_chart_adds (r : PredictionResponse) (s : State) (l : Layout) :
  result s = Some r ->
  tidy (doc l) ->
  Adds l (pcg_chart pageWidth html2canvas addImage_error r s l)
    (chart_header html2canvas s PcgChart)
    (chart_image html2canvas addImage_error s PcgChart)
    (chart_errors html2canvas addImage_error s PcgChart).
Proof.
  intros Hresult Htidy. unfold pcg_chart.
  destruct (ref_current s PcgChart) eqn:Hmounted.
  - pose proof Hmounted as Hdata. unfold ref_current in Hdata.
    rewrite Hresult in Hdata.
    destruct (pcg_waveform_data r);
      [|rewrite andb_false_r in Hdata; discriminate].
    apply (capture_chart_adds s PcgChart l Htidy Hmounted).
  - destruct (pcg_waveform_data r);
      apply (skipped_adds s PcgChart l Htidy Hmounted).
Qed.

Lemma spectrogram_adds (r : PredictionResponse) (l : Layout) :
  tidy (doc l) ->
  Adds l (spectrogram pageWidth addImage_error r l)
    (spectrogram_header r)
    (spectrogram_image addImage_error r)
    (spectrogram_errors addImage_error r).
Proof.
  intros Htidy.
  unfold spectrogram, spectrogram_header, spectrogram_image,
    spectrogram_errors.
  destruct (pcg_spectrogram r) as [image|];
    [|apply Adds_refl; exact Htidy].
  destruct (JS.truthy_str (Some image)); [|apply Adds_refl; exact Htidy].
  pose proof (page_break_adds 60 l Htidy) as Hbreak.
  pose proof (addSectionHeader_adds "PCG Spectrogram" _
                (proj1 (adds_tidy _ _ _ _ _ Hbreak))) as Hhead.
  pose proof (place_image_adds image "Failed to add spectrogram:"
                (pageWidth - 2 * margin)%float 60 _
                (adds_tidy _ _ _ _ _ Hhead)) as Himage.
  exact (Adds_trans _ _ _ _ _ _ _ _ _
           (Adds_trans _ _ _ _ _ _ _ _ _ Hbreak Hhead) Himage).
Qed.

End ReportFacts.

(* ================================================================== *)
(** * The footer *)
(* ================================================================== *)

Lemma page_texts_of_item (it : Item) (entry : string * N) (p : Page) :
  In it p -> In entry (text_of it) -> In entry (page_texts p).
Proof. intros Hit Hentry. apply in_flat_map. exists it. split; assumption. Qed.

Lemma page_texts_grow (pdf pdf' : Pdf) (i : nat) :
  page_grows pdf pdf' ->
  incl (page_texts (nth i (pages pdf) [])) (page_texts (nth i (pages pdf') [])).
Proof.
  intros Hgrows entry Hin. apply in_flat_map in Hin.
  destruct Hin as (it & Hit & Hentry).
  apply (page_texts_of_item it); [apply Hgrows; exact Hit | exact Hentry].
Qed.

Section FooterFacts.

Variable pageWidth : float.

(** Stamping page [i]: both lines land on page [i], nothing else moves. *)
Lemma footer_one (n i : nat) (pdf : Pdf) :
  1 <= i <= length (pages pdf) ->
  length (pages (footer pageWidth n i pdf)) = length (pages pdf)
  /\ page_grows pdf (footer pageWidth n i pdf)
  /\ section_headers (footer pageWidth n i pdf) = section_headers pdf
  /\ images (footer pageWidth n i pdf) = images pdf
  /\ In (disclaimer, 8%N)
       (page_texts (nth (i - 1) (pages (footer pageWidth n i pdf)) []))
  /\ In (page_number i n, 8%N)
       (page_texts (nth (i - 1) (pages (footer pageWidth n i pdf)) [])).
Proof.
  intros Hi.
  set (pen := setTextColor 150 150 150 (setFontSize 8 (setPage i pdf))).
  set (it1 := IText disclaimer (pageWidth / 2)%float 290 AlignCenter
                (style pen)).
  set (it2 := IText (page_number i n) (pageWidth - margin)%float 290
                AlignRight (style (draw it1 pen))).
  assert (Hfooter : footer pageWidth n i pdf = draw it2 (draw it1 pen))
    by reflexivity.
  assert (Hcur : cur pen = i - 1) by reflexivity.
  assert (Hlen : length (pages (draw it1 pen)) = length (pages pdf))
    by (cbn; apply on_page_length).
  rewrite Hfooter.
  split; [cbn; rewrite !on_page_length; reflexivity|].
  split.
  { apply (page_grows_trans _ (draw it1 pen));
      [exact (draw_grows it1 pen) | exact (draw_grows it2 (draw it1 pen))]. }
  split.
  { rewrite (draw_headers_ignored it2 _ eq_refl).
    exact (draw_headers_ignored it1 pen eq_refl). }
  split.
  { rewrite (draw_images_ignored it2 _ eq_refl).
    exact (draw_images_ignored it1 pen eq_refl). }
  split.
  - apply (page_texts_of_item it1); [|left; reflexivity].
    apply (draw_grows it2 (draw it1 pen)).
    rewrite <- Hcur. apply draw_on_current.
    rewrite Hcur. change (pages pen) with (pages pdf). lia.
  - apply (page_texts_of_item it2); [|left; reflexivity].
    change (i - 1) with (cur (draw it1 pen)).
    apply draw_on_current. rewrite Hlen.
    change (cur (draw it1 pen)) with (i - 1). lia.
Qed.

Lemma footer_fold (n : nat) (indices : list nat) (pdf : Pdf) :
  (forall i, In i indices -> 1 <= i <= length (pages pdf)) ->
  let pdf' :=
    fold_left (fun pdf i => footer pageWidth n i pdf) indices pdf in
  length (pages pdf') = length (pages pdf)
  /\ page_grows pdf pdf'
  /\ section_headers pdf' = section_headers pdf
  /\ images pdf' = images pdf
  /\ (forall i, In i indices ->
        In (disclaimer, 8%N) (page_texts (nth (i - 1) (pages pdf') []))
        /\ In (page_number i n, 8%N)
             (page_texts (nth (i - 1) (pages pdf') []))).
Proof.
  revert pdf. induction indices as [|j rest IH]; intros pdf Hrange; cbn.
  - split; [reflexivity|]. split; [apply page_grows_refl|].
    split; [reflexivity|]. split; [reflexivity|]. intros i [].
  - destruct (footer_one n j pdf (Hrange j (or_introl eq_refl)))
      as (Hlen & Hgrows & Hheaders & Himages & Hline1 & Hline2).
    destruct (IH (footer pageWidth n j pdf)) as
      (IHlen & IHgrows & IHheaders & IHimages & IHlines).
    { intros i Hi. rewrite Hlen. apply Hrange. right. exact Hi. }
    split; [congruence|].
    split; [eapply page_grows_trans; eassumption|].
    split; [congruence|].
    split; [congruence|].
    intros i [<-|Hi]; [|apply IHlines; exact Hi].
    split; eapply page_texts_grow; eassumption.
Qed.

(** After the footer loop every page carries the disclaimer and its
    "Page i of n" line; headers and images are untouched. *)
Lemma footers_stamp_every_page (pdf : Pdf) :
  length (pages (footers pageWidth pdf)) = length (pages pdf)
  /\ page_grows pdf (footers pageWidth pdf)
  /\ section_headers (footers pageWidth pdf) = section_headers pdf
  /\ images (footers pageWidth pdf) = images pdf
  /\ (forall i, 1 <= i <= length (pages (footers pageWidth pdf)) ->
        has_footer (footers pageWidth pdf) i).
Proof.
  unfold footers, getNumberOfPages.
  destruct (footer_fold (length (pages pdf)) (seq 1 (length (pages pdf))) pdf)
    as (Hlen & Hgrows & Hheaders & Himages & Hlines).
  { intros i Hi. apply in_seq in Hi. lia. }
  repeat (split; [assumption|]).
  intros i Hi. unfold has_footer. rewrite Hlen in *.
  apply Hlines. apply in_seq. lia.
Qed.

End FooterFacts.

(* ================================================================== *)
(** * The report as a whole *)
(* ================================================================== *)

Lemma saved_app (a b : list Event) : saved (a ++ b) = saved a ++ saved b.
Proof. apply flat_map_app. Qed.

Lemma saved_chart_errors (html2canvas : Chart -> JsThrown + Canvas)
    (addImage_error : string -> option JsThrown) (s : State) (c : Chart) :
  saved (chart_errors html2canvas addImage_error s c) = [].
Proof.
  unfold chart_errors. destruct (ref_current s c); [|reflexivity].
  destruct (html2canvas c) as [err|canvas]; [reflexivity|].
  destruct (toDataURL canvas) as [err|data]; [reflexivity|].
  destruct (addImage_error data); reflexivity.
Qed.

Lemma saved_report_errors (html2canvas : Chart -> JsThrown + Canvas)
    (addImage_error : string -> option JsThrown) (s : State)
    (r : PredictionResponse) :
  saved (report_errors html2canvas addImage_error s r) = [].
Proof.
  unfold report_errors. rewrite !saved_app, !saved_chart_errors.
  unfold spectrogram_errors. destruct (pcg_spectrogram r) as [image|];
    [|reflexivity].
  destruct (JS.truthy_str (Some image)); [|reflexivity].
  destruct (addImage_error image); reflexivity.
Qed.

Section DocumentFacts.

Variable pageWidth : float.
Variable getTextWidth : Style -> string -> float.
Variable toFixed1 : float -> string.
Variable toLocaleDateString toLocaleTimeString toISOString : string.
Variable html2canvas : Chart -> JsThrown + Canvas.
Variable addImage_error : string -> option JsThrown.

Lemma fixed_part_facts (r : PredictionResponse) (s : State) :
  let fixed :=
    fixed_part pageWidth getTextWidth toFixed1 toLocaleDateString
      toLocaleTimeString r s in
  tidy (doc fixed)
  /\ section_headers (doc fixed) = ["Risk Assessment Results"; "Files Analyzed"]
  /\ images (doc fixed) = []
  /\ console fixed = []
  /\ exists first,
       pages (doc fixed) = [first]
       /\ page_texts first
          = header_texts toLocaleDateString toLocaleTimeString
            ++ risk_texts toFixed1 r ++ files_texts s.
Proof.
  cbv zeta. unfold fixed_part, files_section, files_texts.
  destruct (ecgFile s) as [e|], (pcgFile s) as [p|];
    (split; [split; reflexivity|]);
    (split; [reflexivity|]); (split; [reflexivity|]);
    (split; [reflexivity|]); eexists; split; vm_compute; reflexivity.
Qed.

Lemma layout_adds (r : PredictionResponse) (s : State) :
  result s = Some r ->
  Adds
    (fixed_part pageWidth getTextWidth toFixed1 toLocaleDateString
       toLocaleTimeString r s)
    (layout pageWidth getTextWidth toFixed1 toLocaleDateString
       toLocaleTimeString html2canvas addImage_error r s)
    (chart_header html2canvas s RiskChart
     ++ chart_header html2canvas s EcgChart
     ++ chart_header html2canvas s PcgChart
     ++ spectrogram_header r)
    (report_images html2canvas addImage_error s r)
    (report_errors html2canvas addImage_error s r).
Proof.
  intros Hresult.
  destruct (fixed_part_facts r s) as (Htidy & _).
  pose proof (risk_chart_adds pageWidth html2canvas addImage_error s _ Htidy)
    as Hrisk.
  pose proof (ecg_chart_adds pageWidth html2canvas addImage_error r s _
                Hresult (adds_tidy _ _ _ _ _ Hrisk)) as Hecg.
  pose proof (pcg_chart_adds pageWidth html2canvas addImage_error r s _
                Hresult (adds_tidy _ _ _ _ _ Hecg)) as Hpcg.
  pose proof (spectrogram_adds pageWidth addImage_error r _
                (adds_tidy _ _ _ _ _ Hpcg)) as Hspec.
  exact (Adds_trans _ _ _ _ _ _ _ _ _ Hrisk
           (Adds_trans _ _ _ _ _ _ _ _ _ Hecg
              (Adds_trans _ _ _ _ _ _ _ _ _ Hpcg Hspec))).
Qed.

(** What [generateReport] saves when there is a result: one document,
    after the console lines of the charts that failed.  Its section
    headers and images are those of the fixed sections and of the charts
    that were captured; its first page carries the fixed texts; every
    page carries the footer. *)
Lemma generateReport_document (w : World) (r : PredictionResponse) :
  result (ui w) = Some r ->
  exists pdf first rest,
    trace (generateReport pageWidth getTextWidth toFixed1
             toLocaleDateString toLocaleTimeString toISOString
             html2canvas addImage_error w)
    = trace w
      ++ Await (setReportLoading true (ui w))
         :: report_errors html2canvas addImage_error (ui w) r
            ++ [Save (report_filename toISOString) pdf]
    /\ section_headers pdf = report_headers html2canvas (ui w) r
    /\ images pdf = report_images html2canvas addImage_error (ui w) r
    /\ pages pdf = first :: rest
    /\ incl (header_texts toLocaleDateString toLocaleTimeString
             ++ risk_texts toFixed1 r ++ files_texts (ui w))
         (page_texts first)
    /\ (forall i, 1 <= i <= length (pages pdf) -> has_footer pdf i).
Proof.
  intros Hresult.
  set (l := layout pageWidth getTextWidth toFixed1 toLocaleDateString
              toLocaleTimeString html2canvas addImage_error r (ui w)).
  destruct (fixed_part_facts r (ui w))
    as (_ & Hheaders0 & Himages0 & Hconsole0 & first0 & Hpages0 & Htexts0).
  destruct (layout_adds r (ui w) Hresult)
    as [_ Hheaders Himages Hconsole Hgrows].
  fold l in Hheaders, Himages, Hconsole, Hgrows.
  destruct (footers_stamp_every_page pageWidth (doc l))
    as (Hlen & Hstamp_grows & Hstamp_headers & Hstamp_images & Hfooter).
  assert (Hfirst : incl (page_texts first0)
                     (page_texts
                        (nth 0 (pages (footers pageWidth (doc l))) []))).
  { pose proof (page_texts_grow _ _ 0
                  (page_grows_trans _ _ _ Hgrows Hstamp_grows)) as Hincl.
    rewrite Hpages0 in Hincl. exact Hincl. }
  destruct (pages (footers pageWidth (doc l))) as [|first rest] eqn:Hpages.
  { exfalso. rewrite Htexts0 in Hfirst.
    apply (Hfirst ("SmartHeart Analysis Report", 22%N)). left. reflexivity. }
  exists (footers pageWidth (doc l)), first, rest.
  split.
  { unfold generateReport. rewrite Hresult. fold l. cbn [trace on_ui emit].
    rewrite Hconsole, Hconsole0. cbn [app].
    rewrite <- app_assoc. reflexivity. }
  split; [rewrite Hstamp_headers, Hheaders, Hheaders0; reflexivity|].
  split; [rewrite Hstamp_images, Himages, Himages0; reflexivity|].
  split; [exact Hpages|].
  split; [rewrite <- Htexts0; exact Hfirst|].
  rewrite Hpages. exact Hfooter.
Qed.

End DocumentFacts.

Lemma ecg_chart_needs_data (s : State) (r : PredictionResponse) :
  result s = Some r -> ecg_plot_data r = None -> ref_current s EcgChart = false.
Proof.
  intros Hresult Hdata. unfold ref_current. rewrite Hresult, Hdata.
  apply andb_false_r.
Qed.

Lemma pcg_chart_needs_data (s : State) (r : PredictionResponse) :
  result s = Some r ->
  pcg_waveform_data r = None -> ref_current s PcgChart = false.
Proof.
  intros Hresult Hdata. unfold ref_current. rewrite Hresult, Hdata.
  apply andb_false_r.
Qed.

Lemma saved_report_trace (before : list Event) (view : State)
    (errors : list Event) (filename : string) (pdf : Pdf) :
  saved errors = [] ->
  saved (before ++ Await view :: errors ++ [Save filename pdf])
  = saved before ++ [pdf].
Proof.
  intros Hnone. rewrite saved_app. f_equal.
  change (saved (Await view :: errors ++ [Save filename pdf]))
    with (saved (errors ++ [Save filename pdf])).
  rewrite saved_app, Hnone. reflexivity.
Qed.

(** C4, as stated, fails: a result without ECG plot, PCG waveform and
    spectrogram still gets the risk bar chart, which is snapshot whenever a
    result is shown.  The report then has one chart section. *)
Lemma report_without_waveforms_has_a_chart :
  let w :=
    Sample.report Sample.snapshot_ok
      (Sample.with_result Sample.risks_only 0) in
  (ecg_plot_data Sample.risks_only = None
   /\ pcg_waveform_data Sample.risks_only = None
   /\ pcg_spectrogram Sample.risks_only = None)
  /\ map section_headers (saved (trace w))
     = [["Risk Assessment Results"; "Files Analyzed";
         "Risk Assessment Overview"]]
  /\ map images (saved (trace w)) = [["data:image/png;base64,iVBOR"]].
Proof. vm_compute. repeat split. Qed.

(** C4 (amended).  For a result without ECG plot data, PCG waveform data
    and spectrogram, [generateReport] saves one document.  Its first page
    carries the header, the risk-assessment section and the files-analyzed
    section.  It has no ECG, PCG or spectrogram section; its only possible
    chart section is the risk overview, present when the snapshot of the
    risk bar chart is taken, so it holds at most one image. *)
Theorem report_without_waveforms
    (pageWidth : float) (getTextWidth : Style -> string -> float)
    (toFixed1 : float -> string)
    (toLocaleDateString toLocaleTimeString toISOString : string)
    (html2canvas : Chart -> JsThrown + Canvas)
    (addImage_error : string -> option JsThrown)
    (w : World) (r : PredictionResponse) :
  result (ui w) = Some r ->
  ecg_plot_data r = None ->
  pcg_waveform_data r = None ->
  pcg_spectrogram r = None ->
  exists pdf first rest,
    saved (trace (generateReport pageWidth getTextWidth toFixed1
                    toLocaleDateString toLocaleTimeString toISOString
                    html2canvas addImage_error w))
    = saved (trace w) ++ [pdf]
    /\ pages pdf = first :: rest
    /\ incl (header_texts toLocaleDateString toLocaleTimeString
             ++ risk_texts toFixed1 r ++ files_texts (ui w))
         (page_texts first)
    /\ section_headers pdf
       = "Risk Assessment Results" :: "Files Analyzed"
         :: chart_header html2canvas (ui w) RiskChart
    /\ images pdf = chart_image html2canvas addImage_error (ui w) RiskChart
    /\ ~ In "ECG Signal Visualization" (section_headers pdf)
    /\ ~ In "PCG Waveform Visualization" (section_headers pdf)
    /\ ~ In "PCG Spectrogram" (section_headers pdf)
    /\ length (images pdf) <= 1.
Proof.
  intros Hresult Hecg Hpcg Hspec.
  destruct (generateReport_document pageWidth getTextWidth toFixed1
              toLocaleDateString toLocaleTimeString toISOString
              html2canvas addImage_error w r Hresult)
    as (pdf & first & rest & Htrace & Hheaders & Himages & Hpages & Hfixed & _).
  assert (Hheaders' : section_headers pdf
                      = "Risk Assessment Results" :: "Files Analyzed"
                        :: chart_header html2canvas (ui w) RiskChart).
  { rewrite Hheaders. unfold report_headers, chart_header, spectrogram_header.
    rewrite (ecg_chart_needs_data _ _ Hresult Hecg),
      (pcg_chart_needs_data _ _ Hresult Hpcg), Hspec.
    cbn. rewrite app_nil_r. reflexivity. }
  assert (Himages' : images pdf
                     = chart_image html2canvas addImage_error (ui w) RiskChart).
  { rewrite Himages. unfold report_images, chart_image, spectrogram_image.
    rewrite (ecg_chart_needs_data _ _ Hresult Hecg),
      (pcg_chart_needs_data _ _ Hresult Hpcg), Hspec.
    cbn. rewrite app_nil_r. reflexivity. }
  exists pdf, first, rest.
  split.
  { rewrite Htrace. apply saved_report_trace, saved_report_errors. }
  split; [exact Hpages|]. split; [exact Hfixed|].
  split; [exact Hheaders'|]. split; [exact Himages'|].
  rewrite Hheaders', Himages'. unfold chart_header, chart_image.
  destruct (ref_current (ui w) RiskChart); cbn;
    [|repeat split; (intuition discriminate) || lia].
  unfold snapshot_taken.
  destruct (html2canvas RiskChart) as [err|canvas]; cbn;
    [repeat split; (intuition discriminate) || lia|].
  destruct (toDataURL canvas) as [err|data]; cbn;
    [repeat split; (intuition discriminate) || lia|].
  destruct (addImage_error data); cbn;
    repeat split; (intuition discriminate) || lia.
Qed.

Lemma report_without_waveforms_witness :
  exists pdf,
    saved (trace (Sample.report Sample.snapshot_ok
                    (Sample.with_result Sample.risks_only 0)))
    = [pdf]
    /\ ~ In "ECG Signal Visualization" (section_headers pdf)
    /\ length (images pdf) <= 1.
Proof.
  destruct (report_without_waveforms 210 Sample.textWidth Sample.toFixed1
              "11/3/2026" "9:41:00 AM" "2026-11-03T09:41:00.000Z"
              Sample.snapshot_ok (fun _ => None)
              (Sample.with_result Sample.risks_only 0) Sample.risks_only
              eq_refl eq_refl eq_refl eq_refl)
    as (pdf & first & rest & Hsaved & _ & _ & _ & _ & Hecg & _ & _ & Himages).
  exists pdf. split; [exact Hsaved | split; [exact Hecg | exact Himages]].
Defined.

(** C9.  When the snapshot of a mounted chart fails, the failure is
    written to the console with that chart's message and the chart has no
    section (no header, no image) in the document; the report is still
    saved, with the fixed sections on its first page, the sections of the
    other charts whose snapshots were taken, the spectrogram section when
    there is one, and on every page the disclaimer and "Page i of n". *)
Theorem chart_failure_is_skipped
    (pageWidth : float) (getTextWidth : Style -> string -> float)
    (toFixed1 : float -> string)
    (toLocaleDateString toLocaleTimeString toISOString : string)
    (html2canvas : Chart -> JsThrown + Canvas)
    (addImage_error : string -> option JsThrown)
    (w : World) (r : PredictionResponse) (c : Chart) (err : JsThrown) :
  result (ui w) = Some r ->
  ref_current (ui w) c = true ->
  snapshot_error html2canvas c = Some err ->
  let w' :=
    generateReport pageWidth getTextWidth toFixed1 toLocaleDateString
      toLocaleTimeString toISOString html2canvas addImage_error w in
  exists pdf first rest,
    saved (trace w') = saved (trace w) ++ [pdf]
    /\ In (ConsoleError [ArgStr (chart_failure c); ArgThrown err]) (trace w')
    /\ ~ In (chart_title c) (section_headers pdf)
    /\ section_headers pdf = report_headers html2canvas (ui w) r
    /\ chart_header html2canvas (ui w) c = []
    /\ images pdf = report_images html2canvas addImage_error (ui w) r
    /\ chart_image html2canvas addImage_error (ui w) c = []
    /\ pages pdf = first :: rest
    /\ incl (header_texts toLocaleDateString toLocaleTimeString
             ++ risk_texts toFixed1 r ++ files_texts (ui w))
         (page_texts first)
    /\ (forall i, 1 <= i <= length (pages pdf) -> has_footer pdf i).
Proof.
  intros Hresult Hmounted Hfail w'.
  destruct (generateReport_document pageWidth getTextWidth toFixed1
              toLocaleDateString toLocaleTimeString toISOString
              html2canvas addImage_error w r Hresult)
    as (pdf & first & rest & Htrace & Hheaders & Himages & Hpages & Hfixed
        & Hfooter).
  fold w' in Htrace.
  assert (Hlogged : chart_errors html2canvas addImage_error (ui w) c
                    = [ConsoleError [ArgStr (chart_failure c); ArgThrown err]]).
  { unfold chart_errors. unfold snapshot_error in Hfail. rewrite Hmounted.
    destruct (html2canvas c) as [e|canvas];
      [|destruct (toDataURL canvas) as [e|data]];
      inversion Hfail; reflexivity. }
  assert (Hskipped : chart_header html2canvas (ui w) c = []).
  { unfold chart_header, snapshot_taken. unfold snapshot_error in Hfail.
    destruct (html2canvas c) as [e|canvas];
      [|destruct (toDataURL canvas) as [e|data]];
      inversion Hfail; rewrite andb_false_r; reflexivity. }
  assert (Hnothing : chart_image html2canvas addImage_error (ui w) c = []).
  { unfold chart_image. unfold snapshot_error in Hfail. rewrite Hmounted.
    destruct (html2canvas c) as [e|canvas];
      [|destruct (toDataURL canvas) as [e|data]];
      inversion Hfail; reflexivity. }
  exists pdf, first, rest.
  split.
  { rewrite Htrace. apply saved_report_trace, saved_report_errors. }
  split.
  { rewrite Htrace. apply in_or_app. right. right.
    apply in_or_app. left. unfold report_errors.
    destruct c; rewrite Hlogged; rewrite ?in_app_iff; cbn; tauto. }
  split.
  { rewrite Hheaders. unfold report_headers.
    destruct c; rewrite Hskipped; unfold chart_header, spectrogram_header;
      repeat match goal with
             | |- context [if ?b then _ else _] => destruct b
             end; cbn; intuition discriminate. }
  split; [exact Hheaders|]. split; [exact Hskipped|].
  split; [exact Himages|].
  split; [exact Hnothing|].
  split; [exact Hpages|]. split; [exact Hfixed | exact Hfooter].
Qed.

Lemma chart_failure_is_skipped_witness :
  exists pdf,
    saved (trace (Sample.report Sample.snapshot_risk_fails
                    (Sample.with_result Sample.full 0)))
    = [pdf]
    /\ ~ In "Risk Assessment Overview" (section_headers pdf)
    /\ has_footer pdf 1.
Proof.
  destruct (chart_failure_is_skipped 210 Sample.textWidth Sample.toFixed1
              "11/3/2026" "9:41:00 AM" "2026-11-03T09:41:00.000Z"
              Sample.snapshot_risk_fails (fun _ => None)
              (Sample.with_result Sample.full 0) Sample.full RiskChart
              (ThrownError "Unable to find element in cloned iframe")
              eq_refl eq_refl eq_refl)
    as (pdf & first & rest & Hsaved & _ & Hskipped & _ & _ & _ & _ & Hpages
        & _ & Hfooter).
  exists pdf. split; [exact Hsaved|]. split; [exact Hskipped|].
  apply Hfooter. rewrite Hpages. cbn. lia.
Defined.

(* ================================================================== *)
(** * Worked examples *)
(* ================================================================== *)

(** Three PCG selections: two revokes, each right before the next create. *)
Example three_selections :
  trace (select_all [(Sample.heart_wav, []); (Sample.murmur_wav, []);
                     (Sample.heart_wav, [])] initial_world)
  = [CreateObjectURL Sample.heart_wav "blob:0";
     RevokeObjectURL "blob:0";
     CreateObjectURL Sample.murmur_wav "blob:1";
     RevokeObjectURL "blob:1";
     CreateObjectURL Sample.heart_wav "blob:2"].
Proof. reflexivity. Qed.

(** A change event without a file changes nothing. *)
Example cancelled_selection (w : World) :
  handlePcgChange (Some []) w = w /\ handlePcgChange None w = w.
Proof. split; reflexivity. Qed.

Example upload_unreachable :
  snd (uploadFiles None Sample.backend_down None (Some Sample.heart_wav))
  = inl (ThrownError
           "Network error: Unable to reach the server. Please check if the backend is running.").
Proof. reflexivity. Qed.

Example upload_unexpected :
  snd (uploadFiles None Sample.backend_odd None (Some Sample.heart_wav))
  = inl (ThrownError "An unexpected error occurred during file upload").
Proof. reflexivity. Qed.

(** Both files go into the form, ECG first, to the default base URL. *)
Example upload_both :
  network_calls
    (fst (uploadFiles None Sample.backend_ok (Some Sample.ecg_csv)
            (Some Sample.heart_wav)))
  = [HttpPost "http://localhost:8000/predict"
       [("ecg_file", Sample.ecg_csv); ("pcg_file", Sample.heart_wav)] 300000].
Proof. reflexivity. Qed.

Example health_checks :
  snd (checkHealth None (fun _ => inr 200%N)) = inr true
  /\ snd (checkHealth None (fun _ => inr 204%N)) = inr false
  /\ snd (checkHealth None (fun _ => inl (ThrownError "timeout"))) = inr false.
Proof. repeat split. Qed.

(** A NaN risk is neither above nor at-or-below 0.5; it is labelled low. *)
Example nan_risk :
  (0.5 <? nan)%float = false /\ (nan <=? 0.5)%float = false
  /\ getRiskLabel (Some nan) = "LOW RISK".
Proof. repeat split. Qed.

(** 201 rows: the badge counts them all, the body shows 200, the note
    says so. *)
Example long_preview :
  option_map (fun m => (badge_rows m, badge_columns m, length (body m), note m))
    (csv_modal
       (ui (handleViewCsvData
              (on_ui (handleEcgChange (Some [Sample.long_csv]))
                 initial_world))))
  = Some (201, 2, 200, Some "Showing first 200 rows of 201 total rows").
Proof. vm_compute. reflexivity. Qed.

(** A full result on the ECG tab: the PCG chart is not mounted, the ECG
    chart does not fit under the risk chart and opens page 2, and both
    pages are numbered. *)
Example two_page_report :
  map (fun pdf =>
         (length (pages pdf), section_headers pdf,
          map (fun p => map fst (filter (fun e => (snd e =? 8)%N)
                                   (page_texts p)))
            (pages pdf)))
    (saved (trace (Sample.report Sample.snapshot_ok
                     (Sample.with_result Sample.full 0))))
  = [(2,
      ["Risk Assessment Results"; "Files Analyzed";
       "Risk Assessment Overview"; "ECG Signal Visualization";
       "PCG Spectrogram"],
      [[disclaimer; "Page 1 of 2"]; [disclaimer; "Page 2 of 2"]])].
Proof. vm_compute. reflexivity. Qed.

(* ================================================================== *)
(** * More on the API client *)
(* ================================================================== *)

Lemma network_calls_app (a b : list Event) :
  network_calls (a ++ b) = network_calls a ++ network_calls b.
Proof. apply filter_app. Qed.

Lemma uploadFiles_catch_offline (error : JsThrown) :
  network_calls (fst (uploadFiles_catch error)) = [].
Proof.
  destruct error as [e|m|v]; cbn; try reflexivity.
  destruct (response e); [reflexivity|]. destruct (request e); reflexivity.
Qed.

(** With a file, the only network call of [uploadFiles] is its POST. *)
Lemma uploadFiles_network
    (env_url : option string)
    (post : string -> FormData -> JsThrown + PredictionResponse)
    (ecg pcg : option File) :
  ecg <> None \/ pcg <> None ->
  network_calls (fst (uploadFiles env_url post ecg pcg))
  = [HttpPost (API_BASE_URL env_url +++ "/predict") (upload_body ecg pcg)
       300000].
Proof.
  intros Hfile. unfold uploadFiles, uploadFiles_try, upload_body.
  destruct ecg as [e|], pcg as [p|];
    try (destruct Hfile as [H|H]; congruence);
    match goal with
    | |- context [post ?u ?b] => destruct (post u b) as [t|d]
    end;
    try (pose proof (uploadFiles_catch_offline t) as Hoff;
         destruct (uploadFiles_catch t) as [logged thrown]; cbn [fst] in *);
    cbn [fst]; rewrite ?network_calls_app; rewrite ?Hoff; reflexivity.
Qed.

(** X1.  With at least one file, [uploadFiles] makes exactly one network
    call, whatever the backend answers: a POST to the predict endpoint
    with a 300000 ms timeout whose body holds exactly the given files, the
    ECG part before the PCG part.  A failure is not retried. *)
Theorem upload_posts_once
    (env_url : option string)
    (post : string -> FormData -> JsThrown + PredictionResponse)
    (ecg pcg : option File) :
  ecg <> None \/ pcg <> None ->
  network_calls (fst (uploadFiles env_url post ecg pcg))
  = [HttpPost (API_BASE_URL env_url +++ "/predict") (upload_body ecg pcg)
       300000]
  /\ length (network_calls (fst (uploadFiles env_url post ecg pcg))) = 1.
Proof.
  intros Hfile. rewrite (uploadFiles_network env_url post ecg pcg Hfile).
  split; reflexivity.
Qed.

Lemma upload_posts_once_witness :
  network_calls
    (fst (uploadFiles None Sample.backend_500 None (Some Sample.heart_wav)))
  = [HttpPost "http://localhost:8000/predict"
       [("pcg_file", Sample.heart_wav)] 300000].
Proof.
  assert (Hfile : (None : option File) <> None
                  \/ Some Sample.heart_wav <> None) by (right; discriminate).
  exact (proj1 (upload_posts_once None Sample.backend_500 None
                  (Some Sample.heart_wav) Hfile)).
Defined.

(** X2.  [uploadFiles] returns a response exactly when a file was given
    and the backend answered the POST with that response; the response is
    returned as received. *)
Theorem upload_returns_backend_data
    (env_url : option string)
    (post : string -> FormData -> JsThrown + PredictionResponse)
    (ecg pcg : option File) (data : PredictionResponse) :
  snd (uploadFiles env_url post ecg pcg) = inr data
  <-> (ecg <> None \/ pcg <> None)
      /\ post (API_BASE_URL env_url +++ "/predict") (upload_body ecg pcg)
         = inr data.
Proof.
  unfold uploadFiles, uploadFiles_try, upload_body.
  destruct ecg as [e|], pcg as [p|];
    try match goal with
        | |- context [post ?u ?b] => destruct (post u b) as [t|d] eqn:Hpost
        end;
    try destruct (uploadFiles_catch _) as [logged thrown];
    cbn [snd]; split;
    try (intros H; inversion H; subst; split;
         [(left; discriminate) || (right; discriminate) | reflexivity]);
    try (intros [_ H]; congruence);
    try (intros [[H|H] _]; congruence);
    try discriminate.
Qed.

(** X3.  The base URL is the configured one, or the local default when
    the setting is missing or empty.  [checkHealth] and [getApiInfo] each
    make exactly one GET below it, whatever the backend answers, and
    [getApiInfo] throws on exactly the value the GET was rejected with. *)
Theorem api_targets
    (env_url : option string) (get : string -> JsThrown + N)
    (get_data : string -> JsThrown + string) :
  (API_BASE_URL env_url
   = match env_url with
     | Some (String c rest) => String c rest
     | _ => "http://localhost:8000"
     end)
  /\ network_calls (fst (checkHealth env_url get))
     = [HttpGet (API_BASE_URL env_url +++ "/health") 5000]
  /\ network_calls (fst (getApiInfo env_url get_data))
     = [HttpGet (API_BASE_URL env_url +++ "/") 0]
  /\ snd (getApiInfo env_url get_data)
     = get_data (API_BASE_URL env_url +++ "/").
Proof.
  split; [destruct env_url as [[|c rest]|]; reflexivity|].
  unfold checkHealth, getApiInfo.
  destruct (get (API_BASE_URL env_url +++ "/health"));
    destruct (get_data (API_BASE_URL env_url +++ "/")); repeat split.
Qed.

(* ================================================================== *)
(** * Audio playback *)
(* ================================================================== *)

(** X4.  Without a mounted player the toggle does nothing.  With one, it
    calls [pause] when playing and [play] otherwise and flips the flag, so
    a second toggle makes the opposite call and restores the state. *)
Theorem toggle_audio_twice (s : State) :
  audioRef_current s = true ->
  isPlaying (fst (toggleAudioPlayback s)) = negb (isPlaying s)
  /\ snd (toggleAudioPlayback s)
     = [if isPlaying s then AudioPause else AudioPlay]
  /\ fst (toggleAudioPlayback (fst (toggleAudioPlayback s))) = s
  /\ snd (toggleAudioPlayback (fst (toggleAudioPlayback s)))
     = [if isPlaying s then AudioPlay else AudioPause]
  /\ (forall s0,
        audioRef_current s0 = false -> toggleAudioPlayback s0 = (s0, [])).
Proof.
  intros Hmounted.
  assert (Hurl : JS.truthy_str (pcgAudioUrl s) = true).
  { unfold audioRef_current in Hmounted.
    apply andb_true_iff in Hmounted. tauto. }
  assert (Hfirst : toggleAudioPlayback s
                   = (setIsPlaying (negb (isPlaying s)) s,
                      [if isPlaying s then AudioPause else AudioPlay])).
  { unfold toggleAudioPlayback. rewrite Hmounted, Hurl. reflexivity. }
  assert (Hsecond : toggleAudioPlayback (setIsPlaying (negb (isPlaying s)) s)
                    = (s, [if isPlaying s then AudioPlay else AudioPause])).
  { unfold toggleAudioPlayback, audioRef_current in *. cbn.
    rewrite Hmounted, Hurl. cbn.
    destruct s as [e p r l er t playing u m c cl rl]; cbn.
    destruct playing; reflexivity. }
  rewrite Hfirst. cbn [fst snd]. rewrite Hsecond. cbn [fst snd].
  repeat split.
  intros s0 Hoff. unfold toggleAudioPlayback. rewrite Hoff. reflexivity.
Qed.

Lemma toggle_audio_twice_witness :
  let s := ui (handlePcgChange (Some [Sample.heart_wav]) initial_world) in
  snd (toggleAudioPlayback s) = [AudioPlay]
  /\ fst (toggleAudioPlayback (fst (toggleAudioPlayback s))) = s
  /\ toggleAudioPlayback initial_state = (initial_state, []).
Proof.
  intros s.
  destruct (toggle_audio_twice s eq_refl) as (_ & Hcall & Hback & _ & Hoff).
  split; [exact Hcall|]. split; [exact Hback|].
  apply Hoff. reflexivity.
Defined.

(* ================================================================== *)
(** * More on the analysis *)
(* ================================================================== *)

(** [handleAnalyze] with a file, as one expression. *)
Lemma handleAnalyze_run
    (env_url : option string)
    (post : string -> FormData -> JsThrown + PredictionResponse)
    (w : World) :
  ecgFile (ui w) <> None \/ pcgFile (ui w) <> None ->
  let call := uploadFiles env_url post (ecgFile (ui w)) (pcgFile (ui w)) in
  let awaiting :=
    emit (fst call)
      (emit [Await (setError None (setLoading true (ui w)))]
         (on_ui (setError None) (on_ui (setLoading true) w))) in
  handleAnalyze env_url post w
  = on_ui (setLoading false)
      (match snd call with
       | inr response =>
           on_ui (setActiveTab 0) (on_ui (setResult (Some response)) awaiting)
       | inl err =>
           emit [ConsoleError [ArgStr "Analysis error:"; ArgThrown err]]
             (on_ui (setError (Some (analysis_error err))) awaiting)
       end).
Proof.
  intros Hfile call awaiting. subst awaiting call. unfold handleAnalyze.
  destruct (uploadFiles env_url post (ecgFile (ui w)) (pcgFile (ui w)))
    as [events outcome].
  destruct (ecgFile (ui w)) as [e|], (pcgFile (ui w)) as [p|];
    try reflexivity.
  destruct Hfile as [H|H]; congruence.
Qed.

Lemma analyze_disabled_no_file (s : State) :
  analyze_disabled s = false -> ecgFile s <> None \/ pcgFile s <> None.
Proof.
  unfold analyze_disabled. intros Hen.
  apply orb_false_iff in Hen. destruct Hen as [_ Hfiles].
  destruct (ecgFile s); [left; discriminate|].
  destruct (pcgFile s); [right; discriminate|]. discriminate.
Qed.

(** X5.  While an analysis is awaited the page is rendered with the
    Analyze button and both file inputs disabled, so a second request
    cannot be started from it; this view is the first thing the handler
    adds to the trace. *)
Theorem analyzing_view_blocks_input
    (env_url : option string)
    (post : string -> FormData -> JsThrown + PredictionResponse)
    (w : World) :
  ecgFile (ui w) <> None \/ pcgFile (ui w) <> None ->
  exists view later,
    trace (handleAnalyze env_url post w) = trace w ++ Await view :: later
    /\ (forall v, In (Await v) later -> False)
    /\ analyze_disabled view = true
    /\ file_input_disabled view = true
    /\ ecgFile view = ecgFile (ui w)
    /\ pcgFile view = pcgFile (ui w).
Proof.
  intros Hfile. rewrite (handleAnalyze_run env_url post w Hfile).
  set (call := uploadFiles env_url post (ecgFile (ui w)) (pcgFile (ui w))).
  assert (Hcall : forall v, In (Await v) (fst call) -> False).
  { subst call. unfold uploadFiles, uploadFiles_try.
    destruct (ecgFile (ui w)) as [e|], (pcgFile (ui w)) as [p|];
      try match goal with
          | |- context [post ?u ?b] => destruct (post u b) as [t|d]
          end;
      try match goal with
          | |- context [uploadFiles_catch ?t] =>
              destruct t as [ax|m|v0]; cbn;
              [destruct (response ax); [|destruct (request ax)]| |]
          end;
      cbn; intros v Hin; rewrite ?in_app_iff in Hin; cbn in Hin;
      intuition discriminate. }
  exists (setError None (setLoading true (ui w))).
  destruct (snd call) as [err|response].
  - exists (fst call
            ++ [ConsoleError [ArgStr "Analysis error:"; ArgThrown err]]).
    split; [cbn; rewrite <- !app_assoc; reflexivity|].
    split; [|repeat split].
    intros v Hin. apply in_app_iff in Hin. destruct Hin as [Hin|Hin].
    + exact (Hcall v Hin).
    + cbn in Hin. intuition discriminate.
  - exists (fst call).
    split; [cbn; rewrite <- !app_assoc; reflexivity|].
    split; [exact Hcall | repeat split].
Qed.

Lemma analyzing_view_blocks_input_witness :
  exists view later,
    trace (handleAnalyze None Sample.backend_ok
             (on_ui (handleEcgChange (Some [Sample.ecg_csv])) initial_world))
    = Await view :: later
    /\ analyze_disabled view = true.
Proof.
  assert (Hfile :
    ecgFile (ui (on_ui (handleEcgChange (Some [Sample.ecg_csv]))
                   initial_world)) <> None
    \/ pcgFile (ui (on_ui (handleEcgChange (Some [Sample.ecg_csv]))
                      initial_world)) <> None) by (left; discriminate).
  destruct (analyzing_view_blocks_input None Sample.backend_ok _ Hfile)
    as (view & later & Htrace & _ & Hdisabled & _).
  exists view, later. split; [exact Htrace | exact Hdisabled].
Defined.

(** X6.  When the Analyze button is enabled, one click makes exactly one
    network call, the POST of the selected files, and leaves the selected
    files, the CSV preview, the audio player and the object URLs as they
    were. *)
Theorem analyze_click_posts_once
    (env_url : option string)
    (post : string -> FormData -> JsThrown + PredictionResponse)
    (w : World) :
  analyze_disabled (ui w) = false ->
  let w' := handleAnalyze env_url post w in
  network_calls (trace w')
  = network_calls (trace w)
    ++ [HttpPost (API_BASE_URL env_url +++ "/predict")
          (upload_body (ecgFile (ui w)) (pcgFile (ui w))) 300000]
  /\ ecgFile (ui w') = ecgFile (ui w)
  /\ pcgFile (ui w') = pcgFile (ui w)
  /\ csvData (ui w') = csvData (ui w)
  /\ showCsvModal (ui w') = showCsvModal (ui w)
  /\ pcgAudioUrl (ui w') = pcgAudioUrl (ui w)
  /\ isPlaying (ui w') = isPlaying (ui w)
  /\ live w' = live w
  /\ minted w' = minted w.
Proof.
  intros Henabled w'. subst w'.
  pose proof (analyze_disabled_no_file _ Henabled) as Hfile.
  rewrite (handleAnalyze_run env_url post w Hfile).
  pose proof (uploadFiles_network env_url post _ _ Hfile) as Hpost.
  destruct (snd (uploadFiles env_url post (ecgFile (ui w)) (pcgFile (ui w))))
    as [err|response]; cbn; rewrite !network_calls_app, Hpost; cbn;
    rewrite ?app_nil_r; repeat split.
Qed.

Lemma analyze_click_posts_once_witness :
  network_calls
    (trace (handleAnalyze None Sample.backend_500
              (handlePcgChange (Some [Sample.heart_wav]) initial_world)))
  = [HttpPost "http://localhost:8000/predict"
       [("pcg_file", Sample.heart_wav)] 300000].
Proof.
  destruct (analyze_click_posts_once None Sample.backend_500
              (handlePcgChange (Some [Sample.heart_wav]) initial_world)
              eq_refl) as (Hcalls & _).
  exact Hcalls.
Defined.

(* ================================================================== *)
(** * What the result section shows *)
(* ================================================================== *)

(** X7.  The chart container by tab.  On the ECG and PCG tabs it holds
    exactly one child: the chart when the result has the data (an empty
    array counts), the no-data notice when the field is null.  On the
    spectrogram tab it holds the viewer, followed by the no-data notice
    when there is no image.  For any other tab value it is empty.  So the
    no-data notice is shown exactly when the active tab's field is
    absent. *)
Theorem chart_container_by_tab (s : State) (r : PredictionResponse) :
  result s = Some r ->
  visual_panel s
  = (if (activeTab s =? 0)%N then
       match ecg_plot_data r with
       | Some _ =>
           [EcgPanel (getEcgChartData s) (ecg_heatmap r)
              (option_map (fun x => (x * 100)%float) (ecg_risk r))]
       | None => [NoData]
       end
     else if (activeTab s =? 1)%N then
       match pcg_waveform_data r with
       | Some _ =>
           [PcgPanel (getPcgChartData s) (pcg_heatmap r)
              (option_map (fun x => (x * 100)%float) (pcg_risk r))]
       | None => [NoData]
       end
     else if (activeTab s =? 2)%N then
       SpectrogramPanel (pcg_spectrogram r)
       :: (if JS.truthy_str (pcg_spectrogram r) then [] else [NoData])
     else [])
  /\ (In NoData (visual_panel s)
      <-> (activeTab s = 0%N /\ ecg_plot_data r = None)
          \/ (activeTab s = 1%N /\ pcg_waveform_data r = None)
          \/ (activeTab s = 2%N /\ JS.truthy_str (pcg_spectrogram r) = false)).
Proof.
  intros Hresult.
  assert (Hform : visual_panel s
    = (if (activeTab s =? 0)%N then
         match ecg_plot_data r with
         | Some _ =>
             [EcgPanel (getEcgChartData s) (ecg_heatmap r)
                (option_map (fun x => (x * 100)%float) (ecg_risk r))]
         | None => [NoData]
         end
       else if (activeTab s =? 1)%N then
         match pcg_waveform_data r with
         | Some _ =>
             [PcgPanel (getPcgChartData s) (pcg_heatmap r)
                (option_map (fun x => (x * 100)%float) (pcg_risk r))]
         | None => [NoData]
         end
       else if (activeTab s =? 2)%N then
         SpectrogramPanel (pcg_spectrogram r)
         :: (if JS.truthy_str (pcg_spectrogram r) then [] else [NoData])
       else [])).
  { unfold visual_panel. rewrite Hresult.
    destruct (activeTab s =? 0)%N eqn:H0.
    - apply N.eqb_eq in H0. rewrite H0. cbn.
      destruct (ecg_plot_data r); reflexivity.
    - destruct (activeTab s =? 1)%N eqn:H1.
      + apply N.eqb_eq in H1. rewrite H1. cbn.
        destruct (pcg_waveform_data r); reflexivity.
      + destruct (activeTab s =? 2)%N eqn:H2; cbn;
          [destruct (JS.truthy_str (pcg_spectrogram r))|]; reflexivity. }
  split; [exact Hform|]. rewrite Hform.
  destruct (activeTab s =? 0)%N eqn:H0.
  - apply N.eqb_eq in H0.
    destruct (ecg_plot_data r); cbn; split;
      intuition (try discriminate; try lia; try congruence).
  - apply N.eqb_neq in H0. destruct (activeTab s =? 1)%N eqn:H1.
    + apply N.eqb_eq in H1.
      destruct (pcg_waveform_data r); cbn; split;
        intuition (try discriminate; try lia; try congruence).
    + apply N.eqb_neq in H1. destruct (activeTab s =? 2)%N eqn:H2.
      * apply N.eqb_eq in H2.
        destruct (JS.truthy_str (pcg_spectrogram r)); cbn; split;
          intuition (try discriminate; try lia; try congruence).
      * apply N.eqb_neq in H2. cbn. split;
          intuition (try discriminate; try lia; try congruence).
Qed.

Lemma chart_container_by_tab_witness :
  visual_panel (ui (Sample.with_result Sample.risks_only 1)) = [NoData]
  /\ visual_panel (ui (Sample.with_result Sample.risks_only 2))
     = [SpectrogramPanel None; NoData].
Proof.
  split.
  - exact (proj1 (chart_container_by_tab
                    (ui (Sample.with_result Sample.risks_only 1))
                    Sample.risks_only eq_refl)).
  - exact (proj1 (chart_container_by_tab
                    (ui (Sample.with_result Sample.risks_only 2))
                    Sample.risks_only eq_refl)).
Defined.


(* ================================================================== *)
(** * More on the CSV preview *)
(* ================================================================== *)

Lemma split_nonempty {A : Type} (is_sep : A -> bool) (s : list A) :
  JS.split is_sep s <> [].
Proof.
  destruct s as [|c rest]; cbn; [discriminate|].
  destruct (is_sep c); [discriminate|].
  destruct (JS.split is_sep rest); discriminate.
Qed.

(** Joining the pieces with the separator gives the string back. *)
Lemma join_split {A : Type} (is_sep : A -> bool) (sep : A) (s : list A) :
  (forall c, is_sep c = true -> c = sep) ->
  join sep (JS.split is_sep s) = s.
Proof.
  intros Hsep. induction s as [|c rest IH]; [reflexivity|].
  cbn [JS.split]. destruct (is_sep c) eqn:Hc.
  - pose proof (split_nonempty is_sep rest) as Hne.
    destruct (JS.split is_sep rest) as [|piece pieces]; [congruence|].
    cbn [join app]. cbn [join] in IH. rewrite IH, (Hsep c Hc). reflexivity.
  - pose proof (split_nonempty is_sep rest) as Hne.
    destruct (JS.split is_sep rest) as [|piece pieces]; [congruence|].
    destruct pieces as [|next pieces'].
    + cbn in *. rewrite IH. reflexivity.
    + cbn [join] in *. cbn [app]. rewrite IH. reflexivity.
Qed.

Lemma split_length {A : Type} (is_sep : A -> bool) (s : list A) :
  length (JS.split is_sep s) = S (length (filter is_sep s)).
Proof.
  induction s as [|c rest IH]; [reflexivity|].
  cbn [JS.split filter]. destruct (is_sep c); cbn [length].
  - rewrite IH. reflexivity.
  - pose proof (split_nonempty is_sep rest) as Hne.
    destruct (JS.split is_sep rest); [congruence | exact IH].
Qed.

(** A piece holds no separator, and nothing that was not in the string. *)
Lemma split_pieces {A : Type} (is_sep : A -> bool) (s : list A) :
  Forall (fun piece =>
            Forall (fun c => is_sep c = false /\ In c s) piece)
    (JS.split is_sep s).
Proof.
  induction s as [|c rest IH]; [repeat constructor|].
  cbn [JS.split]. destruct (is_sep c) eqn:Hc.
  - constructor; [constructor|].
    eapply Forall_impl; [|exact IH]. intros piece Hpiece.
    eapply Forall_impl; [|exact Hpiece]. cbn. intuition.
  - pose proof (split_nonempty is_sep rest) as Hne.
    assert (Hweak :
      Forall (fun piece =>
                Forall (fun x => is_sep x = false /\ In x (c :: rest)) piece)
        (JS.split is_sep rest)).
    { eapply Forall_impl; [|exact IH]. intros piece Hpiece.
      eapply Forall_impl; [|exact Hpiece]. cbn. intuition. }
    destruct (JS.split is_sep rest) as [|piece pieces]; [congruence|].
    inversion Hweak; subst. constructor; [|assumption].
    constructor; [split; [exact Hc | left; reflexivity] | assumption].
Qed.

Lemma trimStart_spec (s : JS.text) :
  exists pre,
    s = pre ++ JS.trimStart s
    /\ forallb JS.is_space pre = true
    /\ match JS.trimStart s with
       | [] => True
       | c :: _ => JS.is_space c = false
       end.
Proof.
  induction s as [|c rest IH].
  - exists []. repeat split.
  - cbn [JS.trimStart]. destruct (JS.is_space c) eqn:Hc.
    + destruct IH as (pre & Hs & Hpre & Hhead).
      exists (c :: pre). cbn. rewrite Hc, Hpre. rewrite <- Hs. repeat split.
      exact Hhead.
    + exists []. repeat split. exact Hc.
Qed.

Lemma forallb_rev {A : Type} (f : A -> bool) (l : list A) :
  forallb f (rev l) = forallb f l.
Proof.
  induction l as [|x rest IH]; [reflexivity|].
  cbn. rewrite forallb_app, IH. cbn. rewrite andb_true_r. apply andb_comm.
Qed.

(** [trim] removes whitespace at both ends and nothing else. *)
Lemma trim_spec (s : JS.text) :
  exists pre post,
    s = pre ++ JS.trim s ++ post
    /\ forallb JS.is_space pre = true
    /\ forallb JS.is_space post = true
    /\ match JS.trim s with
       | [] => True
       | c :: _ => JS.is_space c = false
       end
    /\ match rev (JS.trim s) with
       | [] => True
       | c :: _ => JS.is_space c = false
       end.
Proof.
  destruct (trimStart_spec s) as (pre & Hs & Hpre & Hhead).
  destruct (trimStart_spec (rev (JS.trimStart s)))
    as (tsop & Hrev & Htsop & Hlast).
  unfold JS.trim, JS.trimEnd.
  set (core := JS.trimStart (rev (JS.trimStart s))) in *.
  assert (Hmid : JS.trimStart s = rev core ++ rev tsop).
  { rewrite <- rev_app_distr, <- Hrev, rev_involutive. reflexivity. }
  exists pre, (rev tsop).
  split; [rewrite <- Hmid; exact Hs|].
  split; [exact Hpre|].
  split; [rewrite forallb_rev; exact Htsop|].
  split.
  - rewrite Hmid in Hhead. destruct (rev core) as [|c rest] eqn:Hcore;
      [exact I | exact Hhead].
  - rewrite rev_involutive. exact Hlast.
Qed.

(** X9.  The preview loses nothing but surrounding whitespace: writing
    the parsed table back (fields joined by commas, rows by newlines)
    gives the file text without its leading and trailing whitespace, and
    that text neither begins nor ends with whitespace. *)
Theorem csv_round_trip (text : JS.text) :
  exists pre post,
    text = pre ++ unparse_csv (parse_csv text) ++ post
    /\ forallb JS.is_space pre = true
    /\ forallb JS.is_space post = true
    /\ match unparse_csv (parse_csv text) with
       | [] => True
       | c :: _ => JS.is_space c = false
       end
    /\ match rev (unparse_csv (parse_csv text)) with
       | [] => True
       | c :: _ => JS.is_space c = false
       end.
Proof.
  assert (Hback : unparse_csv (parse_csv text) = JS.trim text).
  { unfold unparse_csv, parse_csv. rewrite map_map.
    rewrite (map_ext _ (fun row => row)), map_id.
    - apply join_split. intros c Hc. apply N.eqb_eq in Hc. congruence.
    - intros row. apply join_split. intros c Hc. apply N.eqb_eq in Hc.
      congruence. }
  rewrite Hback. apply trim_spec.
Qed.

(** X10.  The parsed table always has at least one row, one more than
    the newlines of the trimmed text; every row has at least one field,
    one more than its commas; and no field contains a comma or a
    newline. *)
Theorem csv_table_shape (text : JS.text) :
  length (parse_csv text)
  = S (length (filter (N.eqb 0x0A) (JS.trim text)))
  /\ map (fun row => length row) (parse_csv text)
     = map (fun line => S (length (filter (N.eqb 0x2C) line)))
         (JS.split (N.eqb 0x0A) (JS.trim text))
  /\ Forall (fun row =>
               row <> []
               /\ Forall (fun field =>
                            ~ In 0x2C%N field /\ ~ In 0x0A%N field) row)
       (parse_csv text).
Proof.
  unfold parse_csv. split; [|split].
  - rewrite length_map. apply split_length.
  - rewrite map_map. apply map_ext. intros line. apply split_length.
  - apply Forall_map.
    pose proof (split_pieces (N.eqb 0x0A) (JS.trim text)) as Hlines.
    eapply Forall_impl; [|exact Hlines]. intros line Hline.
    split; [apply split_nonempty|].
    pose proof (split_pieces (N.eqb 0x2C) line) as Hfields.
    eapply Forall_impl; [|exact Hfields]. intros field Hfield.
    split; intros Hin.
    + rewrite Forall_forall in Hfield.
      destruct (Hfield _ Hin) as [Hsep _]. discriminate.
    + rewrite Forall_forall in Hfield, Hline.
      destruct (Hfield _ Hin) as [_ Hline_in].
      destruct (Hline _ Hline_in) as [Hsep _]. discriminate.
Qed.

Lemma trim_blank (text : JS.text) :
  forallb JS.is_space text = true -> JS.trim text = [].
Proof.
  intros Hblank.
  assert (Hstart : JS.trimStart text = []).
  { induction text as [|c rest IH]; [reflexivity|].
    cbn in *. apply andb_true_iff in Hblank. destruct Hblank as [Hc Hrest].
    rewrite Hc. exact (IH Hrest). }
  unfold JS.trim, JS.trimEnd. rewrite Hstart. reflexivity.
Qed.

(** X11.  An empty or all-whitespace ECG file still opens the preview:
    the table is one row with one empty field, shown as "1 rows x 1
    columns" under the heading "Col 1". *)
Theorem blank_csv_preview (w : World) (file : File) (text : JS.text) :
  ecgFile (ui w) = Some file ->
  file_text file = Some text ->
  forallb JS.is_space text = true ->
  csvData (ui (handleViewCsvData w)) = Some [[[]]]
  /\ csv_modal (ui (handleViewCsvData w))
     = Some {| badge_rows := 1; badge_columns := 1; headings := ["Col 1"];
               body := [(1, [[]])]; note := None |}.
Proof.
  intros Hfile Htext Hblank.
  assert (Hui : ui (handleViewCsvData w)
                = setCsvLoading false
                    (setShowCsvModal true
                       (setCsvData (Some [[[]]])
                          (setCsvLoading true (ui w))))).
  { unfold handleViewCsvData. rewrite Hfile, Htext.
    unfold parse_csv. rewrite (trim_blank text Hblank). reflexivity. }
  rewrite Hui. split; reflexivity.
Qed.

Lemma blank_csv_preview_witness :
  let blank := {| name := "blank.csv"; size := 3;
                  file_text := Some [0x20%N; 0x0D%N; 0x0A%N] |} in
  csvData
    (ui (handleViewCsvData
           (on_ui (handleEcgChange (Some [blank])) initial_world)))
  = Some [[[]]].
Proof.
  intros blank.
  exact (proj1 (blank_csv_preview
                  (on_ui (handleEcgChange (Some [blank])) initial_world)
                  blank _ eq_refl eq_refl eq_refl)).
Defined.

(** X12.  Opening the preview never touches the analysis: result,
    loading flag, active tab, selected files, audio player and object
    URLs stay as they were and no network call is made; the preview's own
    loading flag is down afterwards.  When the file cannot be read, the
    error "Failed to parse CSV file" is shown and the table and the modal
    flag stay as they were. *)
Theorem csv_preview_is_local (w : World) :
  let w' := handleViewCsvData w in
  result (ui w') = result (ui w)
  /\ loading (ui w') = loading (ui w)
  /\ activeTab (ui w') = activeTab (ui w)
  /\ ecgFile (ui w') = ecgFile (ui w)
  /\ pcgFile (ui w') = pcgFile (ui w)
  /\ pcgAudioUrl (ui w') = pcgAudioUrl (ui w)
  /\ live w' = live w
  /\ minted w' = minted w
  /\ network_calls (trace w') = network_calls (trace w)
  /\ (ecgFile (ui w) <> None -> csvLoading (ui w') = false)
  /\ (forall file,
        ecgFile (ui w) = Some file -> file_text file = None ->
        error (ui w') = Some "Failed to parse CSV file"
        /\ csvData (ui w') = csvData (ui w)
        /\ showCsvModal (ui w') = showCsvModal (ui w)).
Proof.
  cbv zeta. unfold handleViewCsvData.
  destruct (ecgFile (ui w)) as [file|] eqn:Hfile.
  - destruct (file_text file) as [text|] eqn:Htext; cbn;
      rewrite network_calls_app, app_nil_r;
      do 10 (split; [reflexivity || exact Hfile|]);
      intros f Hf Hnone; inversion Hf; subst; try congruence;
      repeat split.
  - do 9 (split; [reflexivity || exact Hfile|]).
    split; [congruence|]. intros f Hf. discriminate.
Qed.

Lemma csv_preview_is_local_witness :
  error
    (ui (handleViewCsvData
           (on_ui (handleEcgChange (Some [Sample.heart_wav])) initial_world)))
  = Some "Failed to parse CSV file".
Proof.
  destruct (csv_preview_is_local
              (on_ui (handleEcgChange (Some [Sample.heart_wav]))
                 initial_world))
    as (_ & _ & _ & _ & _ & _ & _ & _ & _ & _ & Hfail).
  exact (proj1 (Hfail Sample.heart_wav eq_refl eq_refl)).
Defined.

Lemma map_indexed_seq {A B : Type} (f : nat -> B) (from : nat) (a : list A) :
  map_indexed (fun _ i => f i) from a = map f (seq from (length a)).
Proof.
  revert from. induction a as [|x rest IH]; intros from; cbn;
    [reflexivity | rewrite IH; reflexivity].
Qed.

(** X13.  The modal is shown exactly while the flag is set and a table is
    held: closing it hides it and keeps the table, and selecting another
    ECG file hides it by dropping the table.  Its column headings are
    "Col 1" to "Col n" for the n fields of the first row, whatever the
    widths of the other rows, and its badge counts all rows. *)
Theorem csv_modal_lifecycle (s : State) :
  (csv_modal (closeCsvModal s) = None
   /\ csvData (closeCsvModal s) = csvData s)
  /\ (forall file others,
        csv_modal (handleEcgChange (Some (file :: others)) s) = None)
  /\ (csv_modal s <> None <-> showCsvModal s = true /\ csvData s <> None)
  /\ (forall modal rows,
        csv_modal s = Some modal -> csvData s = Some rows ->
        badge_rows modal = length rows
        /\ badge_columns modal = length (hd [] rows)
        /\ headings modal
           = map (fun i => "Col " +++ JS.show_N (N.of_nat i))
               (seq 1 (badge_columns modal))).
Proof.
  split; [|split; [|split]].
  - unfold csv_modal, closeCsvModal. cbn.
    destruct (csvData s); split; reflexivity.
  - intros file others. reflexivity.
  - unfold csv_modal. destruct (csvData s) as [rows|], (showCsvModal s);
      split; intros H; try (destruct H as [H1 H2]);
      try discriminate; try congruence;
      split; (reflexivity || discriminate).
  - intros modal rows Hmodal Hrows. unfold csv_modal in Hmodal.
    rewrite Hrows in Hmodal. destruct (showCsvModal s); [|discriminate].
    inversion Hmodal; subst; clear Hmodal. cbn [badge_rows badge_columns
                                                 headings].
    assert (Hfirst : match rows with r :: _ => r | [] => [] end = hd [] rows)
      by (destruct rows; reflexivity).
    rewrite Hfirst. split; [reflexivity|]. split; [reflexivity|].
    etransitivity.
    { exact (map_indexed_seq
               (fun colIndex => "Col " +++ JS.show_N (N.of_nat (colIndex + 1)))
               0 (hd [] rows)). }
    rewrite <- seq_shift, map_map. apply map_ext. intros i.
    rewrite Nat.add_1_r. reflexivity.
Qed.

Lemma csv_modal_lifecycle_witness :
  let s :=
    ui (handleViewCsvData
          (on_ui (handleEcgChange (Some [Sample.ecg_csv])) initial_world)) in
  option_map headings (csv_modal s) = Some ["Col 1"; "Col 2"].
Proof.
  intros s.
  destruct (csv_modal s) as [modal|] eqn:Hmodal; [|discriminate Hmodal].
  destruct (proj2 (proj2 (proj2 (csv_modal_lifecycle s))) modal _ Hmodal
              eq_refl) as (_ & Hcols & Hheadings).
  cbn [option_map]. rewrite Hheadings, Hcols. reflexivity.
Defined.

(* ================================================================== *)
(** * More on the report *)
(* ================================================================== *)

Lemma chart_errors_offline (html2canvas : Chart -> JsThrown + Canvas)
    (addImage_error : string -> option JsThrown) (s : State) (c : Chart) :
  network_calls (chart_errors html2canvas addImage_error s c) = [].
Proof.
  unfold chart_errors. destruct (ref_current s c); [|reflexivity].
  destruct (html2canvas c) as [err|canvas]; [reflexivity|].
  destruct (toDataURL canvas) as [err|data]; [reflexivity|].
  destruct (addImage_error data); reflexivity.
Qed.

Lemma report_errors_offline (html2canvas : Chart -> JsThrown + Canvas)
    (addImage_error : string -> option JsThrown) (s : State)
    (r : PredictionResponse) :
  network_calls (report_errors html2canvas addImage_error s r) = [].
Proof.
  unfold report_errors. rewrite !network_calls_app, !chart_errors_offline.
  unfold spectrogram_errors. destruct (pcg_spectrogram r) as [image|];
    [|reflexivity].
  destruct (JS.truthy_str (Some image)); [|reflexivity].
  destruct (addImage_error image); reflexivity.
Qed.

(** The document of a report run, through [step]. *)
Lemma report_document (p : ReportPlatform) (w : World)
    (r : PredictionResponse) :
  result (ui w) = Some r ->
  exists pdf first rest,
    trace (step w (DownloadReport p))
    = trace w
      ++ Await (setReportLoading true (ui w))
         :: report_errors (rp_html2canvas p) (rp_addImage_error p) (ui w) r
            ++ [Save (report_filename (rp_toISOString p)) pdf]
    /\ section_headers pdf = report_headers (rp_html2canvas p) (ui w) r
    /\ images pdf
       = report_images (rp_html2canvas p) (rp_addImage_error p) (ui w) r
    /\ pages pdf = first :: rest
    /\ incl (header_texts (rp_toLocaleDateString p) (rp_toLocaleTimeString p)
             ++ risk_texts (rp_toFixed1 p) r ++ files_texts (ui w))
         (page_texts first)
    /\ (forall i, 1 <= i <= length (pages pdf) -> has_footer pdf i).
Proof.
  intros Hresult. cbn [step].
  exact (generateReport_document (rp_pageWidth p) (rp_getTextWidth p)
           (rp_toFixed1 p) (rp_toLocaleDateString p)
           (rp_toLocaleTimeString p) (rp_toISOString p) (rp_html2canvas p)
           (rp_addImage_error p) w r Hresult).
Qed.

(** X14.  Downloading a report touches nothing but the report's own
    loading flag, which is down afterwards: the selected files, the
    result, the error, the tab, the preview, the player, the object URLs
    are as before, and no network call is made.  It saves exactly one
    document when there is a result and none otherwise. *)
Theorem report_is_local (p : ReportPlatform) (w : World) :
  let w' := step w (DownloadReport p) in
  network_calls (trace w') = network_calls (trace w)
  /\ live w' = live w
  /\ minted w' = minted w
  /\ ui w'
     = (if present (result (ui w)) then setReportLoading false (ui w)
        else ui w)
  /\ length (saved (trace w'))
     = length (saved (trace w)) + (if present (result (ui w)) then 1 else 0).
Proof.
  cbv zeta. destruct (result (ui w)) as [r|] eqn:Hresult.
  - destruct (report_document p w r Hresult)
      as (pdf & first & rest & Htrace & _).
    rewrite Htrace.
    split.
    { rewrite network_calls_app. cbn [network_calls filter is_network].
      fold (network_calls
              (report_errors (rp_html2canvas p) (rp_addImage_error p) (ui w) r
               ++ [Save (report_filename (rp_toISOString p)) pdf])).
      rewrite network_calls_app, report_errors_offline. cbn.
      rewrite app_nil_r. reflexivity. }
    cbn [step]. unfold generateReport. rewrite Hresult.
    split; [reflexivity|]. split; [reflexivity|].
    split; [reflexivity|].
    rewrite saved_report_trace by apply saved_report_errors.
    rewrite length_app. reflexivity.
  - cbn [step]. unfold generateReport. rewrite Hresult. cbn.
    rewrite Nat.add_0_r. repeat split.
Qed.




(** Every image of a report was accepted by [addImage]. *)
Lemma report_images_accepted (html2canvas : Chart -> JsThrown + Canvas)
    (addImage_error : string -> option JsThrown) (s : State)
    (r : PredictionResponse) (data : string) :
  In data (report_images html2canvas addImage_error s r) ->
  addImage_error data = None.
Proof.
  assert (Hchart : forall c,
            In data (chart_image html2canvas addImage_error s c) ->
            addImage_error data = None).
  { intros c. unfold chart_image. destruct (ref_current s c); [|intros []].
    destruct (html2canvas c) as [err|canvas]; [intros []|].
    destruct (toDataURL canvas) as [err|d]; [intros []|].
    destruct (addImage_error d) eqn:Hd; [intros []|].
    intros [<-|[]]. exact Hd. }
  unfold report_images. rewrite !in_app_iff.
  intros [H|[H|[H|H]]]; try (eapply Hchart; exact H).
  unfold spectrogram_image in H. destruct (pcg_spectrogram r) as [image|];
    [|destruct H].
  destruct (JS.truthy_str (Some image)); [|destruct H].
  destruct (addImage_error image) eqn:Himage; [destruct H|].
  destruct H as [<-|[]]. exact Himage.
Qed.

(** X16.  When the spectrogram of the result cannot be placed by
    [addImage], its section header is already written and stays in the
    document without its image; the error is logged and the report is
    saved all the same. *)
Theorem spectrogram_failure_leaves_header (p : ReportPlatform) (w : World)
    (r : PredictionResponse) (image : string) (err : JsThrown) :
  result (ui w) = Some r ->
  pcg_spectrogram r = Some image ->
  image <> "" ->
  rp_addImage_error p image = Some err ->
  exists pdf,
    saved (trace (step w (DownloadReport p))) = saved (trace w) ++ [pdf]
    /\ In "PCG Spectrogram" (section_headers pdf)
    /\ ~ In image (images pdf)
    /\ In (ConsoleError [ArgStr "Failed to add spectrogram:"; ArgThrown err])
         (trace (step w (DownloadReport p))).
Proof.
  intros Hresult Hspec Hnonempty Hfail.
  assert (Htruthy : JS.truthy_str (Some image) = true)
    by (destruct image; [congruence | reflexivity]).
  destruct (report_document p w r Hresult)
    as (pdf & first & rest & Htrace & Hheaders & Himages & _).
  exists pdf.
  split; [rewrite Htrace; apply saved_report_trace, saved_report_errors|].
  split.
  { rewrite Hheaders. unfold report_headers, spectrogram_header.
    rewrite Hspec, Htruthy. right. right. rewrite !in_app_iff.
    right. right. right. left. reflexivity. }
  split.
  { rewrite Himages. intros Hin.
    apply report_images_accepted in Hin. congruence. }
  rewrite Htrace. apply in_or_app. right. right.
  apply in_or_app. left. unfold report_errors. rewrite !in_app_iff.
  right. right. right. unfold spectrogram_errors.
  rewrite Hspec, Htruthy, Hfail. left. reflexivity.
Qed.

Lemma spectrogram_failure_leaves_header_witness :
  exists pdf,
    saved (trace (step (Sample.with_result Sample.full 2)
                    (DownloadReport
                       (sample_platform Sample.snapshot_ok
                          (fun data =>
                             if String.eqb data "data:image/png;base64,AAAA"
                             then Some (ThrownError "Invalid image data")
                             else None)))))
    = [pdf]
    /\ In "PCG Spectrogram" (section_headers pdf)
    /\ ~ In "data:image/png;base64,AAAA" (images pdf).
Proof.
  destruct (spectrogram_failure_leaves_header
              (sample_platform Sample.snapshot_ok
                 (fun data =>
                    if String.eqb data "data:image/png;base64,AAAA"
                    then Some (ThrownError "Invalid image data")
                    else None))
              (Sample.with_result Sample.full 2) Sample.full
              "data:image/png;base64,AAAA" (ThrownError "Invalid image data")
              eq_refl eq_refl)
    as (pdf & Hsaved & Hheader & Himage & _);
    [discriminate | reflexivity |].
  exists pdf. split; [exact Hsaved | split; [exact Hheader | exact Himage]].
Defined.

(** X17.  The files-analyzed section names the files selected when the
    report is downloaded.  Selecting another file keeps the result on
    screen, so a report downloaded after that carries the new file's name
    beside the result computed before. *)
Theorem report_names_current_files (p : ReportPlatform) (w : World)
    (r : PredictionResponse) (file : File) (others : list File) :
  result (ui w) = Some r ->
  let w1 := on_ui (handleEcgChange (Some (file :: others))) w in
  let w2 := handlePcgChange (Some (file :: others)) w in
  result (ui w1) = Some r
  /\ result (ui w2) = Some r
  /\ (exists pdf first rest,
        saved (trace (step w1 (DownloadReport p))) = saved (trace w1) ++ [pdf]
        /\ pages pdf = first :: rest
        /\ In ("ECG File: ", 11%N) (page_texts first)
        /\ In (name file, 11%N) (page_texts first))
  /\ (exists pdf first rest,
        saved (trace (step w2 (DownloadReport p))) = saved (trace w2) ++ [pdf]
        /\ pages pdf = first :: rest
        /\ In ("PCG File: ", 11%N) (page_texts first)
        /\ In (name file, 11%N) (page_texts first)).
Proof.
  intros Hresult w1 w2.
  assert (Hr1 : result (ui w1) = Some r) by exact Hresult.
  assert (Hr2 : result (ui w2) = Some r).
  { subst w2. unfold handlePcgChange. cbn [first_file].
    destruct (pcgAudioUrl (ui w)) as [url|];
      [destruct (JS.truthy_str (Some url))|]; exact Hresult. }
  assert (Hp2 : pcgFile (ui w2) = Some file).
  { subst w2. unfold handlePcgChange. cbn [first_file].
    destruct (pcgAudioUrl (ui w)) as [url|];
      [destruct (JS.truthy_str (Some url))|]; reflexivity. }
  split; [exact Hr1|]. split; [exact Hr2|]. split.
  - destruct (report_document p w1 r Hr1)
      as (pdf & first & rest & Htrace & _ & _ & Hpages & Hfixed & _).
    exists pdf, first, rest.
    split; [rewrite Htrace; apply saved_report_trace, saved_report_errors|].
    split; [exact Hpages|].
    split; apply Hfixed; rewrite !in_app_iff; right; right;
      unfold files_texts; cbn; tauto.
  - destruct (report_document p w2 r Hr2)
      as (pdf & first & rest & Htrace & _ & _ & Hpages & Hfixed & _).
    exists pdf, first, rest.
    split; [rewrite Htrace; apply saved_report_trace, saved_report_errors|].
    split; [exact Hpages|].
    split; apply Hfixed; rewrite !in_app_iff; right; right;
      unfold files_texts; rewrite Hp2; right; rewrite in_app_iff; right;
      cbn; tauto.
Qed.

Lemma report_names_current_files_witness :
  exists pdf first rest,
    saved (trace (step
                    (on_ui (handleEcgChange (Some [Sample.terminated_csv]))
                       (Sample.with_result Sample.risks_only 0))
                    (DownloadReport
                       (sample_platform Sample.snapshot_ok (fun _ => None)))))
    = [pdf]
    /\ pages pdf = first :: rest
    /\ In ("terminated.csv", 11%N) (page_texts first).
Proof.
  destruct (report_names_current_files
              (sample_platform Sample.snapshot_ok (fun _ => None))
              (Sample.with_result Sample.risks_only 0) Sample.risks_only
              Sample.terminated_csv [] eq_refl)
    as (_ & _ & (pdf & first & rest & Hsaved & Hpages & _ & Hname) & _).
  exists pdf, first, rest.
  split; [exact Hsaved | split; [exact Hpages | exact Hname]].
Defined.

(* ================================================================== *)
(** * The footer loop, exactly *)
(* ================================================================== *)

Lemma footer_pages (pageWidth : float) (n i j : nat) (pdf : Pdf) :
  1 <= i <= length (pages pdf) ->
  let st := {| fontSize := 8; textColor := (150, 150, 150)%N;
               bold := bold (style pdf) |} in
  nth j (pages (footer pageWidth n i pdf)) []
  = (if Nat.eqb (i - 1) j
     then nth j (pages pdf) []
          ++ [IText disclaimer (pageWidth / 2)%float 290 AlignCenter st;
              IText (page_number i n) (pageWidth - margin)%float 290
                AlignRight st]
     else nth j (pages pdf) [])
  /\ length (pages (footer pageWidth n i pdf)) = length (pages pdf)
  /\ bold (style (footer pageWidth n i pdf)) = bold (style pdf).
Proof.
  intros Hi st. split; [|split; [|reflexivity]].
  - unfold footer, pdf_text, draw. cbn [pages cur setPage setFontSize
      setTextColor with_style style].
    rewrite !on_page_nth, on_page_length.
    destruct (Nat.eqb (i - 1) j) eqn:Hj; [|reflexivity].
    apply Nat.eqb_eq in Hj.
    assert (Hlt : Nat.ltb j (length (pages pdf)) = true)
      by (apply Nat.ltb_lt; lia).
    rewrite Hlt. cbn [andb]. rewrite <- app_assoc. reflexivity.
  - unfold footer, pdf_text, draw. cbn [pages]. rewrite !on_page_length.
    reflexivity.
Qed.

Lemma footer_fold_pages (pageWidth : float) (n : nat) (indices : list nat)
    (pdf : Pdf) (j : nat) :
  NoDup indices ->
  (forall i, In i indices -> 1 <= i <= length (pages pdf)) ->
  let st := {| fontSize := 8; textColor := (150, 150, 150)%N;
               bold := bold (style pdf) |} in
  let pdf' := fold_left (fun pdf i => footer pageWidth n i pdf) indices pdf in
  nth j (pages pdf') []
  = (if in_dec Nat.eq_dec (S j) indices
     then nth j (pages pdf) []
          ++ [IText disclaimer (pageWidth / 2)%float 290 AlignCenter st;
              IText (page_number (S j) n) (pageWidth - margin)%float 290
                AlignRight st]
     else nth j (pages pdf) [])
  /\ length (pages pdf') = length (pages pdf).
Proof.
  revert pdf. induction indices as [|i rest IH]; intros pdf Hnodup Hrange.
  - cbn. split; reflexivity.
  - inversion Hnodup as [|? ? Hfresh Hnodup']; subst.
    destruct (footer_pages pageWidth n i j pdf
                (Hrange i (or_introl eq_refl))) as (Hpage & Hlen & Hbold).
    destruct (IH (footer pageWidth n i pdf) Hnodup') as [IHpage IHlen].
    { intros k Hk. rewrite Hlen. apply Hrange. right. exact Hk. }
    cbn [fold_left]. cbv zeta in *. rewrite IHlen, Hlen.
    split; [|reflexivity].
    rewrite IHpage, Hbold, Hpage.
    assert (Hi : 1 <= i) by (apply (Hrange i); left; reflexivity).
    destruct (Nat.eqb (i - 1) j) eqn:Hj.
    + apply Nat.eqb_eq in Hj. assert (Heq : i = S j) by lia. subst i.
      destruct (in_dec Nat.eq_dec (S j) rest) as [Hin|Hout];
        [contradiction|].
      destruct (in_dec Nat.eq_dec (S j) (S j :: rest)) as [_|Hout'];
        [reflexivity|].
      exfalso. apply Hout'. left. reflexivity.
    + apply Nat.eqb_neq in Hj.
      destruct (in_dec Nat.eq_dec (S j) rest) as [Hin|Hout];
        destruct (in_dec Nat.eq_dec (S j) (i :: rest)) as [Hin'|Hout'];
        try reflexivity; exfalso.
      * apply Hout'. right. exact Hin.
      * destruct Hin' as [Heq|Hin']; [lia | exact (Hout Hin')].
Qed.

(** X18.  The footer loop adds to every page, after what is already on
    it, exactly two 8 pt gray lines: the disclaimer, centred, and "Page i
    of n", right-aligned, with i the page's own number and n the number
    of pages.  It adds no page and draws nothing else. *)
Theorem footers_exact (pageWidth : float) (pdf : Pdf) (j : nat) :
  j < length (pages pdf) ->
  let st := {| fontSize := 8; textColor := (150, 150, 150)%N;
               bold := bold (style pdf) |} in
  nth j (pages (footers pageWidth pdf)) []
  = nth j (pages pdf) []
    ++ [IText disclaimer (pageWidth / 2)%float 290 AlignCenter st;
        IText (page_number (S j) (length (pages pdf)))
          (pageWidth - margin)%float 290 AlignRight st]
  /\ length (pages (footers pageWidth pdf)) = length (pages pdf).
Proof.
  intros Hj st. unfold footers, getNumberOfPages.
  destruct (footer_fold_pages pageWidth (length (pages pdf))
              (seq 1 (length (pages pdf))) pdf j) as [Hpage Hlen].
  - apply seq_NoDup.
  - intros i Hi. apply in_seq in Hi. lia.
  - split; [|exact Hlen]. rewrite Hpage.
    destruct (in_dec Nat.eq_dec (S j) (seq 1 (length (pages pdf))))
      as [_|Hout]; [reflexivity|].
    exfalso. apply Hout. apply in_seq. lia.
Qed.

Lemma footers_exact_witness :
  nth 0 (pages (footers 210 new_jsPDF)) []
  = [IText disclaimer 105 290 AlignCenter
       {| fontSize := 8; textColor := (150, 150, 150)%N; bold := false |};
     IText "Page 1 of 1" 195 290 AlignRight
       {| fontSize := 8; textColor := (150, 150, 150)%N; bold := false |}].
Proof.
  assert (Hlt : 0 < length (pages new_jsPDF)) by (cbn; lia).
  destruct (footers_exact 210 new_jsPDF 0 Hlt) as [Hpage _].
  rewrite Hpage. vm_compute. reflexivity.
Defined.

(* ================================================================== *)
(** * How many pages a report has *)
(* ================================================================== *)



Section PageCount.

Variable pageWidth : float.
Variable getTextWidth : Style -> string -> float.
Variable toFixed1 : float -> string.
Variable toLocaleDateString toLocaleTimeString : string.
Variable html2canvas : Chart -> JsThrown + Canvas.
Variable addImage_error : string -> option JsThrown.






End PageCount.






(* ================================================================== *)
(** * The file name of the report, and the chart data *)
(* ================================================================== *)

(** The first piece of a split is what comes before the first
    separator. *)
Lemma split_head {A : Type} (is_sep : A -> bool) (s : list A) :
  exists piece pieces,
    JS.split is_sep s = piece :: pieces
    /\ Forall (fun c => is_sep c = false) piece
    /\ (s = piece /\ pieces = []
        \/ exists c tail, is_sep c = true /\ s = piece ++ c :: tail).
Proof.
  induction s as [|c rest IH].
  - exists [], []. repeat split; [constructor | left; split; reflexivity].
  - cbn [JS.split]. destruct (is_sep c) eqn:Hc.
    + exists [], (JS.split is_sep rest).
      repeat split; [constructor|]. right. exists c, rest. split; reflexivity
        || exact Hc.
    + destruct IH as (piece & pieces & Hsplit & Hclean & Hshape).
      rewrite Hsplit. exists (c :: piece), pieces.
      split; [reflexivity|]. split; [constructor; assumption|].
      destruct Hshape as [[Hall Hnone]|(sep & tail & Hsep & Hs)].
      * left. split; congruence.
      * right. exists sep, tail. split; [exact Hsep|]. cbn. congruence.
Qed.

Lemma string_of_list_ascii_app (a b : list ascii) :
  string_of_list_ascii (a ++ b)
  = string_of_list_ascii a +++ string_of_list_ascii b.
Proof. induction a as [|c a IH]; cbn; [reflexivity | rewrite IH; reflexivity]. Qed.

(** X20.  The report is saved as "SmartHeart_Report_<d>.pdf", where <d>
    is the part of the ISO timestamp before its first "T" (the date), or
    the whole timestamp if it has no "T". *)
Theorem report_filename_date (toISOString : string) :
  exists date,
    report_filename toISOString = "SmartHeart_Report_" +++ date +++ ".pdf"
    /\ ~ In "T"%char (list_ascii_of_string date)
    /\ (toISOString = date
        \/ exists tail, toISOString = date +++ String "T" tail).
Proof.
  unfold report_filename, JS.split_string, JS.chars.
  destruct (split_head (Ascii.eqb "T") (list_ascii_of_string toISOString))
    as (piece & pieces & Hsplit & Hclean & Hshape).
  rewrite Hsplit. cbn [map hd].
  exists (string_of_list_ascii piece).
  split; [reflexivity|]. split.
  - rewrite list_ascii_of_string_of_list_ascii. intros Hin.
    rewrite Forall_forall in Hclean. specialize (Hclean _ Hin).
    cbn in Hclean. discriminate.
  - destruct Hshape as [[Hall _]|(c & tail & Hc & Hs)].
    + left. rewrite <- Hall. symmetry.
      apply string_of_list_ascii_of_string.
    + right. exists (string_of_list_ascii tail).
      apply Ascii.eqb_eq in Hc. subst c.
      rewrite <- (string_of_list_ascii_of_string toISOString), Hs.
      rewrite string_of_list_ascii_app. reflexivity.
Qed.

(** X21.  The chart data has one point per sample, in order: the ECG
    points are the backend's (x, y) pairs, the PCG points pair each
    amplitude with its index from 0.  Without a result, or with the field
    null, there are no points. *)
Theorem chart_data_points (s : State) :
  (getEcgChartData s
   = match result s with
     | Some r =>
         match ecg_plot_data r with Some samples => samples | None => [] end
     | None => []
     end)
  /\ (map snd (getPcgChartData s)
      = match result s with
        | Some r =>
            match pcg_waveform_data r with
            | Some samples => samples
            | None => []
            end
        | None => []
        end)
  /\ map fst (getPcgChartData s)
     = map index_number (seq 0 (length (getPcgChartData s))).
Proof.
  assert (Hindexed : forall (samples : list float) (from : nat),
            map snd (map_indexed (fun y x => (index_number x, y)) from samples)
            = samples
            /\ map fst
                 (map_indexed (fun y x => (index_number x, y)) from samples)
               = map index_number (seq from (length samples))).
  { induction samples as [|y rest IH]; intros from;
      [split; reflexivity|].
    destruct (IH (S from)) as [Hsnd Hfst].
    split; cbn [map_indexed map seq length fst snd]; f_equal; assumption. }
  unfold getEcgChartData, getPcgChartData.
  destruct (result s) as [r|]; [|repeat split].
  split; [|split].
  - destruct (ecg_plot_data r) as [samples|]; [|reflexivity].
    rewrite <- (map_id samples) at 2. apply map_ext. intros [x y]. reflexivity.
  - destruct (pcg_waveform_data r) as [samples|]; [|reflexivity].
    apply Hindexed.
  - destruct (pcg_waveform_data r) as [samples|]; [|reflexivity].
    rewrite map_indexed_length. apply Hindexed.
Qed.

(* ================================================================== *)
(** * The page as a whole: what holds after any sequence of actions *)
(* ================================================================== *)

(** Unfold one handler and split on every test it makes. *)
Ltac handler_cases :=
  cbn [step on_ui ui];
  unfold handleEcgChange, handlePcgChange, handleViewCsvData, closeCsvModal,
    handleAnalyze, generateReport, toggleAudioPlayback, handleAudioEnded;
  repeat match goal with
         | |- context [first_file ?e] => destruct (first_file e)
         | |- context [match pcgAudioUrl ?s with _ => _ end] =>
             destruct (pcgAudioUrl s) eqn:?
         | |- context [if JS.truthy_str (Some ?u) then _ else _] =>
             destruct (JS.truthy_str (Some u)) eqn:?
         | |- context [match ecgFile ?s with _ => _ end] =>
             destruct (ecgFile s) eqn:?
         | |- context [match pcgFile ?s with _ => _ end] =>
             destruct (pcgFile s) eqn:?
         | |- context [match file_text ?f with _ => _ end] =>
             destruct (file_text f) eqn:?
         | |- context [uploadFiles ?a ?b ?c ?d] =>
             destruct (uploadFiles a b c d) as [? [?|?]] eqn:?
         | |- context [match result ?s with _ => _ end] =>
             destruct (result s) eqn:?
         | |- context [negb (audioRef_current ?s) || ?c] =>
             destruct (negb (audioRef_current s) || c) eqn:?
         end;
  cbn [ui live minted trace on_ui emit fst snd createObjectURL
       revokeObjectURL
       ecgFile pcgFile result loading error activeTab isPlaying pcgAudioUrl
       showCsvModal csvData csvLoading reportLoading
       setEcgFile setPcgFile setResult setLoading setError setActiveTab
       setIsPlaying setPcgAudioUrl setShowCsvModal setCsvData setCsvLoading
       setReportLoading].

(** Only a PCG selection touches the object URLs, the player and the PCG
    file. *)
Lemma step_keeps_urls (w : World) (a : Action) :
  (forall e, a <> SelectPcg e) ->
  live (step w a) = live w
  /\ minted (step w a) = minted w
  /\ pcgAudioUrl (ui (step w a)) = pcgAudioUrl (ui w)
  /\ pcgFile (ui (step w a)) = pcgFile (ui w).
Proof.
  intros Hother.
  destruct a as [e|e| | |env post|p| | |tab];
    try (exfalso; exact (Hother e eq_refl));
    handler_cases; repeat split; congruence.
Qed.

Lemma step_pcg_urls (w : World) (e : ChangeEvent) :
  leak_free w /\ player_matches_file (ui w) ->
  leak_free (step w (SelectPcg e))
  /\ player_matches_file (ui (step w (SelectPcg e))).
Proof.
  intros [Hfree Hplayer]. cbn [step].
  destruct e as [[|file others]|]; try (split; assumption).
  destruct (handlePcgChange_step file others w Hfree)
    as (_ & Hurl & _ & _ & Hfree').
  split; [exact Hfree'|].
  unfold player_matches_file. rewrite Hurl.
  unfold handlePcgChange. cbn [first_file].
  destruct (pcgAudioUrl (ui w)) as [url|];
    [destruct (JS.truthy_str (Some url))|]; reflexivity.
Qed.

Lemma run_snoc (actions : list Action) (a : Action) (w : World) :
  run (actions ++ [a]) w = step (run actions w) a.
Proof. unfold run. rewrite fold_left_app. reflexivity. Qed.

(** X22.  Whatever the user does, in any order, at most one object URL
    is live: it is the one the audio player holds, so the player never
    plays a revoked URL, and there is a player URL exactly when a PCG file
    is selected. *)
Theorem urls_never_leak (actions : list Action) :
  let w := run actions initial_world in
  live w
  = match pcgAudioUrl (ui w) with Some url => [url] | None => [] end
  /\ length (live w) <= 1
  /\ present (pcgAudioUrl (ui w)) = present (pcgFile (ui w))
  /\ audioRef_current (ui w) = present (pcgFile (ui w)).
Proof.
  intros w.
  assert (Hinv : leak_free w /\ player_matches_file (ui w)).
  { subst w. induction actions as [|a actions IH] using rev_ind.
    - split; [split; [reflexivity | discriminate] | reflexivity].
    - rewrite run_snoc. set (w := run actions initial_world) in *.
      destruct (match a with SelectPcg e => Some e | _ => None end)
        as [e|] eqn:Hkind.
      + destruct a; try discriminate. inversion Hkind; subst.
        apply step_pcg_urls. exact IH.
      + destruct (step_keeps_urls w a) as (Hlive & _ & Hurl & Hfile).
        { intros e He. subst a. discriminate. }
        destruct IH as [[Hfree Htruthy] Hplayer].
        unfold leak_free, player_matches_file.
        rewrite Hlive, Hurl, Hfile. repeat split; assumption. }
  destruct Hinv as [[Hlive Htruthy] Hplayer].
  split; [exact Hlive|]. split.
  - rewrite Hlive. destruct (pcgAudioUrl (ui w)); cbn; lia.
  - split; [exact Hplayer|].
    unfold audioRef_current. unfold player_matches_file in Hplayer.
    destruct (pcgAudioUrl (ui w)) as [url|] eqn:Hurl.
    + rewrite (Htruthy url eq_refl). rewrite <- Hplayer. reflexivity.
    + rewrite <- Hplayer. reflexivity.
Qed.

Lemma step_at_rest (w : World) (a : Action) :
  at_rest (ui w) -> at_rest (ui (step w a)).
Proof.
  intros (Hl & Hc & Hr). unfold at_rest.
  destruct a as [e|e| | |env post|p| | |tab];
    handler_cases; repeat split; assumption || reflexivity.
Qed.

(** X23.  After any sequence of actions, each run to completion, no
    loading flag is left set: the analysis, the CSV preview and the report
    each clear their flag on success and on failure alike, so no button
    stays disabled. *)
Theorem flags_cleared (actions : list Action) :
  let s := ui (run actions initial_world) in
  loading s = false /\ csvLoading s = false /\ reportLoading s = false
  /\ file_input_disabled s = false
  /\ (analyze_disabled s = true <-> ecgFile s = None /\ pcgFile s = None).
Proof.
  intros s.
  assert (Hrest : at_rest s).
  { subst s. induction actions as [|a actions IH] using rev_ind.
    - repeat split.
    - rewrite run_snoc. apply step_at_rest. exact IH. }
  destruct Hrest as (Hl & Hc & Hr).
  split; [exact Hl|]. split; [exact Hc|]. split; [exact Hr|].
  split; [exact Hl|].
  unfold analyze_disabled. rewrite Hl. cbn [orb].
  destruct (ecgFile s), (pcgFile s); cbn; split;
    try discriminate; try (intros [H1 H2]; discriminate);
    intros _; try reflexivity; split; reflexivity.
Qed.




Lemma step_offline (w : World) (a : Action) :
  is_analyze a = false ->
  network_calls (trace (step w a)) = network_calls (trace w).
Proof.
  intros Hother.
  destruct a as [e|e| | |env post|p| | |tab]; try discriminate;
    try reflexivity.
  - cbn [step]. unfold handlePcgChange.
    destruct (first_file e); [|reflexivity].
    destruct (pcgAudioUrl (ui w)) as [url|];
      [destruct (JS.truthy_str (Some url))|];
      cbn; rewrite ?network_calls_app; cbn; rewrite ?app_nil_r; reflexivity.
  - cbn [step]. unfold handleViewCsvData.
    destruct (ecgFile (ui w)) as [file|]; [|reflexivity].
    destruct (file_text file); cbn; rewrite network_calls_app; cbn;
      rewrite app_nil_r; reflexivity.
  - destruct (result (ui w)) as [r|] eqn:Hresult.
    + destruct (report_document p w r Hresult)
        as (pdf & first & rest & Htrace & _).
      rewrite Htrace, network_calls_app.
      change (network_calls
                (Await (setReportLoading true (ui w))
                 :: report_errors (rp_html2canvas p) (rp_addImage_error p)
                      (ui w) r
                    ++ [Save (report_filename (rp_toISOString p)) pdf]))
        with (network_calls
                (report_errors (rp_html2canvas p) (rp_addImage_error p)
                   (ui w) r
                 ++ [Save (report_filename (rp_toISOString p)) pdf])).
      rewrite network_calls_app, report_errors_offline. cbn.
      apply app_nil_r.
    + cbn [step]. unfold generateReport. rewrite Hresult. reflexivity.
Qed.

Lemma step_analyze_network (w : World) (env_url : option string)
    (post : string -> FormData -> JsThrown + PredictionResponse) :
  network_calls (trace (step w (Analyze env_url post)))
  = network_calls (trace w)
    ++ (if analyze_disabled (setLoading false (ui w)) then []
        else [HttpPost (API_BASE_URL env_url +++ "/predict")
                (upload_body (ecgFile (ui w)) (pcgFile (ui w))) 300000]).
Proof.
  cbn [step].
  destruct (ecgFile (ui w)) as [e|] eqn:He; [|destruct (pcgFile (ui w))
                                               as [f|] eqn:Hp].
  3: { unfold handleAnalyze, analyze_disabled. cbn. rewrite He, Hp. cbn.
       rewrite app_nil_r. reflexivity. }
  all: assert (Hfile : ecgFile (ui w) <> None \/ pcgFile (ui w) <> None)
         by (rewrite ?He, ?Hp; (left; discriminate) || (right; discriminate)).
  all: rewrite (handleAnalyze_run env_url post w Hfile).
  all: pose proof (uploadFiles_network env_url post _ _ Hfile) as Hpost.
  all: unfold analyze_disabled; cbn [loading setLoading ecgFile pcgFile];
       rewrite <- ?He, <- ?Hp.
  all: destruct (snd (uploadFiles env_url post (ecgFile (ui w))
                        (pcgFile (ui w)))) as [err|response];
       cbn [trace on_ui emit]; rewrite !network_calls_app, Hpost;
       rewrite ?He, ?Hp; cbn; rewrite ?app_nil_r; reflexivity.
Qed.

(** X25.  The page reaches the network only through the Analyze button:
    selecting files, previewing the CSV, playing audio, switching tabs and
    downloading the report make no request, and every click on Analyze
    makes at most one.  So after any sequence of actions there are at most
    as many requests as Analyze clicks. *)
Theorem network_only_from_analyze (actions : list Action) (w : World) :
  (forall a,
     is_analyze a = false ->
     network_calls (trace (step w a)) = network_calls (trace w))
  /\ length (network_calls (trace (run actions w)))
     <= length (network_calls (trace w))
        + length (filter is_analyze actions).
Proof.
  split; [intros a Ha; apply step_offline; exact Ha|].
  induction actions as [|a actions IH] using rev_ind; [cbn; lia|].
  rewrite run_snoc, filter_app, length_app.
  destruct a as [e|e| | |env post|p| | |tab];
    try (rewrite step_offline by reflexivity; cbn; lia).
  rewrite step_analyze_network, length_app.
  destruct (analyze_disabled (setLoading false (ui (run actions w))));
    cbn; lia.
Qed.

Lemma step_keeps_result (w : World) (a : Action) :
  is_analyze a = false -> result (ui (step w a)) = result (ui w).
Proof.
  intros Hother.
  destruct a as [e|e| | |env post|p| | |tab]; try discriminate;
    handler_cases; reflexivity || congruence.
Qed.

(** X26.  A result, once shown, is never removed.  Only an analysis
    changes it, and only by replacing it with the response of a successful
    upload; a failed analysis, a new file selection and every other action
    leave the result on screen as it is. *)
Theorem result_never_cleared (actions : list Action) (w : World) :
  (forall a, is_analyze a = false -> result (ui (step w a)) = result (ui w))
  /\ (forall env_url post,
        result (ui (step w (Analyze env_url post))) = result (ui w)
        \/ exists response,
             snd (uploadFiles env_url post (ecgFile (ui w)) (pcgFile (ui w)))
             = inr response
             /\ result (ui (step w (Analyze env_url post))) = Some response)
  /\ (result (ui w) <> None -> result (ui (run actions w)) <> None).
Proof.
  assert (Hanalyze : forall v env_url post,
    result (ui (step v (Analyze env_url post))) = result (ui v)
    \/ exists response,
         snd (uploadFiles env_url post (ecgFile (ui v)) (pcgFile (ui v)))
         = inr response
         /\ result (ui (step v (Analyze env_url post))) = Some response).
  { intros v env_url post. cbn [step]. unfold handleAnalyze.
    destruct (ecgFile (ui v)) as [e|], (pcgFile (ui v)) as [f|];
      try (left; reflexivity);
      destruct (uploadFiles env_url post _ _) as [events [err|response]];
      cbn; try (left; reflexivity);
      right; exists response; split; reflexivity. }
  split; [intros a Ha; apply step_keeps_result; exact Ha|].
  split; [apply Hanalyze|].
  intros Hshown.
  induction actions as [|a actions IH] using rev_ind; [exact Hshown|].
  rewrite run_snoc.
  destruct (is_analyze a) eqn:Ha.
  - destruct a; try discriminate.
    destruct (Hanalyze (run actions w) env_url post)
      as [Hsame|(response & _ & Hnew)];
      [rewrite Hsame; exact IH | rewrite Hnew; discriminate].
  - rewrite (step_keeps_result _ _ Ha). exact IH.
Qed.

Lemma result_never_cleared_witness :
  result
    (ui (run [SelectEcg (Some [Sample.terminated_csv]);
              Analyze None Sample.backend_500; ViewCsv]
           (Sample.with_result Sample.risks_only 0)))
  <> None.
Proof.
  apply (result_never_cleared
           [SelectEcg (Some [Sample.terminated_csv]);
            Analyze None Sample.backend_500; ViewCsv]
           (Sample.with_result Sample.risks_only 0)).
  discriminate.
Defined.

Lemma network_only_from_analyze_witness :
  length
    (network_calls
       (trace (run [SelectEcg (Some [Sample.ecg_csv]); ViewCsv;
                    Analyze None Sample.backend_ok;
                    DownloadReport
                      (sample_platform Sample.snapshot_ok (fun _ => None));
                    SelectPcg (Some [Sample.heart_wav]); ToggleAudio]
                 initial_world)))
  <= 1.
Proof.
  exact (proj2 (network_only_from_analyze
                  [SelectEcg (Some [Sample.ecg_csv]); ViewCsv;
                   Analyze None Sample.backend_ok;
                   DownloadReport
                     (sample_platform Sample.snapshot_ok (fun _ => None));
                   SelectPcg (Some [Sample.heart_wav]); ToggleAudio]
                  initial_world)).
Defined.
